(** * Purchase verification of the store bot (main.py)

    A shallow embedding of the purchase-verification workflow of [main.py]:
    the two Roblox API helpers, the item-selection menu and the purchase
    confirmation view with its two buttons, together with an event-loop model
    of how their coroutines interleave.

    Conventions of the embedding.
    - JSON documents decoded by [response.json()] are values of [json]; the
      Python operations the helpers apply to them ([str], truthiness, [in],
      [.get], subscripting, iteration) are written out with the exception each
      raises on a value of the wrong shape.
    - A callback is a term of [prog]: a tree whose nodes are the calls it
      makes.  [Await] and [WaitFor] are the points at which an [await] hands
      control back to the event loop; [Request] is a blocking [requests] call;
      the remaining nodes read and write the fields of the view object.
    - In [exec] and [step] calls to the chat platform (sending, editing)
      complete; the failures modelled there are the ones the source names
      ([RequestException], [asyncio.TimeoutError]) and the ones its own
      expressions raise on unexpected JSON ([TypeError], [KeyError],
      [AttributeError]).  [Faulty] reads [bought_button] with platform calls
      that can raise.
    - Logging is not observable by the buyer and is left out.
    - Two readings of a callback are given.  [exec] runs one callback from
      its first line to its last; [step] runs the callbacks of one view in
      the event loop, each from one [await] to the next, in any order the
      events allow.  A verification run reads the shared view once, at its
      guard, so what it does is stated on [exec]; what other callbacks can do
      to it meanwhile is stated on [step]. *)

From Stdlib Require Import List ZArith Bool Lia String Ascii Arith.
From Stdlib Require Import DecimalString.
Import ListNotations.
Open Scope string_scope.
Open Scope Z_scope.

Set Implicit Arguments.
Set Warnings "-register-all".

(** ** Python values *)

Module Py.

(** A decoded JSON document.  A float is kept as the text [repr] prints for
    it, since nothing below computes with floats.  A dict is its list of
    items in insertion order; [dict_get] takes the first binding of a key. *)
Inductive json : Type :=
| JNull
| JBool (b : bool)
| JInt (z : Z)
| JFloat (text : string)
| JStr (s : string)
| JList (l : list json)
| JDict (d : list (string * json)).

Inductive exc : Type :=
| RequestException
| TimeoutError
| TypeError
| KeyError
| IndexError
| AttributeError
| HTTPException.    (* discord.HTTPException: a call to the chat platform failed *)

Inductive res (A : Type) : Type :=
| Ok (a : A)
| Err (e : exc).
Arguments Ok {A} a.
Arguments Err {A} e.

Fixpoint dict_get (d : list (string * json)) (key : string) : option json :=
  match d with
  | [] => None
  | (k, v) :: rest => if String.eqb k key then Some v else dict_get rest key
  end.

(** [str(int)] *)
Definition str_of_Z (z : Z) : string := NilZero.string_of_int (Z.to_int z).

Fixpoint string_mem (c : ascii) (s : string) : bool :=
  match s with
  | EmptyString => false
  | String c' rest => if Ascii.eqb c c' then true else string_mem c rest
  end.

Definition dquote : ascii := ascii_of_N 34.

Definition hex_digit (n : N) : ascii :=
  ascii_of_N (if (n <? 10)%N then 48 + n else 87 + n)%N.

(** One character of [repr(str)], for the quote character [q]. *)
Definition repr_char (q c : ascii) : string :=
  let n := N_of_ascii c in
  if Ascii.eqb c q || Ascii.eqb c "\"%char then String "\"%char (String c EmptyString)
  else if (n =? 9)%N then "\t"
  else if (n =? 10)%N then "\n"
  else if (n =? 13)%N then "\r"
  else if ((n <? 32) || (n =? 127))%N
       then String "\"%char (String "x"%char
              (String (hex_digit (n / 16)) (String (hex_digit (n mod 16)) EmptyString)))
  else String c EmptyString.

Fixpoint repr_chars (q : ascii) (s : string) : string :=
  match s with
  | EmptyString => EmptyString
  | String c rest => repr_char q c ++ repr_chars q rest
  end.

(** [repr(str)]: single quotes, unless the text has a single quote and no
    double quote.  Bytes above 127 are kept, as Python keeps printable
    characters. *)
Definition repr_str (s : string) : string :=
  let q := if string_mem "'"%char s && negb (string_mem dquote s)
           then dquote else "'"%char in
  String q (repr_chars q s ++ String q EmptyString).

Fixpoint join (sep : string) (l : list string) : string :=
  match l with
  | [] => EmptyString
  | [x] => x
  | x :: rest => x ++ sep ++ join sep rest
  end.

(** [repr(value)] *)
Fixpoint py_repr (v : json) : string :=
  match v with
  | JNull => "None"
  | JBool true => "True"
  | JBool false => "False"
  | JInt z => str_of_Z z
  | JFloat t => t
  | JStr s => repr_str s
  | JList l => "[" ++ join ", " (map py_repr l) ++ "]"
  | JDict d =>
      "{" ++ join ", " (map (fun kv => repr_str (fst kv) ++ ": " ++ py_repr (snd kv)) d) ++ "}"
  end.

(** [str(value)]: the text itself for a string, [repr] otherwise. *)
Definition py_str (v : json) : string :=
  match v with
  | JStr s => s
  | _ => py_repr v
  end.

(** Truth value of a JSON value, as [if v] and [not v] take it. *)
Definition truthy (v : json) : bool :=
  match v with
  | JNull => false
  | JBool b => b
  | JInt z => negb (z =? 0)
  | JFloat t => negb (String.eqb t "0.0" || String.eqb t "-0.0")
  | JStr s => match s with EmptyString => false | _ => true end
  | JList l => match l with [] => false | _ => true end
  | JDict d => match d with [] => false | _ => true end
  end.

(** [needle in hay] for two strings. *)
Fixpoint is_substring (needle hay : string) : bool :=
  if String.prefix needle hay then true
  else match hay with
       | EmptyString => false
       | String _ rest => is_substring needle rest
       end.

Definition is_str (key : string) (v : json) : bool :=
  match v with
  | JStr s => String.eqb s key
  | _ => false
  end.

(** [key in v] *)
Definition contains (key : string) (v : json) : res bool :=
  match v with
  | JDict d => Ok (match dict_get d key with Some _ => true | None => false end)
  | JList l => Ok (existsb (is_str key) l)
  | JStr s => Ok (is_substring key s)
  | _ => Err TypeError
  end.

(** [v.get(key)], which only a dict has. *)
Definition method_get (v : json) (key : string) : res json :=
  match v with
  | JDict d => Ok (match dict_get d key with Some x => x | None => JNull end)
  | _ => Err AttributeError
  end.

(** [v[key]] for a string key. *)
Definition getitem_str (v : json) (key : string) : res json :=
  match v with
  | JDict d => match dict_get d key with Some x => Ok x | None => Err KeyError end
  | _ => Err TypeError
  end.

(** [v[i]] for an integer index [i >= 0].  A decoded JSON dict has string
    keys only, so an integer key is never found. *)
Definition getitem_int (v : json) (i : nat) : res json :=
  match v with
  | JList l => match nth_error l i with Some x => Ok x | None => Err IndexError end
  | JStr s => match String.get i s with
              | Some c => Ok (JStr (String c EmptyString))
              | None => Err IndexError
              end
  | JDict _ => Err KeyError
  | _ => Err TypeError
  end.

(** [len(v)] *)
Definition py_len (v : json) : res nat :=
  match v with
  | JList l => Ok (List.length l)
  | JStr s => Ok (String.length s)
  | JDict d => Ok (List.length d)
  | _ => Err TypeError
  end.

Fixpoint chars (s : string) : list json :=
  match s with
  | EmptyString => []
  | String c rest => JStr (String c EmptyString) :: chars rest
  end.

(** The values [for x in v] goes through. *)
Definition iterate (v : json) : res (list json) :=
  match v with
  | JList l => Ok l
  | JStr s => Ok (chars s)
  | JDict d => Ok (map (fun kv => JStr (fst kv)) d)
  | _ => Err TypeError
  end.

Definition is_space (c : ascii) : bool :=
  let n := N_of_ascii c in
  ((9 <=? n) && (n <=? 13) || (28 <=? n) && (n <=? 32))%N.

Fixpoint lstrip (s : string) : string :=
  match s with
  | EmptyString => EmptyString
  | String c rest => if is_space c then lstrip rest else s
  end.

Fixpoint rstrip (s : string) : string :=
  match s with
  | EmptyString => EmptyString
  | String c rest =>
      match rstrip rest with
      | EmptyString => if is_space c then EmptyString else String c EmptyString
      | r => String c r
      end
  end.

(** [s.strip()], on the ASCII white space.  Python strips the other Unicode
    white space too (U+0085, U+00A0, U+2000 and the like); a text that
    begins or ends with one of these is outside what is modelled. *)
Definition strip (s : string) : string := rstrip (lstrip s).

End Py.

(** ** Callbacks as programs *)

Module Bot.
Import Py.

(** An entry of the catalogue file: the dict [upload] writes. *)
Record Item : Type := mkItem {
  name : string;
  file_url : string;
  gamepass_id : json
}.

(** A chat message as [bot.wait_for('message')] receives it. *)
Record message : Type := mkMessage {
  author : Z;
  is_dm : bool;
  content : string
}.

(** The texts the callbacks send, by the place that sends them. *)
Inductive notice : Type :=
| MenuNotForYou                       (* "This menu is not for you!" *)
| ItemNotFound                        (* "Item not found!" *)
| PurchasePrompt (it : Item) (url : string)  (* embed and confirmation view *)
| NotForYou                           (* "This is not for you!" *)
| AlreadyInProgress                   (* "Verification already in progress..." *)
| Verifying                           (* "Verifying your purchase... Please wait." *)
| AskUsername                         (* "Please provide your Roblox username:" *)
| UsernameNotFound                    (* "Could not find that Roblox username. ..." *)
| AttemptNotice (n : nat)             (* "Verification attempt n/5... Checking again in 5 seconds." *)
| PurchaseVerified (item_name : string)  (* "Purchase verified! Here's your item: ..." *)
| FileLink (url : string)             (* the item's file_url *)
| VerificationFailed (username : string) (gid : json)
| VerificationTimedOut                (* "Verification timed out. Please try again." *)
| VerificationError                   (* "An error occurred during verification. ..." *)
| PurchaseCancelled.                  (* "Purchase cancelled." *)

(** The awaited calls to the chat platform and to the clock. *)
Inductive io : Type :=
| Respond (ephemeral : bool) (n : notice)   (* interaction.response.send_message *)
| Followup (n : notice)                     (* interaction.followup.send *)
| EditMessage                               (* interaction.message.edit(view=self) *)
| Sleep (seconds : nat).                    (* asyncio.sleep *)

(** The blocking calls of [requests]. *)
Inductive request : Type :=
| Post (url : string) (usernames : list string)
| Get (url : string).

(** What a [requests] call followed by [raise_for_status] and [.json()]
    gives: the decoded body, or a [RequestException] (no connection, time
    out, an error status, a body that is not JSON). *)
Inductive http_result : Type :=
| Failed
| Body (data : json).

Inductive prog (A : Type) : Type :=
| Ret (a : A)
| Raise (e : exc)
| Await (c : io) (k : prog A)
| WaitFor (check : message -> bool) (timeout : nat) (k : option message -> prog A)
| Request (r : request) (k : http_result -> prog A)
| GetProcessing (k : bool -> prog A)
| SetProcessing (b : bool) (k : prog A)
| DisableChildren (k : prog A).
Arguments Ret {A} a.
Arguments Raise {A} e.
Arguments Await {A} c k.
Arguments WaitFor {A} check timeout k.
Arguments Request {A} r k.
Arguments GetProcessing {A} k.
Arguments SetProcessing {A} b k.
Arguments DisableChildren {A} k.

Fixpoint bind {A B : Type} (p : prog A) (f : A -> prog B) : prog B :=
  match p with
  | Ret a => f a
  | Raise e => Raise e
  | Await c k => Await c (bind k f)
  | WaitFor chk t k => WaitFor chk t (fun m => bind (k m) f)
  | Request r k => Request r (fun x => bind (k x) f)
  | GetProcessing k => GetProcessing (fun b => bind (k b) f)
  | SetProcessing b k => SetProcessing b (bind k f)
  | DisableChildren k => DisableChildren (bind k f)
  end.

(** [try: p  except e: handler e] *)
Fixpoint try_except {A : Type} (p : prog A) (handler : exc -> prog A) : prog A :=
  match p with
  | Ret a => Ret a
  | Raise e => handler e
  | Await c k => Await c (try_except k handler)
  | WaitFor chk t k => WaitFor chk t (fun m => try_except (k m) handler)
  | Request r k => Request r (fun x => try_except (k x) handler)
  | GetProcessing k => GetProcessing (fun b => try_except (k b) handler)
  | SetProcessing b k => SetProcessing b (try_except k handler)
  | DisableChildren k => DisableChildren (try_except k handler)
  end.

(** [try: p  finally: fin]: [fin] runs on a return and on an exception, which
    then goes on. *)
Fixpoint try_finally {A : Type} (p : prog A) (fin : prog unit) : prog A :=
  match p with
  | Ret a => bind fin (fun _ => Ret a)
  | Raise e => bind fin (fun _ => Raise e)
  | Await c k => Await c (try_finally k fin)
  | WaitFor chk t k => WaitFor chk t (fun m => try_finally (k m) fin)
  | Request r k => Request r (fun x => try_finally (k x) fin)
  | GetProcessing k => GetProcessing (fun b => try_finally (k b) fin)
  | SetProcessing b k => SetProcessing b (try_finally k fin)
  | DisableChildren k => DisableChildren (try_finally k fin)
  end.

Definition lift {A : Type} (r : res A) : prog A :=
  match r with
  | Ok a => Ret a
  | Err e => Raise e
  end.

Declare Scope prog_scope.
Delimit Scope prog_scope with prog.
Notation "x <- p ;; q" := (bind p (fun x => q))
  (at level 61, p at next level, right associativity) : prog_scope.
Notation "p ;; q" := (bind p (fun _ => q))
  (at level 61, right associativity) : prog_scope.
Open Scope prog_scope.

Definition await (c : io) : prog unit := Await c (Ret tt).
Definition set_processing (b : bool) : prog unit := SetProcessing b (Ret tt).
Definition disable_children : prog unit := DisableChildren (Ret tt).
Definition get_processing : prog bool := GetProcessing (fun b => Ret b).

(** [bot.wait_for('message', timeout=t, check=chk)] *)
Definition wait_for (chk : message -> bool) (t : nat) : prog message :=
  WaitFor chk t (fun r => match r with
                          | Some m => Ret m
                          | None => Raise TimeoutError
                          end).

(** [requests.post] / [requests.get], then [raise_for_status()] and [.json()]. *)
Definition requests_json (r : request) : prog json :=
  Request r (fun x => match x with
                      | Failed => Raise RequestException
                      | Body data => Ret data
                      end).

(** *** The Roblox API helpers *)

Definition users_url : string := "https://users.roblox.com/v1/usernames/users".

Definition game_passes_url (user_id : json) : string :=
  "https://apis.roblox.com/game-passes/v1/users/" ++ py_str user_id
    ++ "/game-passes?count=100".

(** What [get_user_id_from_username] makes of the decoded body. *)
Definition user_id_of_body (data : json) : res json :=
  match method_get data "data" with
  | Err e => Err e
  | Ok d =>
      if truthy d then
        match py_len d with
        | Err e => Err e
        | Ok n =>
            if (0 <? n)%nat then
              match getitem_int d 0 with
              | Err e => Err e
              | Ok first => getitem_str first "id"
              end
            else Ok JNull
        end
      else Ok JNull
  end.

Definition get_user_id_from_username (username : string) : prog json :=
  try_except
    (data <- requests_json (Post users_url [username]) ;;
     lift (user_id_of_body data))
    (fun e => match e with
              | RequestException => Ret JNull
              | _ => Raise e
              end).

(** The [for gamepass in data["gamePasses"]] loop. *)
Fixpoint scan_game_passes (passes : list json) (gamepass_id : json) : res bool :=
  match passes with
  | [] => Ok false
  | gamepass :: rest =>
      match method_get gamepass "gamePassId" with
      | Err e => Err e
      | Ok v =>
          if String.eqb (py_str v) (py_str gamepass_id) then Ok true
          else scan_game_passes rest gamepass_id
      end
  end.

(** What [check_gamepass_ownership] makes of the decoded body. *)
Definition owns_in_body (data : json) (gamepass_id : json) : res bool :=
  match contains "gamePasses" data with
  | Err e => Err e
  | Ok true =>
      match getitem_str data "gamePasses" with
      | Err e => Err e
      | Ok v =>
          match iterate v with
          | Err e => Err e
          | Ok passes => scan_game_passes passes gamepass_id
          end
      end
  | Ok false => Ok false
  end.

Definition check_gamepass_ownership (user_id gamepass_id : json) : prog bool :=
  try_except
    (data <- requests_json (Get (game_passes_url user_id)) ;;
     lift (owns_in_body data gamepass_id))
    (fun e => match e with
              | RequestException => Ret false
              | _ => Raise e
              end).

(** *** The views *)

Inductive button_id : Type := IBoughtIt | Nevermind.

Record Button : Type := mkButton {
  label : button_id;
  disabled : bool
}.

(** The fields [PurchaseConfirmView.__init__] sets and nothing reassigns. *)
Record PurchaseConfirmView : Type := mkView {
  item : Item;
  user : Z;
  gamepass_url : string
}.

(** [ItemSelectView.select_callback], for the catalogue [load_data()] reads.
    It returns the confirmation view it attaches to its answer, if any. *)
Definition select_callback (self_user : Z) (catalogue : list Item)
    (who : Z) (selected_item_name : string) : prog (option PurchaseConfirmView) :=
  if negb (who =? self_user) then
    await (Respond true MenuNotForYou) ;; Ret None
  else
    match find (fun i => String.eqb (name i) selected_item_name) catalogue with
    | None => await (Respond true ItemNotFound) ;; Ret None
    | Some it =>
        let url := "https://www.roblox.com/game-pass/" ++ py_str (gamepass_id it) in
        let view := mkView it self_user url in
        await (Respond false (PurchasePrompt it url)) ;; Ret (Some view)
    end.

(** The [check] closure of [bought_button]. *)
Definition check (who : Z) (m : message) : bool := (author m =? who) && is_dm m.

(** The loop [for attempt in range(5)], returning [verified]. *)
Fixpoint verification_attempts (user_id gid : json) (attempts : list nat) : prog bool :=
  match attempts with
  | [] => Ret false
  | attempt :: rest =>
      owned <- check_gamepass_ownership user_id gid ;;
      if owned then Ret true
      else
        (if (attempt <? 4)%nat then
           await (Followup (AttemptNotice (attempt + 1))) ;;
           await (Sleep 5)
         else Ret tt) ;;
        verification_attempts user_id gid rest
  end.

(** The body of the [try] of [bought_button]. *)
Definition verification (self : PurchaseConfirmView) (who : Z) : prog unit :=
  msg <- wait_for (check who) 60 ;;
  let roblox_username := strip (content msg) in
  user_id <- get_user_id_from_username roblox_username ;;
  if negb (truthy user_id) then
    await (Followup UsernameNotFound) ;;
    set_processing false
  else
    verified <- verification_attempts user_id (gamepass_id (item self)) (seq 0 5) ;;
    if verified then
      await (Followup (PurchaseVerified (name (item self)))) ;;
      await (Followup (FileLink (file_url (item self)))) ;;
      disable_children ;;
      await EditMessage
    else
      await (Followup (VerificationFailed roblox_username (gamepass_id (item self)))).

Definition on_exception (e : exc) : prog unit :=
  match e with
  | TimeoutError => await (Followup VerificationTimedOut)
  | _ => await (Followup VerificationError)
  end.

(** [PurchaseConfirmView.bought_button], pressed by [who]. *)
Definition bought_button (self : PurchaseConfirmView) (who : Z) : prog unit :=
  if negb (who =? user self) then
    await (Respond true NotForYou)
  else
    busy <- get_processing ;;
    if busy then
      await (Respond true AlreadyInProgress)
    else
      set_processing true ;;
      await (Respond true Verifying) ;;
      await (Followup AskUsername) ;;
      try_finally
        (try_except (verification self who) on_exception)
        (set_processing false).

(** [PurchaseConfirmView.cancel_button], pressed by [who]. *)
Definition cancel_button (self : PurchaseConfirmView) (who : Z) : prog unit :=
  if negb (who =? user self) then
    await (Respond true NotForYou)
  else
    await (Respond true PurchaseCancelled) ;;
    disable_children ;;
    await EditMessage.

(** ** Running one callback on its own *)

(** What the outside sees of a run, in order. *)
Inductive obs : Type :=
| Io (c : io)
| Edited (shown : list Button)
| Http (r : request) (x : http_result).

(** The mutable part of a confirmation view, with the record of what the
    callbacks did and the number of [requests] calls so far. *)
Record state : Type := mkState {
  is_processing : bool;
  children : list Button;
  trace : list obs;
  calls : nat
}.

Definition new_view : state :=
  mkState false [mkButton IBoughtIt false; mkButton Nevermind false] [] 0.

Definition emit (o : obs) (st : state) : state :=
  mkState (is_processing st) (children st) (trace st ++ [o]) (calls st).

Definition answered (r : request) (x : http_result) (st : state) : state :=
  mkState (is_processing st) (children st) (trace st ++ [Http r x]) (S (calls st)).

Definition set_flag (b : bool) (st : state) : state :=
  mkState b (children st) (trace st) (calls st).

Definition observe (c : io) (st : state) : obs :=
  match c with
  | EditMessage => Edited (children st)
  | _ => Io c
  end.

Definition disable_all (cs : list Button) : list Button :=
  map (fun c => mkButton (label c) true) cs.

Definition disable (st : state) : state :=
  mkState (is_processing st) (disable_all (children st)) (trace st) (calls st).

(** The surroundings of a run: the messages that arrive while it waits, in
    order, and the answer of the network to the [n]-th call. *)
Record world : Type := mkWorld {
  inbox : list message;
  net : nat -> request -> http_result
}.

(** [exec w p st] runs [p] to its end with every [await] completing at once. *)
Fixpoint exec {A : Type} (w : world) (p : prog A) (st : state) : res A * state :=
  match p with
  | Ret a => (Ok a, st)
  | Raise e => (Err e, st)
  | Await c k => exec w k (emit (observe c st) st)
  | WaitFor chk _ k => exec w (k (find chk (inbox w))) st
  | Request r k =>
      let x := net w (calls st) r in
      exec w (k x) (answered r x st)
  | GetProcessing k => exec w (k (is_processing st)) st
  | SetProcessing b k => exec w k (set_flag b st)
  | DisableChildren k => exec w k (disable st)
  end.

(** The outcome of one ownership check, from the answer of the network. *)
Definition ownership (x : http_result) (gamepass_id : json) : res bool :=
  match x with
  | Failed => Ok false
  | Body data => owns_in_body data gamepass_id
  end.

(** The account id a resolution ends with, from the answer of the network. *)
Definition resolution (x : http_result) : res json :=
  match x with
  | Failed => Ok JNull
  | Body data => user_id_of_body data
  end.

Definition all_disabled (cs : list Button) : bool := forallb disabled cs.

Definition is_get (o : obs) : bool :=
  match o with Http (Get _) _ => true | _ => false end.

Definition is_post (o : obs) : bool :=
  match o with Http (Post _ _) _ => true | _ => false end.

Definition is_file_link (o : obs) : bool :=
  match o with
  | Io (Followup (FileLink _)) => true
  | _ => false
  end.

(** A check of the run that found the pass. *)
Definition owned_check (gamepass_id : json) (o : obs) : bool :=
  match o with
  | Http (Get _) x =>
      match ownership x gamepass_id with
      | Ok true => true
      | _ => false
      end
  | _ => false
  end.

Definition is_run_start (o : obs) : bool :=
  match o with Io (Respond true Verifying) => true | _ => false end.

Definition count (f : obs -> bool) (t : list obs) : nat := List.length (filter f t).

(** ** The event loop

    A callback runs until its next [await]; there it waits in the pool while
    other callbacks of the same view run.  [requests] calls block: no other
    callback runs during them.  A call is recorded in the trace when the
    callback makes it; an edit of the message reaches the buyer's client when
    it completes.  A message is handed to one waiting callback at a time (the
    library hands it to every waiter whose check accepts it; a view never has
    two, see [Inv]).  Time is not measured: a wait may time out, and the view
    may expire, at any moment. *)

Inductive task : Type :=
| Finished
| OnIo (pending : obs) (k : prog unit)
| OnMessage (chk : message -> bool) (k : option message -> prog unit).

(** Run [p] up to its next [await].  An exception that leaves a callback is
    logged by the library and ends it. *)
Fixpoint advance (answer : nat -> request -> http_result) (p : prog unit) (st : state)
  : state * task :=
  match p with
  | Ret _ => (st, Finished)
  | Raise _ => (st, Finished)
  | Await c k => (emit (observe c st) st, OnIo (observe c st) k)
  | WaitFor chk _ k => (st, OnMessage chk k)
  | Request r k =>
      let x := answer (calls st) r in
      advance answer (k x) (answered r x st)
  | GetProcessing k => advance answer (k (is_processing st)) st
  | SetProcessing b k => advance answer k (set_flag b st)
  | DisableChildren k => advance answer k (disable st)
  end.

(** One confirmation view in the event loop: the object, its callbacks that
    wait, the buttons as the buyer's client shows them, and whether the view
    has stopped listening (its 300 s timeout). *)
Record sys : Type := mkSys {
  view : state;
  pool : list task;
  shown : list Button;
  stopped : bool
}.

Inductive event : Type :=
| Press (b : button_id) (who : Z)     (* a click reaches the view *)
| Done (i : nat)                      (* the call task [i] awaits completes *)
| Message (i : nat) (m : message)     (* a message the check of task [i] accepts *)
| Timeout (i : nat)                   (* the wait of task [i] times out *)
| Expire.                             (* the view times out *)

Definition button_eqb (a b : button_id) : bool :=
  match a, b with
  | IBoughtIt, IBoughtIt | Nevermind, Nevermind => true
  | _, _ => false
  end.

(** Modelled from the spec: a control the platform shows as disabled sends no
    click (section 6, (e)); the library part that dispatches clicks is not in
    the repository. *)
Definition clickable (b : button_id) (cs : list Button) : bool :=
  existsb (fun c => button_eqb (label c) b && negb (disabled c)) cs.

Fixpoint set_nth {A : Type} (l : list A) (i : nat) (x : A) : list A :=
  match l, i with
  | [], _ => []
  | _ :: rest, O => x :: rest
  | y :: rest, S j => y :: set_nth rest j x
  end.

Definition callback (self : PurchaseConfirmView) (b : button_id) (who : Z) : prog unit :=
  match b with
  | IBoughtIt => bought_button self who
  | Nevermind => cancel_button self who
  end.

Definition resume (answer : nat -> request -> http_result) (s : sys) (i : nat)
    (p : prog unit) (shown' : list Button) : sys :=
  let (st, t) := advance answer p (view s) in
  mkSys st (set_nth (pool s) i t) shown' (stopped s).

Definition step (answer : nat -> request -> http_result) (self : PurchaseConfirmView)
    (s : sys) (e : event) : option sys :=
  match e with
  | Press b who =>
      if negb (stopped s) && clickable b (shown s) then
        let (st, t) := advance answer (callback self b who) (view s) in
        Some (mkSys st (pool s ++ [t]) (shown s) (stopped s))
      else None
  | Done i =>
      match nth_error (pool s) i with
      | Some (OnIo pending k) =>
          Some (resume answer s i k
                  (match pending with Edited cs => cs | _ => shown s end))
      | _ => None
      end
  | Message i m =>
      match nth_error (pool s) i with
      | Some (OnMessage chk k) =>
          if chk m then Some (resume answer s i (k (Some m)) (shown s)) else None
      | _ => None
      end
  | Timeout i =>
      match nth_error (pool s) i with
      | Some (OnMessage chk k) => Some (resume answer s i (k None) (shown s))
      | _ => None
      end
  | Expire => Some (mkSys (view s) (pool s) (shown s) true)
  end.

Fixpoint run (answer : nat -> request -> http_result) (self : PurchaseConfirmView)
    (evs : list event) (s : sys) : option sys :=
  match evs with
  | [] => Some s
  | e :: rest =>
      match step answer self s e with
      | Some s' => run answer self rest s'
      | None => None
      end
  end.

(** The view as [select_callback] has just attached it. *)
Definition init : sys := mkSys new_view [] (children new_view) false.

(** *** Shapes of callbacks

    The invariants of the event loop speak about what a waiting callback can
    still do.  They are read off the program trees. *)

(** The awaited calls that neither edit the message nor open a run. *)
Definition quiet (c : io) : bool :=
  match c with
  | EditMessage => false
  | Respond true Verifying => false
  | _ => true
  end.

(** A callback that only sends, and disables the buttons right before it
    edits the message: the rejections and [cancel_button]. *)
Inductive inert : prog unit -> Prop :=
| inert_ret a : inert (Ret a)
| inert_await c k : quiet c = true -> inert k -> inert (Await c k)
| inert_disable_edit k : inert k -> inert (DisableChildren (Await EditMessage k)).

(** [shape rel p g q]: [q] makes at most [p] POST and [g] GET calls and never
    sets the flag; with [rel] it may end by clearing it. *)
Inductive shape {A : Type} (rel : bool) : nat -> nat -> prog A -> Prop :=
| shape_ret p g a : shape rel p g (Ret a)
| shape_raise p g e : shape rel p g (Raise e)
| shape_await p g c k : quiet c = true -> shape rel p g k -> shape rel p g (Await c k)
| shape_wait p g chk t k :
    (forall m, shape rel p g (k m)) -> shape rel p g (WaitFor chk t k)
| shape_post p g url us k :
    (forall x, shape rel p g (k x)) -> shape rel (S p) g (Request (Post url us) k)
| shape_get p g url k :
    (forall x, shape rel p g (k x)) -> shape rel p (S g) (Request (Get url) k)
| shape_disable_edit p g k :
    shape rel p g k -> shape rel p g (DisableChildren (Await EditMessage k))
| shape_release p g a : rel = true -> shape rel p g (SetProcessing false (Ret a)).

(** Nothing left to do but to clear the flag again and return. *)
Inductive released : prog unit -> Prop :=
| released_ret a : released (Ret a)
| released_again k : released k -> released (SetProcessing false k).

(** The rest of a verification run: it holds the flag, makes at most [p] POST
    and [g] GET calls, and clears the flag in the stretch that ends it. *)
Inductive holder : nat -> nat -> prog unit -> Prop :=
| holder_await p g c k : quiet c = true -> holder p g k -> holder p g (Await c k)
| holder_wait p g chk t k :
    (forall m, holder p g (k m)) -> holder p g (WaitFor chk t k)
| holder_post p g url us k :
    (forall x, holder p g (k x)) -> holder (S p) g (Request (Post url us) k)
| holder_get p g url k :
    (forall x, holder p g (k x)) -> holder p (S g) (Request (Get url) k)
| holder_disable_edit p g k :
    holder p g k -> holder p g (DisableChildren (Await EditMessage k))
| holder_release p g k : released k -> holder p g (SetProcessing false k).

Definition edit_ok (o : obs) : Prop :=
  match o with
  | Edited cs => all_disabled cs = true
  | _ => True
  end.

Definition inert_task (t : task) : Prop :=
  match t with
  | Finished => True
  | OnIo o k => edit_ok o /\ inert k
  | OnMessage _ _ => False
  end.

Definition holder_task (p g : nat) (t : task) : Prop :=
  match t with
  | Finished => False
  | OnIo o k => edit_ok o /\ holder p g k
  | OnMessage _ k => forall m, holder p g (k m)
  end.

Definition posts (s : sys) : nat := count is_post (trace (view s)).
Definition gets (s : sys) : nat := count is_get (trace (view s)).
Definition runs_started (s : sys) : nat := count is_run_start (trace (view s)).

(** The invariant of the event loop: while the flag is set exactly one
    waiting callback is a verification run, within what is left of its five
    checks; otherwise no run waits. *)
Definition Inv (s : sys) : Prop :=
  if is_processing (view s) then
    exists i p g t,
      nth_error (pool s) i = Some t /\ holder_task p g t /\
      (forall j t', j <> i -> nth_error (pool s) j = Some t' -> inert_task t') /\
      (posts s + p <= runs_started s)%nat /\
      (gets s + g <= 5 * runs_started s)%nat
  else
    (forall j t', nth_error (pool s) j = Some t' -> inert_task t') /\
    (posts s <= runs_started s)%nat /\
    (gets s <= 5 * runs_started s)%nat.

Definition is_bought_press (e : event) : bool :=
  match e with
  | Press IBoughtIt _ => true
  | _ => false
  end.

(** *** The listing endpoint *)

(** Modelled from the spec: the listing endpoint of the verification platform
    (section 6), which answers [count=100] with the first 100 passes of the
    account, each as an object with its [gamePassId]. *)
Definition listing (holdings : list json) : json :=
  JDict [("gamePasses",
          JList (map (fun id => JDict [("gamePassId", id)]) (firstn 100 holdings)))].

Definition platform (account : json) (holdings : list json)
  : nat -> request -> http_result :=
  fun _ r =>
    match r with
    | Get url =>
        if String.eqb url (game_passes_url account) then Body (listing holdings)
        else Failed
    | Post _ _ => Failed
    end.

Definition same_id (gamepass_id : json) (v : json) : bool :=
  String.eqb (py_str v) (py_str gamepass_id).

(** [gamepass.get("gamePassId")] of a listed entry that is an object. *)
Definition entry_id (entry : json) : json :=
  match entry with
  | JDict d => match dict_get d "gamePassId" with Some x => x | None => JNull end
  | _ => JNull
  end.

Definition is_dict (v : json) : bool :=
  match v with JDict _ => true | _ => false end.

(** The stretch between two attempts: the notice and the delay, except
    after the last one. *)
Definition pause (attempt : nat) (st : state) : state :=
  if (attempt <? 4)%nat then
    emit (Io (Sleep 5)) (emit (Io (Followup (AttemptNotice (attempt + 1)))) st)
  else st.

Definition delivered (it : Item) (st : state) : state :=
  let st1 := disable (emit (Io (Followup (FileLink (file_url it))))
                        (emit (Io (Followup (PurchaseVerified (name it)))) st)) in
  emit (Edited (children st1)) st1.

Definition error_notice (e : exc) : notice :=
  match e with
  | TimeoutError => VerificationTimedOut
  | _ => VerificationError
  end.

(** A counter that does not see what the loop sends between two checks. *)
Definition skips_pauses (f : obs -> bool) : Prop :=
  (forall n, f (Io (Followup (AttemptNotice n))) = false)
  /\ (forall n, f (Io (Sleep n)) = false).

(** The three meters of a trace the invariant reads. *)
Definition meters (st : state) : nat * nat * nat :=
  (count is_post (trace st), count is_get (trace st), count is_run_start (trace st)).

(** [st'] is [st] after callbacks that only send, or disable the buttons:
    the flag and the count of requests are the same, the buttons are the same
    or disabled, and the trace is whatever it is. *)
Definition undisturbed (st st' : state) : Prop :=
  is_processing st' = is_processing st
  /\ calls st' = calls st
  /\ (children st' = children st \/ children st' = disable_all (children st)).

(** *** Data of the examples *)

Definition a_listing_of (id : json) : http_result :=
  Body (JDict [("gamePasses", JList [JDict [("gamePassId", JInt 7)];
                                    JDict [("gamePassId", id)]])]).

Definition hundred_and_one : list json := map (fun n => JInt (Z.of_nat n)) (seq 1 101).

(** The scenario of the specification: item "Skin A" with pass 999, buyer
    [7] who answers "Bob", resolved to account 123. *)
Definition skin_a : Item := mkItem "Skin A" "https://files/skinA" (JStr "999").

Definition session : PurchaseConfirmView :=
  mkView skin_a 7 "https://www.roblox.com/game-pass/999".

Definition bob : message := mkMessage 7 true "Bob".

Definition account_123 : http_result :=
  Body (JDict [("data", JList [JDict [("id", JInt 123)]])]).

(** The network of the scenario: the name resolves, the first two checks
    find another pass only, the later ones find pass 999. *)
Definition owned_on_third (n : nat) (r : request) : http_result :=
  match n with
  | 0%nat => account_123
  | 1%nat | 2%nat => a_listing_of (JInt 8)
  | _ => a_listing_of (JInt 999)
  end.

(** A network on which the name resolves and every check fails. *)
Definition never_owned (n : nat) (r : request) : http_result :=
  match n with
  | 0%nat => account_123
  | _ => Failed
  end.

(** The buyer presses "I Bought It" and both opening messages go out: the
    run now waits for the account name. *)
Definition until_waiting : list event := [Press IBoughtIt 7; Done 0; Done 0].

(** The rest of a run whose five checks all fail: the name arrives, each of
    the first four checks is followed by its notice and its delay, and the
    failure notice goes out. *)
Definition five_failed_checks : list event :=
  Message 0 bob :: repeat (Done 0) 9.

(** The rest of the run of the scenario, up to its last call. *)
Definition delivery : list event :=
  Message 0 bob :: repeat (Done 0) 7.

(** A press of "Nevermind" by the buyer, as task 1, until its edit is done. *)
Definition nevermind : list event := [Press Nevermind 7; Done 1; Done 1].

Definition is_cancel_notice (o : obs) : bool :=
  match o with
  | Io (Respond true PurchaseCancelled) => true
  | _ => false
  end.

Definition is_failure_notice (o : obs) : bool :=
  match o with
  | Io (Followup (VerificationFailed _ _)) => true
  | _ => false
  end.

(** What a schedule leads to from the fresh view, read through [f]. *)
Definition after {A : Type} (answer : nat -> request -> http_result)
    (self : PurchaseConfirmView) (evs : list event) (f : sys -> A) : option A :=
  option_map f (run answer self evs init).

(** The view of the scenario right after the buyer pressed "I Bought It". *)
Definition just_pressed : sys :=
  mkSys (emit (Io (Respond true Verifying)) (set_flag true new_view))
    [OnIo (Io (Respond true Verifying))
       (await (Followup AskUsername) ;;
        try_finally (try_except (verification session (user session)) on_exception)
          (set_processing false))]
    (children new_view) false.

(** The same view after the buyer then pressed "Nevermind". *)
Definition then_nevermind : sys :=
  mkSys (emit (Io (Respond true PurchaseCancelled)) (view just_pressed))
    (pool just_pressed ++
       [OnIo (Io (Respond true PurchaseCancelled))
          (DisableChildren (Await EditMessage (Ret tt)))])
    (shown just_pressed) (stopped just_pressed).

End Bot.

(** ** The catalogue and the owner's commands *)

Module Store.
Import Py Bot.

(** The catalogue file [DATA_FILE], by what [load_data] finds: no file, a
    file [json.load] cannot decode, or the document [{"items": [...]}] with
    the entries [upload] writes.  [json.dump] followed by [json.load] gives
    the entries back, so the file is kept decoded. *)
Inductive file : Type :=
| Absent
| Undecodable
| Holds (items : list Item).

(** [load_data()["items"]] *)
Definition load_data (f : file) : list Item :=
  match f with
  | Holds items => items
  | Absent | Undecodable => []
  end.

(** What can go wrong in [save_data], which logs every exception and goes
    on: [open] fails and the file is as before, or the write stops after
    [open] has emptied the file. *)
Inductive fault : Type :=
| NoFault
| CannotOpen
| FailsMidway.

Definition save_data (d : fault) (items : list Item) (f : file) : file :=
  match d with
  | NoFault => Holds items
  | CannotOpen => f
  | FailsMidway => Undecodable
  end.

(** A [discord.Attachment], by the two attributes the commands read. *)
Record attachment : Type := mkAttachment {
  att_url : string;
  filename : string
}.

(** The answers of the commands. *)
Inductive reply : Type :=
| OwnerOnly                        (* "Only the server owner can use this command!" *)
| NameTaken (item_name : string)   (* "An item with the name '...' already exists!" *)
| ItemUploaded (item_name gamepass_id file_name : string)
| NoSuchItem (item_name : string)  (* "Item '...' not found!" *)
| ItemUpdated (item_name : string) (new_file new_gamepass_id : option string)
| ItemDeleted (item_name : string)
| NothingUploaded                  (* "No items uploaded yet." *)
| AllItems (items : list Item).    (* the count and one field per item *)

Definition named (item_name : string) (it : Item) : bool :=
  String.eqb (name it) item_name.

(** [/upload], used by [who] in a guild owned by [owner]. *)
Definition upload (d : fault) (f : file) (owner who : Z)
    (item_name : string) (att : attachment) (gamepass_id : string) : file * reply :=
  if negb (who =? owner) then (f, OwnerOnly)
  else
    let data := load_data f in
    if existsb (named item_name) data then (f, NameTaken item_name)
    else
      let new_item := mkItem item_name (att_url att) (JStr gamepass_id) in
      (save_data d (data ++ [new_item]) f,
       ItemUploaded item_name gamepass_id (filename att)).

(** The assignments [edit] makes to the entry it found: a new file if one is
    given, a new id if one is given and it is not the empty string. *)
Definition edited (new_file : option attachment) (new_gamepass_id : option string)
    (it : Item) : Item :=
  let it1 := match new_file with
             | Some a => mkItem (name it) (att_url a) (gamepass_id it)
             | None => it
             end in
  match new_gamepass_id with
  | Some (String c rest) => mkItem (name it1) (file_url it1) (JStr (String c rest))
  | _ => it1
  end.

(** The list after the first entry named [item_name] is changed in place. *)
Fixpoint update_first (item_name : string) (change : Item -> Item) (items : list Item)
  : list Item :=
  match items with
  | [] => []
  | it :: rest =>
      if named item_name it then change it :: rest
      else it :: update_first item_name change rest
  end.

Definition given (new_gamepass_id : option string) : option string :=
  match new_gamepass_id with
  | Some (String c rest) => Some (String c rest)
  | _ => None
  end.

(** [/edit] *)
Definition edit (d : fault) (f : file) (owner who : Z) (item_name : string)
    (new_file : option attachment) (new_gamepass_id : option string) : file * reply :=
  if negb (who =? owner) then (f, OwnerOnly)
  else
    let data := load_data f in
    match find (named item_name) data with
    | None => (f, NoSuchItem item_name)
    | Some _ =>
        (save_data d (update_first item_name (edited new_file new_gamepass_id) data) f,
         ItemUpdated item_name (option_map filename new_file) (given new_gamepass_id))
    end.

(** [/delete] *)
Definition delete (d : fault) (f : file) (owner who : Z) (item_name : string)
  : file * reply :=
  if negb (who =? owner) then (f, OwnerOnly)
  else
    let data := load_data f in
    let kept := filter (fun i => negb (named item_name i)) data in
    if (List.length kept =? List.length data)%nat then (f, NoSuchItem item_name)
    else (save_data d kept f, ItemDeleted item_name).

(** [/showall] *)
Definition showall (f : file) (owner who : Z) : reply :=
  if negb (who =? owner) then OwnerOnly
  else
    match load_data f with
    | [] => NothingUploaded
    | items => AllItems items
    end.

(** [str.lower()], on the ASCII letters.  A byte above 127 is kept and no
    such byte is part of "buyitem", which is all the result is compared
    with. *)
Definition lower_char (c : ascii) : ascii :=
  let n := N_of_ascii c in
  if ((65 <=? n) && (n <=? 90))%N then ascii_of_N (n + 32) else c.

Fixpoint lower (s : string) : string :=
  match s with
  | EmptyString => EmptyString
  | String c rest => String (lower_char c) (lower rest)
  end.

(** What [on_message] does, in order. *)
Inductive action : Type :=
| SayNothingForSale                                   (* "No items available for sale." *)
| OfferStore (menu_user : Z) (options : list string)  (* the embed and an ItemSelectView *)
| ProcessCommands.                                    (* bot.process_commands(message) *)

(** [on_message], for a message whose author is a bot or not. *)
Definition on_message (f : file) (author_is_bot : bool) (m : message) : list action :=
  if author_is_bot then []
  else if is_dm m && String.eqb (lower (content m)) "buyitem" then
    match load_data f with
    | [] => [SayNothingForSale]
    | items => [OfferStore (author m) (map name items); ProcessCommands]
    end
  else [ProcessCommands].

Definition names (items : list Item) : list string := map name items.

(** The URL of the purchase prompt of an entry. *)
Definition prompt_url (it : Item) : string :=
  "https://www.roblox.com/game-pass/" ++ py_str (gamepass_id it).

End Store.

(** ** More about runs: what they wait for, sleep and deliver *)

Module Run.
Import Py Bot.

(** The seconds a trace spends in [asyncio.sleep]. *)
Fixpoint slept (t : list obs) : nat :=
  match t with
  | [] => 0
  | Io (Sleep n) :: rest => n + slept rest
  | _ :: rest => slept rest
  end.

Definition is_attempt_notice (o : obs) : bool :=
  match o with
  | Io (Followup (AttemptNotice _)) => true
  | _ => false
  end.

(** A press of "I Bought It" by [buyer]. *)
Definition is_press_of (buyer : Z) (e : event) : bool :=
  match e with
  | Press IBoughtIt who => who =? buyer
  | _ => false
  end.

Definition is_link (c : io) : bool :=
  match c with
  | Followup (FileLink _) => true
  | _ => false
  end.

(** A program that sends no file link. *)
Inductive linkless {A : Type} : prog A -> Prop :=
| linkless_ret a : linkless (Ret a)
| linkless_raise e : linkless (Raise e)
| linkless_await c k : is_link c = false -> linkless k -> linkless (Await c k)
| linkless_wait chk t k : (forall m, linkless (k m)) -> linkless (WaitFor chk t k)
| linkless_request r k : (forall x, linkless (k x)) -> linkless (Request r k)
| linkless_get k : (forall b, linkless (k b)) -> linkless (GetProcessing k)
| linkless_set b k : linkless k -> linkless (SetProcessing b k)
| linkless_disable k : linkless k -> linkless (DisableChildren k).

(** What follows the file link in a run: the buttons are disabled, the
    message is edited, and the flag is given back. *)
Inductive closing : prog unit -> Prop :=
| closing_intro r : released r -> closing (DisableChildren (Await EditMessage r)).

(** A program that sends the file link at most once, and then only closes. *)
Inductive once : prog unit -> Prop :=
| once_ret a : once (Ret a)
| once_raise e : once (Raise e)
| once_await c k : is_link c = false -> once k -> once (Await c k)
| once_link u k : closing k -> once (Await (Followup (FileLink u)) k)
| once_wait chk t k : (forall m, once (k m)) -> once (WaitFor chk t k)
| once_request r k : (forall x, once (k x)) -> once (Request r k)
| once_get k : (forall b, once (k b)) -> once (GetProcessing k)
| once_set b k : once k -> once (SetProcessing b k)
| once_disable k : once k -> once (DisableChildren k).

(** The body of the [try] of a run, as far as the file link goes: it sends
    none, or it sends one, disables the buttons, edits and returns. *)
Inductive delivering : prog unit -> Prop :=
| delivering_ret a : delivering (Ret a)
| delivering_raise e : delivering (Raise e)
| delivering_await c k : is_link c = false -> delivering k -> delivering (Await c k)
| delivering_link u a :
    delivering (Await (Followup (FileLink u))
                  (DisableChildren (Await EditMessage (Ret a))))
| delivering_wait chk t k : (forall m, delivering (k m)) -> delivering (WaitFor chk t k)
| delivering_request r k : (forall x, delivering (k x)) -> delivering (Request r k)
| delivering_get k : (forall b, delivering (k b)) -> delivering (GetProcessing k)
| delivering_set b k : delivering k -> delivering (SetProcessing b k)
| delivering_disable k : delivering k -> delivering (DisableChildren k).

Definition linkless_task (t : task) : Prop :=
  match t with
  | Finished => True
  | OnIo _ k => linkless k
  | OnMessage _ k => forall m, linkless (k m)
  end.

Definition once_task (t : task) : Prop :=
  match t with
  | Finished => True
  | OnIo _ k => once k
  | OnMessage _ k => forall m, once (k m)
  end.

Definition closing_task (t : task) : Prop :=
  match t with
  | OnIo (Io (Followup (FileLink _))) k => closing k
  | OnIo (Edited _) k => released k
  | _ => False
  end.

Definition links (s : sys) : nat := count is_file_link (trace (view s)).

(** The invariant of deliveries: callbacks other than the run send no file
    link; before the link is sent the run can send it once; after it, the
    run only closes, and when it has ended the client shows the buttons
    disabled. *)
Definition Delivery (s : sys) : Prop :=
  (forall j t, nth_error (pool s) j = Some t -> inert_task t -> linkless_task t)
  /\ match links s with
     | 0%nat =>
         forall j t p g,
           nth_error (pool s) j = Some t -> holder_task p g t -> once_task t
     | 1%nat =>
         if is_processing (view s) then
           forall j t p g,
             nth_error (pool s) j = Some t -> holder_task p g t -> closing_task t
         else all_disabled (shown s) = true
     | _ => False
     end.

End Run.

(** ** Runs whose chat calls can fail

    [exec] and [step] take every call to the chat platform to complete.  Here
    a send or an edit may raise instead, as [discord.py] does when the
    platform refuses or the connection fails: [bought_button] is read once
    more, line by line, with each awaited platform call allowed to raise.
    [asyncio.sleep] raises nothing an [except Exception] would see and stays
    as it is; so do the [requests] helpers, which already carry their
    failures. *)

Module Faulty.
Import Py Bot.

Section Calls.

(** [raises c]: the exception the platform answers the call [c] with, if
    any.  Within one run no two platform calls are alike, so this decides
    each call on its own. *)
Variable raises : io -> option exc.

(** An awaited platform call: it raises, or it is made and completes. *)
Definition call (c : io) : prog unit :=
  match raises c with
  | Some e => Raise e
  | None => await c
  end.

(** The loop [for attempt in range(5)], returning [verified]. *)
Fixpoint verification_attempts (user_id gid : json) (attempts : list nat) : prog bool :=
  match attempts with
  | [] => Ret false
  | attempt :: rest =>
      owned <- check_gamepass_ownership user_id gid ;;
      if owned then Ret true
      else
        (if (attempt <? 4)%nat then
           call (Followup (AttemptNotice (attempt + 1))) ;;
           await (Sleep 5)
         else Ret tt) ;;
        verification_attempts user_id gid rest
  end.

(** The body of the [try] of [bought_button]. *)
Definition verification (self : PurchaseConfirmView) (who : Z) : prog unit :=
  msg <- wait_for (check who) 60 ;;
  let roblox_username := strip (content msg) in
  user_id <- get_user_id_from_username roblox_username ;;
  if negb (truthy user_id) then
    call (Followup UsernameNotFound) ;;
    set_processing false
  else
    verified <- verification_attempts user_id (gamepass_id (item self)) (seq 0 5) ;;
    if verified then
      call (Followup (PurchaseVerified (name (item self)))) ;;
      call (Followup (FileLink (file_url (item self)))) ;;
      disable_children ;;
      call EditMessage
    else
      call (Followup (VerificationFailed roblox_username (gamepass_id (item self)))).

Definition on_exception (e : exc) : prog unit :=
  match e with
  | TimeoutError => call (Followup VerificationTimedOut)
  | _ => call (Followup VerificationError)
  end.

(** [PurchaseConfirmView.bought_button], pressed by [who]. *)
Definition bought_button (self : PurchaseConfirmView) (who : Z) : prog unit :=
  if negb (who =? user self) then
    call (Respond true NotForYou)
  else
    busy <- get_processing ;;
    if busy then
      call (Respond true AlreadyInProgress)
    else
      set_processing true ;;
      call (Respond true Verifying) ;;
      call (Followup AskUsername) ;;
      try_finally
        (try_except (verification self who) on_exception)
        (set_processing false).

End Calls.

(** The platform of the scenario refuses the request for the account name
    (line 171) and nothing else. *)
Definition refuses_the_question (c : io) : option exc :=
  match c with
  | Followup AskUsername => Some HTTPException
  | _ => None
  end.

End Faulty.

Import Py Bot.

(** ** Running a callback: equations *)

Section Exec.

Variable w : world.

Lemma exec_bind (A B : Type) (p : prog A) (f : A -> prog B) (st : state) :
  exec w (bind p f) st =
  match exec w p st with
  | (Ok a, st1) => exec w (f a) st1
  | (Err e, st1) => (Err e, st1)
  end.
Proof.
  revert st; induction p as [a|e|c k IH|chk t k IH|r k IH|k IH|b k IH|k IH];
    intro st; simpl; auto.
Qed.

Lemma exec_try_except (A : Type) (p : prog A) (handler : exc -> prog A) (st : state) :
  exec w (try_except p handler) st =
  match exec w p st with
  | (Ok a, st1) => (Ok a, st1)
  | (Err e, st1) => exec w (handler e) st1
  end.
Proof.
  revert st; induction p as [a|e|c k IH|chk t k IH|r k IH|k IH|b k IH|k IH];
    intro st; simpl; auto.
Qed.

Lemma exec_try_finally (A : Type) (p : prog A) (fin : prog unit) (st : state) :
  exec w (try_finally p fin) st =
  match exec w p st with
  | (r, st1) =>
      match exec w fin st1 with
      | (Ok _, st2) => (r, st2)
      | (Err e, st2) => (Err e, st2)
      end
  end.
Proof.
  revert st; induction p as [a|e|c k IH|chk t k IH|r k IH|k IH|b k IH|k IH];
    intro st; simpl; auto; rewrite exec_bind; destruct (exec w fin st) as [[u|e'] st2];
    reflexivity.
Qed.

End Exec.

(** ** The ownership check *)

Lemma scan_not_request (passes : list json) (gid : json) :
  scan_game_passes passes gid <> Err RequestException.
Proof.
  induction passes as [|gp rest IH]; simpl; [discriminate|].
  destruct gp; simpl; try discriminate.
  destruct (String.eqb _ _); [discriminate|exact IH].
Qed.

Lemma owns_not_request (data gid : json) :
  owns_in_body data gid <> Err RequestException.
Proof.
  unfold owns_in_body.
  destruct (contains "gamePasses" data) as [[|]|e] eqn:C; try discriminate.
  - destruct (getitem_str data "gamePasses") as [v|e] eqn:G.
    + destruct (iterate v) as [ps|e] eqn:I.
      * apply scan_not_request.
      * destruct v; simpl in I; congruence.
    + destruct data; simpl in G; try congruence.
      destruct (dict_get d "gamePasses"); congruence.
  - destruct data; simpl in C; congruence.
Qed.

(** One check is one GET of the listing and what [owns_in_body] makes of it. *)
Lemma exec_check (w : world) (user_id gid : json) (st : state) :
  exec w (check_gamepass_ownership user_id gid) st =
  (ownership (net w (calls st) (Get (game_passes_url user_id))) gid,
   answered (Get (game_passes_url user_id))
     (net w (calls st) (Get (game_passes_url user_id))) st).
Proof.
  unfold check_gamepass_ownership.
  rewrite exec_try_except, exec_bind. simpl.
  destruct (net w (calls st) (Get (game_passes_url user_id))) as [|data]; simpl.
  - reflexivity.
  - pose proof (owns_not_request data gid) as N.
    destruct (owns_in_body data gid) as [b|e]; simpl; [reflexivity|].
    destruct e; simpl; congruence.
Qed.

Lemma scan_objects (passes : list json) (gid : json) :
  forallb is_dict passes = true ->
  scan_game_passes passes gid = Ok (existsb (fun e => same_id gid (entry_id e)) passes).
Proof.
  induction passes as [|gp rest IH]; simpl; intro H; [reflexivity|].
  apply andb_true_iff in H as [Hd Hr].
  destruct gp; simpl in Hd; try discriminate. simpl.
  unfold same_id at 1.
  destruct (String.eqb _ _); simpl; [reflexivity|auto].
Qed.

Lemma scan_listing (ids : list json) (gid : json) :
  scan_game_passes (map (fun id => JDict [("gamePassId", id)]) ids) gid
  = Ok (existsb (same_id gid) ids).
Proof.
  induction ids as [|id rest IH]; simpl; [reflexivity|].
  unfold same_id at 1.
  destruct (String.eqb (py_str id) (py_str gid)); simpl; [reflexivity|exact IH].
Qed.

Lemma owns_in_listing (holdings : list json) (gid : json) :
  owns_in_body (listing holdings) gid = Ok (existsb (same_id gid) (firstn 100 holdings)).
Proof. unfold owns_in_body, listing; simpl. apply scan_listing. Qed.

(** C4, as the code has it.  A transport failure and a JSON object without
    the key [gamePasses] give NotOwned; for a JSON object whose [gamePasses]
    is a list of objects the check gives Owned exactly when [str] of the
    [gamePassId] of some listed entry ([None] for an entry without one)
    equals [str] of the requested id. *)
Theorem check_gamepass_ownership_on_objects
    (w : world) (user_id gid : json) (st : state) :
  let x := net w (calls st) (Get (game_passes_url user_id)) in
  let r := fst (exec w (check_gamepass_ownership user_id gid) st) in
  (x = Failed -> r = Ok false) /\
  (forall d, x = Body (JDict d) -> dict_get d "gamePasses" = None -> r = Ok false) /\
  (forall d passes,
      x = Body (JDict d) ->
      dict_get d "gamePasses" = Some (JList passes) ->
      forallb is_dict passes = true ->
      r = Ok (existsb (fun e => String.eqb (py_str (entry_id e)) (py_str gid)) passes)).
Proof.
  intros x r. subst r. rewrite exec_check. fold x. simpl fst.
  split; [|split].
  - intros ->. reflexivity.
  - intros d -> Hn. simpl. unfold owns_in_body. simpl. rewrite Hn. reflexivity.
  - intros d passes -> Hs Hd. simpl. unfold owns_in_body. simpl. rewrite Hs. simpl.
    apply scan_objects, Hd.
Qed.

Lemma check_gamepass_ownership_on_objects_witness :
  fst (exec (mkWorld [] (fun _ _ => a_listing_of (JInt 999)))
         (check_gamepass_ownership (JInt 123) (JStr "999")) new_view) = Ok true
  /\ fst (exec (mkWorld [] (fun _ _ => Body (JDict [])))
            (check_gamepass_ownership (JInt 123) (JStr "999")) new_view) = Ok false
  /\ fst (exec (mkWorld [] (fun _ _ => Failed))
            (check_gamepass_ownership (JInt 123) (JStr "999")) new_view) = Ok false.
Proof.
  split; [|split].
  - destruct (check_gamepass_ownership_on_objects
                (mkWorld [] (fun _ _ => a_listing_of (JInt 999)))
                (JInt 123) (JStr "999") new_view) as [_ [_ H]].
    exact (H _ _ eq_refl eq_refl eq_refl).
  - destruct (check_gamepass_ownership_on_objects
                (mkWorld [] (fun _ _ => Body (JDict [])))
                (JInt 123) (JStr "999") new_view) as [_ [H _]].
    exact (H _ eq_refl eq_refl).
  - destruct (check_gamepass_ownership_on_objects
                (mkWorld [] (fun _ _ => Failed))
                (JInt 123) (JStr "999") new_view) as [H _].
    exact (H eq_refl).
Defined.

(** C4 as stated fails: the body [null] has no entitlement list, and the
    check raises [TypeError] on it instead of answering NotOwned; a list with
    an entry that is not an object raises before a later matching entry is
    seen. *)
Lemma check_gamepass_ownership_raises_on_other_bodies :
  fst (exec (mkWorld [] (fun _ _ => Body JNull))
         (check_gamepass_ownership (JInt 123) (JStr "999")) new_view) = Err TypeError
  /\ fst (exec (mkWorld [] (fun _ _ =>
                  Body (JDict [("gamePasses",
                                JList [JInt 5; JDict [("gamePassId", JInt 999)]])])))
            (check_gamepass_ownership (JInt 123) (JStr "999")) new_view)
     = Err AttributeError.
Proof. split; reflexivity. Qed.

(** C10.  A check makes exactly one request, the listing with [count=100],
    and its answer is decided by that one response; against a platform that
    serves the first 100 passes, a pass the account holds beyond them is
    reported NotOwned. *)
Theorem check_gamepass_ownership_reads_one_page
    (w : world) (user_id gid : json) (st : state) (holdings : list json) :
  In gid (skipn 100 holdings) ->
  existsb (same_id gid) (firstn 100 holdings) = false ->
  let url := "https://apis.roblox.com/game-passes/v1/users/" ++ py_str user_id
               ++ "/game-passes?count=100" in
  (forall w',
     let out := exec w' (check_gamepass_ownership user_id gid) st in
     trace (snd out) = (trace st ++ [Http (Get url) (net w' (calls st) (Get url))])%list
     /\ calls (snd out) = S (calls st)
     /\ fst out = ownership (net w' (calls st) (Get url)) gid)
  /\ fst (exec (mkWorld (inbox w) (platform user_id holdings))
            (check_gamepass_ownership user_id gid) st) = Ok false.
Proof.
  intros Hin Hfirst url. split.
  - intros w' out. subst out. rewrite exec_check. simpl. auto.
  - rewrite exec_check. simpl. unfold platform.
    rewrite String.eqb_refl. simpl. rewrite owns_in_listing, Hfirst. reflexivity.
Qed.

Lemma check_gamepass_ownership_reads_one_page_witness :
  In (JInt 101) (skipn 100 hundred_and_one)
  /\ fst (exec (mkWorld [] (platform (JInt 123) hundred_and_one))
            (check_gamepass_ownership (JInt 123) (JInt 101)) new_view) = Ok false.
Proof.
  assert (Hin : In (JInt 101) (skipn 100 hundred_and_one)) by (vm_compute; auto).
  split; [exact Hin|].
  apply (check_gamepass_ownership_reads_one_page
           (mkWorld [] (fun _ _ => Failed)) (JInt 123) (JInt 101) new_view
           hundred_and_one Hin).
  vm_compute; reflexivity.
Defined.

(** ** The verification run, read as equations *)

Lemma user_id_not_request (data : json) :
  user_id_of_body data <> Err RequestException.
Proof.
  unfold user_id_of_body.
  destruct data; simpl; try discriminate.
  destruct (dict_get d "data") as [v|]; simpl; [|discriminate].
  destruct (truthy v); [|discriminate].
  destruct v; simpl; try discriminate.
  - destruct s as [|c s]; simpl; discriminate.
  - destruct l as [|first rest]; simpl; [discriminate|].
    destruct first; simpl; try discriminate.
    destruct (dict_get _ "id"); discriminate.
  - destruct d0; simpl; discriminate.
Qed.

Lemma exec_get_user_id (w : world) (username : string) (st : state) :
  let x := net w (calls st) (Post users_url [username]) in
  exec w (get_user_id_from_username username) st =
  (resolution x, answered (Post users_url [username]) x st).
Proof.
  intro x. unfold get_user_id_from_username.
  rewrite exec_try_except, exec_bind. simpl. fold x.
  destruct x as [|data]; simpl; [reflexivity|].
  pose proof (user_id_not_request data) as N.
  destruct (user_id_of_body data) as [v|e]; simpl; [reflexivity|].
  destruct e; simpl; congruence.
Qed.

Lemma exec_attempt (w : world) (uid gid : json) (attempt : nat) (rest : list nat)
    (st : state) :
  let x := net w (calls st) (Get (game_passes_url uid)) in
  let st1 := answered (Get (game_passes_url uid)) x st in
  exec w (verification_attempts uid gid (attempt :: rest)) st =
  match ownership x gid with
  | Ok true => (Ok true, st1)
  | Ok false => exec w (verification_attempts uid gid rest) (pause attempt st1)
  | Err e => (Err e, st1)
  end.
Proof.
  intros x st1. cbn [verification_attempts].
  rewrite exec_bind, exec_check. fold x st1.
  destruct (ownership x gid) as [[|]|e]; try reflexivity.
  rewrite exec_bind. unfold pause.
  destruct (attempt <? 4)%nat; reflexivity.
Qed.

Lemma calls_pause (attempt : nat) (st : state) : calls (pause attempt st) = calls st.
Proof. unfold pause; destruct (attempt <? 4)%nat; reflexivity. Qed.

Lemma exec_verification (w : world) (self : PurchaseConfirmView) (who : Z) (st : state) :
  exec w (verification self who) st =
  match find (check who) (inbox w) with
  | None => (Err TimeoutError, st)
  | Some msg =>
      let u := strip (content msg) in
      let x := net w (calls st) (Post users_url [u]) in
      let st1 := answered (Post users_url [u]) x st in
      match resolution x with
      | Err e => (Err e, st1)
      | Ok uid =>
          if truthy uid then
            match exec w (verification_attempts uid (gamepass_id (item self)) (seq 0 5)) st1 with
            | (Ok true, st2) => (Ok tt, delivered (item self) st2)
            | (Ok false, st2) =>
                (Ok tt, emit (Io (Followup (VerificationFailed u (gamepass_id (item self))))) st2)
            | (Err e, st2) => (Err e, st2)
            end
          else (Ok tt, set_flag false (emit (Io (Followup UsernameNotFound)) st1))
      end
  end.
Proof.
  unfold verification. rewrite exec_bind. unfold wait_for. cbn [exec].
  destruct (find (check who) (inbox w)) as [msg|]; cbn [exec]; [|reflexivity].
  rewrite exec_bind, exec_get_user_id.
  destruct (resolution _) as [uid|e]; [|reflexivity].
  destruct (truthy uid); cbn [negb].
  - rewrite exec_bind.
    destruct (exec w (verification_attempts _ _ _) _) as [[[|]|e] st2]; reflexivity.
  - reflexivity.
Qed.

Lemma exec_bought_accepted (w : world) (self : PurchaseConfirmView) (st : state) :
  is_processing st = false ->
  exec w (bought_button self (user self)) st =
  let st1 := emit (Io (Followup AskUsername))
               (emit (Io (Respond true Verifying)) (set_flag true st)) in
  match exec w (verification self (user self)) st1 with
  | (Ok _, st2) => (Ok tt, set_flag false st2)
  | (Err e, st2) => (Ok tt, set_flag false (emit (Io (Followup (error_notice e))) st2))
  end.
Proof.
  intro Hidle. unfold bought_button. rewrite Z.eqb_refl. cbn [negb].
  rewrite exec_bind. unfold get_processing. cbn [exec]. rewrite Hidle.
  rewrite exec_bind. unfold set_processing. cbn [exec].
  rewrite exec_bind. unfold await at 1. cbn [exec].
  rewrite exec_bind. unfold await at 1. cbn [exec].
  rewrite exec_try_finally, exec_try_except.
  cbn [observe].
  destruct (exec w (verification self (user self)) _) as [[u|e] st2].
  - destruct u. reflexivity.
  - destruct e; reflexivity.
Qed.

Lemma state_eq (a b : state) :
  is_processing a = is_processing b ->
  children a = children b ->
  trace a = trace b ->
  calls a = calls b ->
  a = b.
Proof. destruct a, b; simpl; intros; subst; reflexivity. Qed.

(** ** Counting in traces *)

Lemma count_app (f : obs -> bool) (a b : list obs) :
  count f (a ++ b) = (count f a + count f b)%nat.
Proof. unfold count. rewrite filter_app, length_app. reflexivity. Qed.

Lemma count_emit (f : obs -> bool) (o : obs) (st : state) :
  count f (trace (emit o st)) = (count f (trace st) + (if f o then 1 else 0))%nat.
Proof. unfold emit; simpl. rewrite count_app. unfold count; simpl. destruct (f o); reflexivity. Qed.

Lemma count_answered (f : obs -> bool) (r : request) (x : http_result) (st : state) :
  count f (trace (answered r x st))
  = (count f (trace st) + (if f (Http r x) then 1 else 0))%nat.
Proof.
  unfold answered; simpl. rewrite count_app. unfold count; simpl.
  destruct (f (Http r x)); reflexivity.
Qed.

Lemma count_pause (f : obs -> bool) (attempt : nat) (st : state) :
  skips_pauses f ->
  count f (trace (pause attempt st)) = count f (trace st).
Proof.
  intros [Hn Hs]. unfold pause. destruct (attempt <? 4)%nat; [|reflexivity].
  rewrite !count_emit, Hn, Hs. lia.
Qed.

Lemma existsb_count (f : obs -> bool) (t : list obs) :
  existsb f t = true <-> (0 < count f t)%nat.
Proof.
  unfold count. induction t as [|o t IH]; simpl.
  - split; [discriminate|lia].
  - destruct (f o); simpl; [split; [lia|reflexivity]|exact IH].
Qed.

Lemma all_disabled_disable_all (cs : list Button) : all_disabled (disable_all cs) = true.
Proof. unfold all_disabled, disable_all. induction cs; simpl; auto. Qed.

(** ** The retry loop *)

Section Attempts.

Variables (w : world) (uid gid : json).

Let url := game_passes_url uid.

Lemma attempts_frame (l : list nat) (st : state) :
  let out := exec w (verification_attempts uid gid l) st in
  is_processing (snd out) = is_processing st
  /\ children (snd out) = children st
  /\ (calls st <= calls (snd out) <= calls st + List.length l)%nat
  /\ (count is_get (trace (snd out)) + calls st
      = count is_get (trace st) + calls (snd out))%nat
  /\ (forall f, skips_pauses f -> (forall r x, f (Http r x) = false) ->
                count f (trace (snd out)) = count f (trace st)).
Proof.
  revert st. induction l as [|attempt rest IH]; intro st.
  - simpl. repeat split; auto; lia.
  - cbv zeta. rewrite exec_attempt.
    set (x := net w (calls st) (Get (game_passes_url uid))).
    set (st1 := answered (Get (game_passes_url uid)) x st).
    assert (Hg : (count is_get (trace st1) = count is_get (trace st) + 1)%nat)
      by (unfold st1; rewrite count_answered; reflexivity).
    assert (Hc : calls st1 = S (calls st)) by reflexivity.
    assert (Hf : forall f, (forall r x, f (Http r x) = false) ->
                           count f (trace st1) = count f (trace st)).
    { intros f H. unfold st1. rewrite count_answered, H. lia. }
    destruct (ownership x gid) as [[|]|e].
    + cbn [fst snd List.length]. rewrite Hg, Hc.
      repeat split; try lia. intros f _ H. auto.
    + specialize (IH (pause attempt st1)). cbv zeta in IH.
      destruct IH as (I1 & I2 & I3 & I4 & I5).
      rewrite calls_pause in I3, I4.
      rewrite count_pause in I4 by (split; reflexivity).
      assert (Hp : is_processing (pause attempt st1) = is_processing st
                   /\ children (pause attempt st1) = children st).
      { unfold pause. destruct (attempt <? 4)%nat; split; reflexivity. }
      destruct Hp as [Hp1 Hp2].
      simpl List.length. repeat split; try congruence; try lia.
      intros f Hio Hhttp. rewrite I5 by assumption.
      rewrite count_pause by assumption. auto.
    + cbn [fst snd List.length]. rewrite Hg, Hc.
      repeat split; try lia. intros f _ H. auto.
Qed.

(** The loop answers Owned exactly when one of its checks did, and then that
    check is its last call. *)
Lemma attempts_owned (l : list nat) (st : state) :
  let out := exec w (verification_attempts uid gid l) st in
  count (owned_check gid) (trace (snd out))
  = (count (owned_check gid) (trace st)
     + match fst out with Ok true => 1 | _ => 0 end)%nat.
Proof.
  revert st. induction l as [|attempt rest IH]; intro st.
  - simpl. lia.
  - cbv zeta. rewrite exec_attempt.
    set (x := net w (calls st) (Get (game_passes_url uid))).
    set (st1 := answered (Get (game_passes_url uid)) x st).
    assert (Ho : count (owned_check gid) (trace st1)
                 = (count (owned_check gid) (trace st)
                    + match ownership x gid with Ok true => 1 | _ => 0 end)%nat).
    { unfold st1. rewrite count_answered. simpl.
      destruct (ownership x gid) as [[|]|e]; reflexivity. }
    destruct (ownership x gid) as [[|]|e]; simpl fst; simpl snd; try exact Ho.
    specialize (IH (pause attempt st1)). cbv zeta in IH.
    rewrite IH, count_pause by (split; reflexivity). lia.
Qed.

Lemma attempts_first_owned (l : list nat) (st : state) (k : nat) :
  (k < List.length l)%nat ->
  (forall j, (j < k)%nat -> ownership (net w (calls st + j) (Get url)) gid = Ok false) ->
  ownership (net w (calls st + k) (Get url)) gid = Ok true ->
  let out := exec w (verification_attempts uid gid l) st in
  fst out = Ok true /\ calls (snd out) = (calls st + (k + 1))%nat.
Proof.
  revert st k. induction l as [|attempt rest IH]; intros st k Hk Hbefore Hat.
  - simpl in Hk. lia.
  - cbv zeta. rewrite exec_attempt. fold url.
    destruct k as [|k].
    + rewrite Nat.add_0_r in Hat. rewrite Hat. simpl. split; [reflexivity|lia].
    + pose proof (Hbefore 0%nat ltac:(lia)) as H0. rewrite Nat.add_0_r in H0.
      rewrite H0.
      specialize (IH (pause attempt (answered (Get url) (net w (calls st) (Get url)) st)) k).
      cbv zeta in IH. rewrite calls_pause in IH. simpl calls in IH.
      destruct IH as [I1 I2].
      * simpl in Hk. lia.
      * intros j Hj. specialize (Hbefore (S j) ltac:(lia)).
        replace (S (calls st) + j)%nat with (calls st + S j)%nat by lia. exact Hbefore.
      * replace (S (calls st) + k)%nat with (calls st + S k)%nat by lia. exact Hat.
      * split; [exact I1|]. rewrite I2. lia.
Qed.

End Attempts.

(** ** The claims about one run: the loop, the unresolved name, the delivery *)

(** C1.  The retry loop makes at most five ownership checks; when the first
    Owned answer comes at check [k+1] it has made exactly [k+1] calls and
    returns Owned.  In particular, when the checks answer NotOwned, NotOwned,
    Owned, the run makes three checks and delivers. *)
Theorem retry_policy_five_checks_stop_on_owned
    (w : world) (uid gid : json) (st : state) :
  let result := fun j => ownership (net w (calls st + j) (Get (game_passes_url uid))) gid in
  let out := exec w (verification_attempts uid gid (seq 0 5)) st in
  (count is_get (trace (snd out)) <= count is_get (trace st) + 5)%nat
  /\ (forall k, (k < 5)%nat ->
        (forall j, (j < k)%nat -> result j = Ok false) ->
        result k = Ok true ->
        fst out = Ok true
        /\ count is_get (trace (snd out)) = (count is_get (trace st) + (k + 1))%nat)
  /\ (forall (self : PurchaseConfirmView) (st0 : state) (msg : message) (acct : json),
        is_processing st0 = false ->
        find (check (user self)) (inbox w) = Some msg ->
        let asked := Post users_url [strip (content msg)] in
        let listed := Get (game_passes_url acct) in
        let x0 := net w (calls st0) asked in
        let x1 := net w (calls st0 + 1) listed in
        let x2 := net w (calls st0 + 2) listed in
        let x3 := net w (calls st0 + 3) listed in
        resolution x0 = Ok acct ->
        truthy acct = true ->
        ownership x1 (gamepass_id (item self)) = Ok false ->
        ownership x2 (gamepass_id (item self)) = Ok false ->
        ownership x3 (gamepass_id (item self)) = Ok true ->
        exec w (bought_button self (user self)) st0 =
        (Ok tt,
         mkState false (disable_all (children st0))
           (trace st0 ++
              [Io (Respond true Verifying); Io (Followup AskUsername);
               Http asked x0;
               Http listed x1; Io (Followup (AttemptNotice 1)); Io (Sleep 5);
               Http listed x2; Io (Followup (AttemptNotice 2)); Io (Sleep 5);
               Http listed x3;
               Io (Followup (PurchaseVerified (name (item self))));
               Io (Followup (FileLink (file_url (item self))));
               Edited (disable_all (children st0))])%list
           (calls st0 + 4))).
Proof.
  intros result out. split; [|split].
  - pose proof (attempts_frame w uid gid (seq 0 5) st) as F. cbv zeta in F.
    fold out in F. destruct F as (_ & _ & Hc & Hg & _). simpl List.length in Hc. lia.
  - intros k Hk Hbefore Hat.
    pose proof (@attempts_first_owned w uid gid (seq 0 5) st k) as F.
    cbv zeta in F. fold out in F. destruct F as [F1 F2]; auto.
    pose proof (attempts_frame w uid gid (seq 0 5) st) as G. cbv zeta in G.
    fold out in G. destruct G as (_ & _ & _ & Hg & _).
    split; [exact F1|lia].
  - intros self st0 msg acct Hidle Hmsg asked listed x0 x1 x2 x3 Hres Htruthy H1 H2 H3.
    subst x1 x2 x3.
    replace (calls st0 + 1)%nat with (S (calls st0)) in * by lia.
    replace (calls st0 + 2)%nat with (S (S (calls st0))) in * by lia.
    replace (calls st0 + 3)%nat with (S (S (S (calls st0)))) in * by lia.
    replace (calls st0 + 4)%nat with (S (S (S (S (calls st0))))) by lia.
    rewrite exec_bought_accepted by exact Hidle. cbv zeta.
    rewrite exec_verification, Hmsg. cbv zeta.
    cbn [calls emit set_flag]. fold asked x0. rewrite Hres, Htruthy.
    cbn [seq]. rewrite exec_attempt. cbv zeta. cbn [calls answered emit set_flag].
    fold listed. rewrite H1.
    rewrite exec_attempt. cbv zeta. rewrite calls_pause. cbn [calls answered emit set_flag].
    fold listed. rewrite H2.
    rewrite exec_attempt. cbv zeta.
    repeat first [rewrite calls_pause | progress cbn [calls answered emit set_flag]].
    fold listed. rewrite H3.
    f_equal. apply state_eq;
      cbn [is_processing children trace calls delivered pause answered emit disable
             set_flag Nat.ltb Nat.leb Nat.add];
      try reflexivity.
    rewrite <- !app_assoc. reflexivity.
Qed.

Lemma retry_policy_five_checks_stop_on_owned_witness :
  let w := mkWorld [bob] owned_on_third in
  let loop :=
    exec w (verification_attempts (JInt 123) (JStr "999") (seq 0 5))
      (mkState true (children new_view) [] 1) in
  fst loop = Ok true
  /\ count is_get (trace (snd loop)) = 3%nat
  /\ count is_get (trace (snd (exec w (bought_button session 7) new_view))) = 3%nat
  /\ all_disabled (children (snd (exec w (bought_button session 7) new_view))) = true.
Proof.
  intros w loop.
  destruct (retry_policy_five_checks_stop_on_owned w (JInt 123) (JStr "999")
              (mkState true (children new_view) [] 1)) as [_ [Hstop Hrun]].
  destruct (Hstop 2%nat) as [H1 H2].
  - lia.
  - intros j Hj. destruct j as [|[|j]]; [reflexivity|reflexivity|lia].
  - reflexivity.
  - split; [exact H1|]. split; [exact H2|].
    pose proof (Hrun session new_view bob (JInt 123) eq_refl eq_refl eq_refl eq_refl
                  eq_refl eq_refl eq_refl) as E.
    change (user session) with 7 in E. rewrite E.
    split; reflexivity.
Defined.

(** C5.  When the name resolves to no account id (the helper returns [None],
    or any id that counts as false), the run reports the failure and ends: it
    makes the one resolution request and no ownership check. *)
Theorem unresolved_name_fails_without_checks
    (w : world) (self : PurchaseConfirmView) (st : state) (msg : message) (uid : json) :
  is_processing st = false ->
  find (check (user self)) (inbox w) = Some msg ->
  let asked := Post users_url [strip (content msg)] in
  resolution (net w (calls st) asked) = Ok uid ->
  truthy uid = false ->
  let out := exec w (bought_button self (user self)) st in
  out = (Ok tt,
         mkState false (children st)
           (trace st ++ [Io (Respond true Verifying); Io (Followup AskUsername);
                         Http asked (net w (calls st) asked);
                         Io (Followup UsernameNotFound)])%list
           (S (calls st)))
  /\ count is_get (trace (snd out)) = count is_get (trace st).
Proof.
  intros Hidle Hmsg asked Hres Hfalse out.
  assert (E : out = (Ok tt,
         mkState false (children st)
           (trace st ++ [Io (Respond true Verifying); Io (Followup AskUsername);
                         Http asked (net w (calls st) asked);
                         Io (Followup UsernameNotFound)])%list
           (S (calls st)))).
  { subst out. rewrite exec_bought_accepted by exact Hidle. cbv zeta.
    rewrite exec_verification, Hmsg. cbv zeta.
    cbn [calls emit set_flag]. fold asked. rewrite Hres, Hfalse.
    f_equal. apply state_eq;
      cbn [is_processing children trace calls answered emit set_flag];
      try reflexivity.
    rewrite <- !app_assoc. reflexivity. }
  split; [exact E|]. rewrite E. cbn [snd trace].
  rewrite count_app. unfold count at 2. simpl. lia.
Qed.

Lemma unresolved_name_fails_without_checks_witness :
  count is_get (trace (snd (exec (mkWorld [bob] (fun _ _ => Failed))
                              (bought_button session 7) new_view))) = 0%nat.
Proof.
  apply (unresolved_name_fails_without_checks
           (mkWorld [bob] (fun _ _ => Failed)) session new_view (uid := JNull)
           eq_refl eq_refl eq_refl eq_refl).
Defined.

(** The two ways an accepted run ends: with a delivery when some check
    answered Owned, and otherwise with the buttons as they were. *)
Lemma bought_run_outcome
    (w : world) (self : PurchaseConfirmView) (cs : list Button) (n : nat) :
  let out := exec w (bought_button self (user self)) (mkState false cs [] n) in
  let t := trace (snd out) in
  (existsb (owned_check (gamepass_id (item self))) t = true ->
     count is_file_link t = 1%nat
     /\ In (Io (Followup (FileLink (file_url (item self))))) t
     /\ all_disabled (children (snd out)) = true
     /\ (exists t', t = (t' ++ [Edited (children (snd out))])%list)
     /\ is_processing (snd out) = false)
  /\ (existsb (owned_check (gamepass_id (item self))) t = false ->
        count is_file_link t = 0%nat /\ children (snd out) = cs).
Proof.
  intros out t. subst t out.
  rewrite exec_bought_accepted by reflexivity. cbv zeta.
  rewrite exec_verification.
  set (gid := gamepass_id (item self)).
  set (st1 := emit (Io (Followup AskUsername))
                (emit (Io (Respond true Verifying))
                   (set_flag true (mkState false cs [] n)))).
  assert (T1 : trace st1 = [Io (Respond true Verifying); Io (Followup AskUsername)])
    by reflexivity.
  destruct (find (check (user self)) (inbox w)) as [msg|].
  2:{ cbn [fst snd trace emit set_flag]. rewrite T1.
      split; [discriminate|split; reflexivity]. }
  cbv zeta.
  set (asked := Post users_url [strip (content msg)]).
  set (x := net w (calls st1) asked).
  set (st2 := answered asked x st1).
  assert (T2 : trace st2 = [Io (Respond true Verifying); Io (Followup AskUsername);
                            Http asked x]) by reflexivity.
  destruct (resolution x) as [uid|e].
  2:{ cbn [fst snd trace emit set_flag]. rewrite T2.
      split; [destruct e; discriminate|destruct e; split; reflexivity]. }
  destruct (truthy uid).
  2:{ cbn [fst snd trace emit set_flag]. rewrite T2.
      split; [discriminate|split; reflexivity]. }
  pose proof (attempts_owned w uid gid (seq 0 5) st2) as Ho.
  pose proof (attempts_frame w uid gid (seq 0 5) st2) as Hf.
  cbv zeta in Ho, Hf. destruct Hf as (_ & Hcs & _ & _ & Hf).
  assert (Hlink : count is_file_link
                    (trace (snd (exec w (verification_attempts uid gid (seq 0 5)) st2)))
                  = 0%nat).
  { rewrite Hf; [rewrite T2; reflexivity|split; reflexivity|reflexivity]. }
  rewrite T2 in Ho. change (count (owned_check gid) _) with 0%nat in Ho at 2.
  clear Hf.
  destruct (exec w (verification_attempts uid gid (seq 0 5)) st2) as [r st3].
  cbn [fst snd] in Ho, Hlink, Hcs.
  destruct r as [[|]|e]; cbn [fst snd].
  - split; [intros _|].
    + unfold delivered. cbn [trace emit disable children is_processing set_flag].
      repeat split.
      * rewrite !count_app, Hlink. reflexivity.
      * apply in_or_app. left. apply in_or_app. right. left. reflexivity.
      * apply all_disabled_disable_all.
      * eexists. reflexivity.
    + intro Hno. exfalso.
      assert (Hsome : existsb (owned_check gid)
                        (trace (set_flag false (delivered (item self) st3))) = true).
      { apply existsb_count. unfold delivered.
        cbn [trace emit disable set_flag]. rewrite !count_app. lia. }
      congruence.
  - split.
    + intro Hyes. exfalso. apply existsb_count in Hyes.
      cbn [trace emit set_flag] in Hyes. rewrite count_app in Hyes.
      unfold count at 2 in Hyes. simpl in Hyes. lia.
    + intros _. cbn [trace emit set_flag children]. rewrite count_app, Hlink.
      split; [reflexivity|exact Hcs].
  - split.
    + intro Hyes. exfalso. apply existsb_count in Hyes.
      cbn [trace emit set_flag] in Hyes. rewrite count_app in Hyes.
      unfold count at 2 in Hyes. simpl in Hyes. lia.
    + intros _. cbn [trace emit set_flag children]. rewrite count_app, Hlink.
      split; [destruct e; reflexivity|exact Hcs].
Qed.

(** C7.  A run in which some check answered Owned sends the file link of the
    item exactly once, disables the buttons and ends with the edit that shows
    them disabled; a run without an Owned answer sends no file link. *)
Theorem owned_run_delivers_file_once
    (w : world) (self : PurchaseConfirmView) (cs : list Button) (n : nat) :
  let out := exec w (bought_button self (user self)) (mkState false cs [] n) in
  let t := trace (snd out) in
  (existsb (owned_check (gamepass_id (item self))) t = true ->
     count is_file_link t = 1%nat
     /\ In (Io (Followup (FileLink (file_url (item self))))) t
     /\ all_disabled (children (snd out)) = true
     /\ (exists t', t = (t' ++ [Edited (children (snd out))])%list)
     /\ is_processing (snd out) = false)
  /\ (existsb (owned_check (gamepass_id (item self))) t = false ->
        count is_file_link t = 0%nat).
Proof.
  intros out t. destruct (bought_run_outcome w self cs n) as [Hyes Hno].
  split; [exact Hyes|]. intro H. exact (proj1 (Hno H)).
Qed.

Lemma owned_run_delivers_file_once_witness :
  count is_file_link
    (trace (snd (exec (mkWorld [bob] owned_on_third)
                   (bought_button session (user session))
                   (mkState false (children new_view) [] 0))))
  = 1%nat.
Proof.
  destruct (owned_run_delivers_file_once (mkWorld [bob] owned_on_third) session
              (children new_view) 0) as [H _].
  destruct (H ltac:(vm_compute; reflexivity)) as [H1 _]. exact H1.
Defined.

(** ** Shapes of the callbacks *)

Lemma shape_more (A : Type) (rel : bool) (p g : nat) (q : prog A) :
  shape rel p g q -> forall p' g', (p <= p')%nat -> (g <= g')%nat -> shape rel p' g' q.
Proof.
  induction 1; intros p' g' Hp Hg; try (constructor; auto; fail).
  - destruct p' as [|p']; [lia|]. constructor. intro x. apply H0; lia.
  - destruct g' as [|g']; [lia|]. constructor. intro x. apply H0; lia.
Qed.

Lemma shape_bind (A B : Type) (rel : bool) (p1 g1 p2 g2 : nat)
    (q : prog A) (f : A -> prog B) :
  shape false p1 g1 q ->
  (forall a, shape rel p2 g2 (f a)) ->
  shape rel (p1 + p2) (g1 + g2) (bind q f).
Proof.
  intros Hq Hf. induction Hq; simpl; try (constructor; auto; fail); try discriminate.
  apply shape_more with (p := p2) (g := g2); [apply Hf|lia|lia].
Qed.

Lemma shape_try_except (A : Type) (p g : nat) (q : prog A) (handler : exc -> prog A) :
  shape false p g q ->
  (forall e, shape false 0 0 (handler e)) ->
  shape false p g (try_except q handler).
Proof.
  intros Hq Hh. induction Hq; simpl; try (constructor; auto; fail); try discriminate.
  apply shape_more with (p := 0%nat) (g := 0%nat); [apply Hh|lia|lia].
Qed.

Lemma shape_lift (A : Type) (r : res A) : shape false 0 0 (lift r).
Proof. destruct r; constructor. Qed.

Lemma shape_check (uid gid : json) : shape false 0 1 (check_gamepass_ownership uid gid).
Proof.
  unfold check_gamepass_ownership. apply shape_try_except.
  - apply (@shape_bind _ _ false 0 1 0 0).
    + constructor. intros [|data]; constructor.
    + intro data. apply shape_lift.
  - intros e; destruct e; constructor.
Qed.

Lemma shape_get_user_id (username : string) :
  shape false 1 0 (get_user_id_from_username username).
Proof.
  unfold get_user_id_from_username. apply shape_try_except.
  - apply (@shape_bind _ _ false 1 0 0 0).
    + constructor. intros [|data]; constructor.
    + intro data. apply shape_lift.
  - intros e; destruct e; constructor.
Qed.

Lemma shape_attempts (uid gid : json) (l : list nat) :
  shape false 0 (List.length l) (verification_attempts uid gid l).
Proof.
  induction l as [|attempt rest IH]; cbn [verification_attempts List.length]; [constructor|].
  apply (@shape_bind _ _ false 0 1 0 (List.length rest)); [apply shape_check|].
  intros [|]; [constructor|].
  apply (@shape_bind _ _ false 0 0 0 (List.length rest)); [|intros _; exact IH].
  destruct (attempt <? 4)%nat; simpl; repeat constructor.
Qed.

Lemma shape_verification (self : PurchaseConfirmView) (who : Z) :
  shape true 1 5 (verification self who).
Proof.
  unfold verification.
  apply (@shape_bind _ _ true 0 0 1 5).
  { constructor. intros [m|]; constructor. }
  intro msg.
  apply (@shape_bind _ _ true 1 0 0 5); [apply shape_get_user_id|].
  intro uid. destruct (negb (truthy uid)).
  - simpl. repeat constructor.
  - apply (@shape_bind _ _ true 0 5 0 0); [apply (shape_attempts uid _ (seq 0 5))|].
    intros [|]; simpl; repeat constructor.
Qed.

(** Wrapped in the [try] of [bought_button], a body of that shape is the rest
    of a run that gives the flag back. *)
Lemma holder_of_shape (p g : nat) (q : prog unit) :
  shape true p g q ->
  holder p g (try_finally (try_except q on_exception) (set_processing false)).
Proof.
  induction 1; simpl; try (constructor; auto; fail).
  - repeat constructor.
  - destruct e; simpl; repeat constructor.
  - repeat constructor.
Qed.

Lemma holder_bought (self : PurchaseConfirmView) :
  holder 1 5
    (await (Followup AskUsername) ;;
     try_finally (try_except (verification self (user self)) on_exception)
       (set_processing false)).
Proof.
  unfold await. cbn [bind]. constructor; [reflexivity|].
  apply holder_of_shape, shape_verification.
Qed.

(** ** One stretch of a callback *)

Section Advance.

Variable answer : nat -> request -> http_result.

Lemma meters_emit_quiet (c : io) (st : state) :
  quiet c = true -> meters (emit (observe c st) st) = meters st.
Proof.
  intro Hq. unfold meters. rewrite !count_emit.
  destruct c as [[|] n|n| |n]; try discriminate; simpl;
    try (rewrite !Nat.add_0_r; reflexivity);
    destruct n; try discriminate; simpl; rewrite !Nat.add_0_r; reflexivity.
Qed.

Lemma observe_quiet (c : io) (st : state) :
  quiet c = true -> edit_ok (observe c st).
Proof. destruct c; simpl; try discriminate; auto. Qed.

Lemma meters_emit_edited (cs : list Button) (st : state) :
  meters (emit (Edited cs) (disable st)) = meters st.
Proof. unfold meters. rewrite !count_emit. simpl. rewrite !Nat.add_0_r. reflexivity. Qed.

Lemma advance_inert (k : prog unit) (st : state) :
  inert k ->
  inert_task (snd (advance answer k st))
  /\ is_processing (fst (advance answer k st)) = is_processing st
  /\ calls (fst (advance answer k st)) = calls st
  /\ meters (fst (advance answer k st)) = meters st.
Proof.
  intro H. destruct H as [a|c k Hq Hk|k Hk]; cbn [advance fst snd].
  - simpl. auto.
  - cbn [inert_task]. repeat split; auto using observe_quiet, meters_emit_quiet.
  - cbn [observe inert_task edit_ok children disable].
    repeat split; auto using all_disabled_disable_all, meters_emit_edited.
Qed.

Lemma advance_released (k : prog unit) (st : state) :
  released k ->
  is_processing st = false ->
  snd (advance answer k st) = Finished
  /\ is_processing (fst (advance answer k st)) = false
  /\ trace (fst (advance answer k st)) = trace st.
Proof.
  intro H. revert st. induction H as [a|k Hk IH]; intros st Hf; cbn [advance].
  - auto.
  - destruct (IH (set_flag false st) eq_refl) as (I1 & I2 & I3). auto.
Qed.

(** A stretch of a run either leaves a run that still holds the flag, within
    what is left of its calls, or ends it with the flag cleared. *)
Lemma advance_holder (p g : nat) (k : prog unit) :
  holder p g k ->
  forall st, is_processing st = true ->
  let st' := fst (advance answer k st) in
  let t := snd (advance answer k st) in
  count is_run_start (trace st') = count is_run_start (trace st)
  /\ ((exists p' g', holder_task p' g' t
        /\ is_processing st' = true
        /\ (count is_post (trace st') + p' <= count is_post (trace st) + p)%nat
        /\ (count is_get (trace st') + g' <= count is_get (trace st) + g)%nat)
      \/ (t = Finished
          /\ is_processing st' = false
          /\ (count is_post (trace st') <= count is_post (trace st) + p)%nat
          /\ (count is_get (trace st') <= count is_get (trace st) + g)%nat)).
Proof.
  induction 1 as [p g c k Hq Hk IH|p g chk t0 k Hk IH|p g url us k Hk IH
                 |p g url k Hk IH|p g k Hk IH|p g k Hk];
    intros st Hflag; cbv zeta; cbn [advance fst snd].
  - pose proof (meters_emit_quiet c st Hq) as M. unfold meters in M.
    injection M as M1 M2 M3. split; [exact M3|]. left. exists p, g.
    cbn [holder_task trace emit is_processing].
    repeat split; auto using observe_quiet; lia.
  - split; [reflexivity|]. left. exists p, g. cbn [holder_task]. repeat split; auto.
  - specialize (IH (answer (calls st) (Post url us))
                   (answered (Post url us) (answer (calls st) (Post url us)) st) Hflag).
    cbv zeta in IH. rewrite !count_answered in IH. cbn [is_run_start is_post is_get] in IH.
    destruct IH as [I0 [(p' & g' & I1 & I2 & I3 & I4)|(I1 & I2 & I3 & I4)]].
    + split; [lia|]. left. exists p', g'. repeat split; auto; lia.
    + split; [lia|]. right. repeat split; auto; lia.
  - specialize (IH (answer (calls st) (Get url))
                   (answered (Get url) (answer (calls st) (Get url)) st) Hflag).
    cbv zeta in IH. rewrite !count_answered in IH. cbn [is_run_start is_post is_get] in IH.
    destruct IH as [I0 [(p' & g' & I1 & I2 & I3 & I4)|(I1 & I2 & I3 & I4)]].
    + split; [lia|]. left. exists p', g'. repeat split; auto; lia.
    + split; [lia|]. right. repeat split; auto; lia.
  - cbn [observe]. pose proof (meters_emit_edited (disable_all (children st)) st) as M.
    unfold meters in M. injection M as M1 M2 M3. split; [exact M3|].
    left. exists p, g. cbn [holder_task edit_ok children disable trace emit is_processing].
    repeat split; auto using all_disabled_disable_all; lia.
  - destruct (advance_released (set_flag false st) Hk eq_refl) as (R1 & R2 & R3).
    rewrite R3. cbn [trace set_flag]. split; [reflexivity|]. right.
    repeat split; auto; lia.
Qed.

End Advance.

(** ** The pool *)

Lemma nth_error_set_nth_same (A : Type) (l : list A) (i : nat) (x y : A) :
  nth_error l i = Some y -> nth_error (set_nth l i x) i = Some x.
Proof.
  revert i. induction l as [|a l IH]; intros [|i] H; simpl in *; try discriminate; auto.
Qed.

Lemma nth_error_set_nth_other (A : Type) (l : list A) (i j : nat) (x : A) :
  j <> i -> nth_error (set_nth l i x) j = nth_error l j.
Proof.
  revert i j. induction l as [|a l IH]; intros [|i] [|j] H; simpl; auto; congruence.
Qed.

Lemma nth_error_snoc (A : Type) (l : list A) (x y : A) (j : nat) :
  nth_error (l ++ [x]) j = Some y ->
  (j < List.length l /\ nth_error l j = Some y)%nat \/ (j = List.length l /\ y = x).
Proof.
  intro H. destruct (Nat.lt_ge_cases j (List.length l)) as [Hlt|Hge].
  - left. split; [exact Hlt|]. rewrite nth_error_app1 in H; assumption.
  - right. rewrite nth_error_app2 in H by exact Hge.
    destruct (j - List.length l)%nat as [|d] eqn:E; simpl in H.
    + split; [lia|congruence].
    + destruct d; discriminate.
Qed.

Lemma clickable_all_disabled (b : button_id) (cs : list Button) :
  all_disabled cs = true -> clickable b cs = false.
Proof.
  unfold all_disabled, clickable. induction cs as [|c cs IH]; simpl; [reflexivity|].
  intro H. apply andb_true_iff in H as [Hc Hcs]. rewrite Hc, IH by exact Hcs.
  rewrite andb_false_r. reflexivity.
Qed.

(** ** The invariant of the event loop *)

Section Loop.

Variable answer : nat -> request -> http_result.
Variable self : PurchaseConfirmView.

Lemma press_refused (b : button_id) (who : Z) (st : state) :
  (who =? user self) = false ->
  advance answer (callback self b who) st
  = (emit (Io (Respond true NotForYou)) st, OnIo (Io (Respond true NotForYou)) (Ret tt)).
Proof.
  intro H. destruct b; cbn [callback]; unfold bought_button, cancel_button;
    rewrite H; reflexivity.
Qed.

Lemma press_bought_busy (st : state) :
  is_processing st = true ->
  advance answer (bought_button self (user self)) st
  = (emit (Io (Respond true AlreadyInProgress)) st,
     OnIo (Io (Respond true AlreadyInProgress)) (Ret tt)).
Proof.
  intro H. unfold bought_button. rewrite Z.eqb_refl. cbn [negb].
  unfold get_processing. cbn [bind advance]. rewrite H. reflexivity.
Qed.

Lemma press_bought_idle (st : state) :
  is_processing st = false ->
  advance answer (bought_button self (user self)) st
  = (emit (Io (Respond true Verifying)) (set_flag true st),
     OnIo (Io (Respond true Verifying))
       (await (Followup AskUsername) ;;
        try_finally (try_except (verification self (user self)) on_exception)
          (set_processing false))).
Proof.
  intro H. unfold bought_button. rewrite Z.eqb_refl. cbn [negb].
  unfold get_processing. cbn [bind advance]. rewrite H.
  unfold set_processing. cbn [bind advance].
  unfold await at 1. cbn [bind advance observe]. reflexivity.
Qed.

Lemma press_cancel (st : state) :
  advance answer (cancel_button self (user self)) st
  = (emit (Io (Respond true PurchaseCancelled)) st,
     OnIo (Io (Respond true PurchaseCancelled))
       (DisableChildren (Await EditMessage (Ret tt)))).
Proof. unfold cancel_button. rewrite Z.eqb_refl. reflexivity. Qed.

(** Every press but one that opens a run adds a callback that only sends. *)
Lemma press_inert (b : button_id) (who : Z) (st : state) :
  b = Nevermind \/ (who =? user self) = false \/ is_processing st = true ->
  exists c k,
    advance answer (callback self b who) st = (emit (Io c) st, OnIo (Io c) k)
    /\ quiet c = true /\ inert k.
Proof.
  intro H. destruct (who =? user self) eqn:E.
  - apply Z.eqb_eq in E. subst who. destruct b.
    + destruct H as [H|[H|H]]; try discriminate.
      eexists _, _. split; [apply press_bought_busy, H|]. split; [reflexivity|constructor].
    + eexists _, _. split; [apply press_cancel|]. split; [reflexivity|].
      repeat constructor.
  - eexists _, _. split; [apply press_refused, E|]. split; [reflexivity|constructor].
Qed.

Lemma Inv_spawn_inert (s : sys) (c : io) (k : prog unit) :
  Inv s -> quiet c = true -> inert k ->
  Inv (mkSys (emit (Io c) (view s)) (pool s ++ [OnIo (Io c) k]) (shown s) (stopped s)).
Proof.
  intros HI Hq Hk.
  pose proof (meters_emit_quiet c (view s) Hq) as M.
  assert (Ho : observe c (view s) = Io c) by (destruct c; try discriminate; reflexivity).
  rewrite Ho in M. unfold meters in M.
  assert (M1 : count is_post (trace (emit (Io c) (view s))) = count is_post (trace (view s)))
    by congruence.
  assert (M2 : count is_get (trace (emit (Io c) (view s))) = count is_get (trace (view s)))
    by congruence.
  assert (M3 : count is_run_start (trace (emit (Io c) (view s)))
               = count is_run_start (trace (view s))) by congruence.
  clear M.
  assert (Hnew : inert_task (OnIo (Io c) k)) by (simpl; auto).
  unfold Inv, posts, gets, runs_started in *. cbn [view pool] in *.
  change (is_processing (emit (Io c) (view s))) with (is_processing (view s)).
  rewrite M1, M2, M3.
  destruct (is_processing (view s)).
  - destruct HI as (i & p & g & t & Hi & Ht & Hothers & Hp & Hg).
    exists i, p, g, t.
    repeat split; auto.
    + rewrite nth_error_app1; [exact Hi|]. apply nth_error_Some. congruence.
    + intros j t' Hj Hn. apply nth_error_snoc in Hn as [[_ Hn]|[_ Hn]].
      * eapply Hothers; eauto.
      * subst t'. exact Hnew.
  - destruct HI as (Hall & Hp & Hg).
    repeat split; auto.
    intros j t' Hn. apply nth_error_snoc in Hn as [[_ Hn]|[_ Hn]].
    + eapply Hall; eauto.
    + subst t'. exact Hnew.
Qed.

Lemma Inv_resume_inert (s : sys) (i : nat) (t0 : task) (k : prog unit)
    (shown' : list Button) :
  Inv s ->
  nth_error (pool s) i = Some t0 ->
  inert k ->
  (forall p g, ~ holder_task p g t0) ->
  Inv (resume answer s i k shown').
Proof.
  intros HI Hi Hk Hnot.
  destruct (advance_inert answer (view s) Hk) as (A1 & A2 & A3 & A4).
  unfold resume. destruct (advance answer k (view s)) as [st t]. cbn [fst snd] in *.
  unfold meters in A4.
  assert (M1 : count is_post (trace st) = count is_post (trace (view s))) by congruence.
  assert (M2 : count is_get (trace st) = count is_get (trace (view s))) by congruence.
  assert (M3 : count is_run_start (trace st) = count is_run_start (trace (view s)))
    by congruence.
  clear A4.
  unfold Inv, posts, gets, runs_started in *. cbn [view pool] in *.
  rewrite A2, M1, M2, M3.
  destruct (is_processing (view s)).
  - destruct HI as (i0 & p & g & th & Hi0 & Hth & Hothers & Hp & Hg).
    assert (Hne : i0 <> i).
    { intro E. subst i0. rewrite Hi in Hi0. injection Hi0 as ->. exact (Hnot p g Hth). }
    exists i0, p, g, th. repeat split; auto.
    + rewrite nth_error_set_nth_other by exact Hne. exact Hi0.
    + intros j t' Hj Hn. destruct (Nat.eq_dec j i) as [->|Hji].
      * rewrite (nth_error_set_nth_same _ _ _ Hi) in Hn. injection Hn as <-. exact A1.
      * rewrite nth_error_set_nth_other in Hn by exact Hji. eapply Hothers; eauto.
  - destruct HI as (Hall & Hp & Hg). repeat split; auto.
    intros j t' Hn. destruct (Nat.eq_dec j i) as [->|Hji].
    + rewrite (nth_error_set_nth_same _ _ _ Hi) in Hn. injection Hn as <-. exact A1.
    + rewrite nth_error_set_nth_other in Hn by exact Hji. eapply Hall; eauto.
Qed.

Lemma Inv_resume_holder (s : sys) (i p g : nat) (t0 : task) (k : prog unit)
    (shown' : list Button) :
  is_processing (view s) = true ->
  nth_error (pool s) i = Some t0 ->
  holder p g k ->
  (forall j t', j <> i -> nth_error (pool s) j = Some t' -> inert_task t') ->
  (posts s + p <= runs_started s)%nat ->
  (gets s + g <= 5 * runs_started s)%nat ->
  Inv (resume answer s i k shown').
Proof.
  intros Hflag Hi Hk Hothers Hp Hg.
  pose proof (advance_holder answer Hk (view s) Hflag) as A. cbv zeta in A.
  unfold resume. destruct (advance answer k (view s)) as [st t]. cbn [fst snd] in A.
  unfold Inv, posts, gets, runs_started in *. cbn [view pool].
  destruct A as [A0 [(p' & g' & A1 & A2 & A3 & A4)|(A1 & A2 & A3 & A4)]]; rewrite A2, A0.
  - exists i, p', g', t. repeat split; try lia.
    + eapply nth_error_set_nth_same; eauto.
    + exact A1.
    + intros j t' Hj Hn. rewrite nth_error_set_nth_other in Hn by exact Hj.
      eapply Hothers; eauto.
  - repeat split; try lia.
    intros j t' Hn. destruct (Nat.eq_dec j i) as [->|Hji].
    + rewrite (nth_error_set_nth_same _ _ _ Hi) in Hn. injection Hn as <-.
      subst t. exact I.
    + rewrite nth_error_set_nth_other in Hn by exact Hji. eapply Hothers; eauto.
Qed.

Lemma inert_not_holder (k : prog unit) : inert k -> forall p g, ~ holder p g k.
Proof.
  induction 1 as [a|c k Hq Hk IH|k Hk IH]; intros p g Hh; inversion Hh; subst;
    eapply IH; eauto.
Qed.

Lemma inert_task_not_holder (t : task) :
  inert_task t -> forall p g, ~ holder_task p g t.
Proof.
  destruct t as [|o k|chk k]; simpl; intros H p g Hh; auto.
  destruct H as [_ H], Hh as [_ Hh]. eapply inert_not_holder; eauto.
Qed.

(** A waiting callback is a run or only sends. *)
Lemma Inv_task (s : sys) (i : nat) (t : task) :
  Inv s -> nth_error (pool s) i = Some t ->
  inert_task t
  \/ (is_processing (view s) = true
      /\ exists p g, holder_task p g t
         /\ (forall j t', j <> i -> nth_error (pool s) j = Some t' -> inert_task t')
         /\ (posts s + p <= runs_started s)%nat
         /\ (gets s + g <= 5 * runs_started s)%nat).
Proof.
  intros HI Hi. unfold Inv in HI. destruct (is_processing (view s)).
  - destruct HI as (i0 & p & g & th & Hi0 & Hth & Hothers & Hp & Hg).
    destruct (Nat.eq_dec i i0) as [->|Hne].
    + right. split; [reflexivity|]. rewrite Hi in Hi0. injection Hi0 as ->.
      exists p, g. auto.
    + left. eapply Hothers; eauto.
  - left. destruct HI as (Hall & _). eapply Hall; eauto.
Qed.

Lemma Inv_step (s s' : sys) (e : event) :
  Inv s -> step answer self s e = Some s' -> Inv s'.
Proof.
  intros HI Hstep. destruct e as [b who|i|i m|i|]; cbn [step] in Hstep.
  - destruct (negb (stopped s) && clickable b (shown s)); [|discriminate].
    assert (Hinert : b = Nevermind \/ (who =? user self) = false
                     \/ is_processing (view s) = true -> Inv s').
    { intro H. destruct (@press_inert b who (view s) H) as (c & k & Hadv & Hq & Hk).
      rewrite Hadv in Hstep. injection Hstep as <-.
      apply Inv_spawn_inert; assumption. }
    destruct b; [|auto].
    destruct (who =? user self) eqn:E; [|auto].
    destruct (is_processing (view s)) eqn:F; [auto|].
    clear Hinert. apply Z.eqb_eq in E. subst who.
    cbn [callback] in Hstep. rewrite (@press_bought_idle (view s) F) in Hstep.
    injection Hstep as <-.
    unfold Inv in HI. rewrite F in HI. destruct HI as (Hall & Hp & Hg).
    unfold Inv, posts, gets, runs_started in *.
    cbn [view pool is_processing emit set_flag trace].
    unfold count in *. rewrite !filter_app, !length_app.
    cbn [filter is_post is_get is_run_start List.length].
    exists (List.length (pool s)), 1%nat, 5%nat,
      (OnIo (Io (Respond true Verifying))
         (await (Followup AskUsername) ;;
          try_finally (try_except (verification self (user self)) on_exception)
            (set_processing false))).
    split; [|split; [|split; [|split]]]; try lia.
    + rewrite nth_error_app2 by lia. rewrite Nat.sub_diag. reflexivity.
    + split; [exact I|apply holder_bought].
    + intros j t' Hj Hn. apply nth_error_snoc in Hn as [[_ Hn]|[Hn _]].
      * eapply Hall; eauto.
      * contradiction.
  - destruct (nth_error (pool s) i) as [[|pending k|chk k]|] eqn:Hi; try discriminate.
    injection Hstep as <-.
    destruct (@Inv_task s i _ HI Hi) as [Hin|(F & p & g & Hh & Hothers & Hp & Hg)].
    + eapply Inv_resume_inert; eauto.
      * destruct Hin; assumption.
      * apply inert_task_not_holder, Hin.
    + destruct Hh as [_ Hh]. eapply Inv_resume_holder; eauto.
  - destruct (nth_error (pool s) i) as [[|pending k|chk k]|] eqn:Hi; try discriminate.
    destruct (chk m); [|discriminate]. injection Hstep as <-.
    destruct (@Inv_task s i _ HI Hi) as [Hin|(F & p & g & Hh & Hothers & Hp & Hg)].
    + destruct Hin.
    + eapply Inv_resume_holder; eauto; apply Hh.
  - destruct (nth_error (pool s) i) as [[|pending k|chk k]|] eqn:Hi; try discriminate.
    injection Hstep as <-.
    destruct (@Inv_task s i _ HI Hi) as [Hin|(F & p & g & Hh & Hothers & Hp & Hg)].
    + destruct Hin.
    + eapply Inv_resume_holder; eauto; apply Hh.
  - injection Hstep as <-. exact HI.
Qed.

Lemma Inv_init : Inv init.
Proof.
  unfold Inv, init, posts, gets, runs_started. cbn.
  repeat split; try lia.
  intros [|j] t' H; discriminate.
Qed.

Lemma Inv_run (evs : list event) (s s' : sys) :
  Inv s -> run answer self evs s = Some s' -> Inv s'.
Proof.
  revert s. induction evs as [|e evs IH]; intros s HI Hrun; simpl in Hrun.
  - injection Hrun as <-. exact HI.
  - destruct (step answer self s e) as [s1|] eqn:Hs; [|discriminate].
    eapply IH; [|exact Hrun]. eapply Inv_step; eauto.
Qed.

End Loop.

(** ** Interleaved callbacks *)

Section LoopFacts.

Variable answer : nat -> request -> http_result.
Variable self : PurchaseConfirmView.

(** Only a press of "I Bought It" opens a run. *)
Lemma runs_started_step (s s' : sys) (e : event) :
  Inv s -> step answer self s e = Some s' -> is_bought_press e = false ->
  runs_started s' = runs_started s.
Proof.
  intros HI Hstep He. unfold runs_started.
  destruct e as [b who|i|i m|i|]; cbn [step] in Hstep.
  - destruct b; [discriminate|].
    destruct (negb (stopped s) && clickable Nevermind (shown s)); [|discriminate].
    destruct (@press_inert answer self Nevermind who (view s) (or_introl eq_refl))
      as (c & k & Hadv & Hq & Hk).
    rewrite Hadv in Hstep. injection Hstep as <-. cbn [view].
    pose proof (meters_emit_quiet c (view s) Hq) as M.
    assert (Ho : observe c (view s) = Io c) by (destruct c; try discriminate; reflexivity).
    rewrite Ho in M. unfold meters in M. congruence.
  - destruct (nth_error (pool s) i) as [[|pending k|chk k]|] eqn:Hi; try discriminate.
    injection Hstep as <-. unfold resume.
    destruct (@Inv_task s i _ HI Hi) as [[_ Hin]|(F & p & g & [_ Hh] & _)].
    + destruct (advance_inert answer (view s) Hin) as (_ & _ & _ & M).
      destruct (advance answer k (view s)) as [st t]. cbn [view fst] in *.
      unfold meters in M. congruence.
    + pose proof (advance_holder answer Hh (view s) F) as [A _].
      destruct (advance answer k (view s)) as [st t]. exact A.
  - destruct (nth_error (pool s) i) as [[|pending k|chk k]|] eqn:Hi; try discriminate.
    destruct (chk m); [|discriminate]. injection Hstep as <-. unfold resume.
    destruct (@Inv_task s i _ HI Hi) as [[]|(F & p & g & Hh & _)].
    pose proof (advance_holder answer (Hh (Some m)) (view s) F) as [A _].
    destruct (advance answer (k (Some m)) (view s)) as [st t]. exact A.
  - destruct (nth_error (pool s) i) as [[|pending k|chk k]|] eqn:Hi; try discriminate.
    injection Hstep as <-. unfold resume.
    destruct (@Inv_task s i _ HI Hi) as [[]|(F & p & g & Hh & _)].
    pose proof (advance_holder answer (Hh None) (view s) F) as [A _].
    destruct (advance answer (k None) (view s)) as [st t]. exact A.
  - injection Hstep as <-. reflexivity.
Qed.

Lemma runs_started_run (evs : list event) (s s' : sys) :
  Inv s -> run answer self evs s = Some s' ->
  forallb (fun e => negb (is_bought_press e)) evs = true ->
  runs_started s' = runs_started s.
Proof.
  revert s. induction evs as [|e evs IH]; intros s HI Hrun Hno; simpl in Hrun, Hno.
  - injection Hrun as <-. reflexivity.
  - destruct (step answer self s e) as [s1|] eqn:Hs; [|discriminate].
    apply andb_true_iff in Hno as [He Hno]. apply negb_true_iff in He.
    rewrite (IH s1); auto.
    + eapply runs_started_step; eauto.
    + eapply Inv_step; eauto.
Qed.

(** The calls made never exceed what the runs let in allow. *)
Lemma Inv_budget (s : sys) :
  Inv s -> (posts s <= runs_started s)%nat /\ (gets s <= 5 * runs_started s)%nat.
Proof.
  unfold Inv. destruct (is_processing (view s)).
  - intros (i & p & g & t & _ & _ & _ & Hp & Hg). lia.
  - intros (_ & Hp & Hg). lia.
Qed.

Lemma press_busy_step (s : sys) :
  is_processing (view s) = true ->
  stopped s = false ->
  clickable IBoughtIt (shown s) = true ->
  step answer self s (Press IBoughtIt (user self))
  = Some (mkSys (emit (Io (Respond true AlreadyInProgress)) (view s))
            (pool s ++ [OnIo (Io (Respond true AlreadyInProgress)) (Ret tt)])
            (shown s) (stopped s)).
Proof.
  intros Hbusy Hlive Hclick. cbn [step callback].
  rewrite Hlive, Hclick. cbn [negb andb].
  rewrite (@press_bought_busy answer self (view s) Hbusy). reflexivity.
Qed.

Lemma press_idle_step (s : sys) :
  is_processing (view s) = false ->
  stopped s = false ->
  clickable IBoughtIt (shown s) = true ->
  step answer self s (Press IBoughtIt (user self))
  = Some (mkSys (emit (Io (Respond true Verifying)) (set_flag true (view s)))
            (pool s ++ [OnIo (Io (Respond true Verifying))
                          (await (Followup AskUsername) ;;
                           try_finally
                             (try_except (verification self (user self)) on_exception)
                             (set_processing false))])
            (shown s) (stopped s)).
Proof.
  intros Hidle Hlive Hclick. cbn [step callback].
  rewrite Hlive, Hclick. cbn [negb andb].
  rewrite (@press_bought_idle answer self (view s) Hidle). reflexivity.
Qed.

(** Once the client shows the buttons disabled they stay so. *)
Lemma shown_disabled_step (s s' : sys) (e : event) :
  Inv s -> step answer self s e = Some s' ->
  all_disabled (shown s) = true -> all_disabled (shown s') = true.
Proof.
  intros HI Hstep Hdis. destruct e as [b who|i|i m|i|]; cbn [step] in Hstep.
  - rewrite (clickable_all_disabled b _ Hdis), andb_false_r in Hstep. discriminate.
  - destruct (nth_error (pool s) i) as [[|pending k|chk k]|] eqn:Hi; try discriminate.
    injection Hstep as <-. unfold resume.
    destruct (advance answer k (view s)) as [st t]. cbn [shown].
    destruct pending as [c|cs|r x]; try exact Hdis.
    destruct (@Inv_task s i _ HI Hi) as [[He _]|(_ & p & g & [He _] & _)]; exact He.
  - destruct (nth_error (pool s) i) as [[|pending k|chk k]|] eqn:Hi; try discriminate.
    destruct (chk m); [|discriminate]. injection Hstep as <-. unfold resume.
    destruct (advance answer (k (Some m)) (view s)) as [st t]. exact Hdis.
  - destruct (nth_error (pool s) i) as [[|pending k|chk k]|] eqn:Hi; try discriminate.
    injection Hstep as <-. unfold resume.
    destruct (advance answer (k None) (view s)) as [st t]. exact Hdis.
  - injection Hstep as <-. exact Hdis.
Qed.

Lemma shown_disabled_run (evs : list event) (s s' : sys) :
  Inv s -> run answer self evs s = Some s' ->
  all_disabled (shown s) = true -> all_disabled (shown s') = true.
Proof.
  revert s. induction evs as [|e evs IH]; intros s HI Hrun Hdis; simpl in Hrun.
  - injection Hrun as <-. exact Hdis.
  - destruct (step answer self s e) as [s1|] eqn:Hs; [|discriminate].
    apply (IH s1); auto.
    + eapply Inv_step; eauto.
    + eapply shown_disabled_step; eauto.
Qed.

End LoopFacts.

(** ** The claims about interleaved callbacks *)

(** C2.  While the flag is set, a press of "I Bought It" by the buyer is
    answered with the ephemeral notice and nothing else: the view, the other
    callbacks and the network are untouched, and the callback it adds has
    nothing left to do.  Two presses in a row, whatever follows them short of
    a third, open one run: one resolution at most and five checks at most. *)
Theorem second_trigger_is_rejected
    (answer : nat -> request -> http_result) (self : PurchaseConfirmView)
    (s : sys) (evs : list event) (s' : sys) :
  (is_processing (view s) = true ->
   stopped s = false ->
   clickable IBoughtIt (shown s) = true ->
   step answer self s (Press IBoughtIt (user self))
   = Some (mkSys (emit (Io (Respond true AlreadyInProgress)) (view s))
             (pool s ++ [OnIo (Io (Respond true AlreadyInProgress)) (Ret tt)])
             (shown s) (stopped s)))
  /\ (forallb (fun e => negb (is_bought_press e)) evs = true ->
      run answer self
        (Press IBoughtIt (user self) :: Press IBoughtIt (user self) :: evs) init
      = Some s' ->
      runs_started s' = 1%nat /\ (posts s' <= 1)%nat /\ (gets s' <= 5)%nat).
Proof.
  split.
  - apply press_busy_step.
  - intros Hno Hrun.
    cbn [run] in Hrun.
    rewrite (@press_idle_step answer self init eq_refl eq_refl eq_refl) in Hrun.
    rewrite press_busy_step in Hrun by reflexivity.
    match type of Hrun with run _ _ _ ?x = _ => set (s2 := x) in * end.
    assert (I2 : Inv s2).
    { apply (@Inv_run answer self
               [Press IBoughtIt (user self); Press IBoughtIt (user self)] init s2 Inv_init).
      cbn [run].
      rewrite (@press_idle_step answer self init eq_refl eq_refl eq_refl).
      rewrite press_busy_step by reflexivity. reflexivity. }
    assert (I' : Inv s') by (eapply Inv_run; [exact I2|exact Hrun]).
    assert (S2 : runs_started s2 = 1%nat) by reflexivity.
    rename Hrun into Hrest.
    pose proof (@runs_started_run answer self evs s2 s' I2 Hrest Hno) as S'.
    destruct (@Inv_budget s' I') as [Hp Hg]. rewrite S', S2 in *. lia.
Qed.

Lemma second_trigger_is_rejected_witness :
  match run owned_on_third session
          (Press IBoughtIt (user session) :: Press IBoughtIt (user session)
             :: Done 0 :: Done 1 :: Done 0 :: delivery) init with
  | Some s' => runs_started s' = 1%nat /\ (posts s' <= 1)%nat /\ (gets s' <= 5)%nat
  | None => False
  end.
Proof.
  destruct (run owned_on_third session
              (Press IBoughtIt (user session) :: Press IBoughtIt (user session)
                 :: Done 0 :: Done 1 :: Done 0 :: delivery) init) as [s'|] eqn:E.
  - apply (second_trigger_is_rejected owned_on_third session init
             (Done 0 :: Done 1 :: Done 0 :: delivery) s').
    + reflexivity.
    + exact E.
  - vm_compute in E. discriminate E.
Defined.

(** C6.  A press of either button by someone else than the buyer is answered
    with the notice and nothing else: the flag, the buttons, the count of
    requests and the callbacks that wait are as before, and the callback it
    adds has nothing left to do.  A choice in the menu by someone else than
    its owner is answered with the notice and attaches no confirmation
    view. *)
Theorem foreign_trigger_changes_nothing
    (answer : nat -> request -> http_result) (self : PurchaseConfirmView)
    (s : sys) (b : button_id) (who : Z)
    (w : world) (catalogue : list Item) (selected : string) (st : state) :
  who <> user self ->
  step answer self s (Press b who)
  = (if negb (stopped s) && clickable b (shown s) then
       Some (mkSys (emit (Io (Respond true NotForYou)) (view s))
               (pool s ++ [OnIo (Io (Respond true NotForYou)) (Ret tt)])
               (shown s) (stopped s))
     else None)
  /\ advance answer (Ret tt) (emit (Io (Respond true NotForYou)) (view s))
     = (emit (Io (Respond true NotForYou)) (view s), Finished)
  /\ exec w (select_callback (user self) catalogue who selected) st
     = (Ok None, emit (Io (Respond true MenuNotForYou)) st).
Proof.
  intro Hwho. apply Z.eqb_neq in Hwho. split; [|split].
  - cbn [step]. rewrite (@press_refused answer self b who (view s) Hwho). reflexivity.
  - reflexivity.
  - unfold select_callback. rewrite Hwho. reflexivity.
Qed.

Lemma foreign_trigger_changes_nothing_witness :
  step owned_on_third session init (Press IBoughtIt 8)
  = Some (mkSys (emit (Io (Respond true NotForYou)) new_view)
            [OnIo (Io (Respond true NotForYou)) (Ret tt)]
            (children new_view) false)
  /\ exec (mkWorld [] owned_on_third) (select_callback 7 [skin_a] 8 "Skin A") new_view
     = (Ok None, emit (Io (Respond true MenuNotForYou)) new_view).
Proof.
  assert (H : 8 <> user session) by (vm_compute; discriminate).
  destruct (foreign_trigger_changes_nothing owned_on_third session init IBoughtIt
              (mkWorld [] owned_on_third) [skin_a] "Skin A" new_view H) as (H1 & _ & H3).
  split; [exact H1|exact H3].
Defined.

Lemma disable_all_twice (cs : list Button) : disable_all (disable_all cs) = disable_all cs.
Proof. unfold disable_all. rewrite map_map. reflexivity. Qed.

Lemma released_undisturbed (answer : nat -> request -> http_result) (k : prog unit) :
  released k ->
  forall st st', undisturbed st st' ->
  trace (fst (advance answer k st)) = trace st
  /\ trace (fst (advance answer k st')) = trace st'
  /\ snd (advance answer k st') = snd (advance answer k st)
  /\ undisturbed (fst (advance answer k st)) (fst (advance answer k st')).
Proof.
  induction 1 as [a|k Hk IH]; intros st st' HU; cbn [advance fst snd].
  - auto.
  - apply (IH (set_flag false st) (set_flag false st')).
    destruct HU as (_ & Hc & Hb). repeat split; auto.
Qed.

(** What is left of a run does the same from a view other callbacks have
    sent from or disabled the buttons of: the same calls in the same order,
    up to the same next point of waiting. *)
Lemma holder_undisturbed (answer : nat -> request -> http_result)
    (p g : nat) (k : prog unit) :
  holder p g k ->
  forall st st', undisturbed st st' ->
  exists new,
    trace (fst (advance answer k st)) = (trace st ++ new)%list
    /\ trace (fst (advance answer k st')) = (trace st' ++ new)%list
    /\ snd (advance answer k st') = snd (advance answer k st)
    /\ undisturbed (fst (advance answer k st)) (fst (advance answer k st')).
Proof.
  induction 1 as [p g c k Hq Hk IH|p g chk t0 k Hk IH|p g url us k Hk IH
                 |p g url k Hk IH|p g k Hk IH|p g k Hk];
    intros st st' HU; cbn [advance fst snd].
  - assert (Ho : observe c st' = observe c st) by (destruct c; try discriminate; reflexivity).
    rewrite Ho. exists [observe c st]. repeat split; apply HU.
  - exists []. rewrite !app_nil_r. repeat split; apply HU.
  - destruct HU as (Hf & Hc & Hb). rewrite Hc.
    set (x := answer (calls st) (Post url us)).
    destruct (IH x (answered (Post url us) x st) (answered (Post url us) x st'))
      as (new & N1 & N2 & N3 & N4).
    { repeat split; cbn [answered is_processing calls children]; auto. }
    exists (Http (Post url us) x :: new).
    rewrite N1, N2. cbn [trace answered]. rewrite <- !app_assoc. auto.
  - destruct HU as (Hf & Hc & Hb). rewrite Hc.
    set (x := answer (calls st) (Get url)).
    destruct (IH x (answered (Get url) x st) (answered (Get url) x st'))
      as (new & N1 & N2 & N3 & N4).
    { repeat split; cbn [answered is_processing calls children]; auto. }
    exists (Http (Get url) x :: new).
    rewrite N1, N2. cbn [trace answered]. rewrite <- !app_assoc. auto.
  - cbn [observe children disable].
    assert (Hb : disable_all (children st') = disable_all (children st)).
    { destruct HU as (_ & _ & [Hb|Hb]); rewrite Hb; auto using disable_all_twice. }
    rewrite Hb. exists [Edited (disable_all (children st))].
    destruct HU as (Hf & Hc & _).
    repeat split; cbn [emit disable is_processing calls children]; auto.
  - destruct (@released_undisturbed answer k Hk (set_flag false st) (set_flag false st'))
      as (R1 & R2 & R3 & R4).
    { destruct HU as (_ & Hc & Hb). repeat split; auto. }
    exists []. rewrite !app_nil_r. auto.
Qed.

(** C9 as stated fails: with a verification run in flight (the flag is set
    and the run waits for the account name), a press of "Nevermind" by the
    buyer is taken: the cancellation notice goes out and the buttons are
    disabled.  The run is not cancelled: it goes on and delivers the file
    after the cancellation. *)
Lemma nevermind_is_taken_during_a_run :
  after owned_on_third session until_waiting (fun s => is_processing (view s)) = Some true
  /\ after owned_on_third session (until_waiting ++ nevermind)
       (fun s => (existsb is_cancel_notice (trace (view s)),
                  all_disabled (children (view s)),
                  all_disabled (shown s),
                  is_processing (view s)))
     = Some (true, true, true, true)
  /\ after owned_on_third session (until_waiting ++ nevermind ++ delivery)
       (fun s => (existsb is_cancel_notice (trace (view s)),
                  count is_file_link (trace (view s))))
     = Some (true, 1%nat).
Proof. repeat split; vm_compute; reflexivity. Qed.

(** C9, as the code has it.  A press of "Nevermind" by the buyer is taken
    whenever the button is still shown enabled, with or without a run in
    flight: it sends the cancellation notice and, when that call is done,
    disables the buttons and edits the message.  Neither step touches the
    flag, the count of requests or any other waiting callback, and what is
    left of a run does from the view so changed what it does otherwise: a run
    in flight is neither cancelled nor altered. *)
Theorem nevermind_leaves_the_run_alone
    (answer : nat -> request -> http_result) (self : PurchaseConfirmView)
    (s s2 : sys) (i : nat) (pending : obs)
    (p g : nat) (k : prog unit) (st st' : state) :
  stopped s = false ->
  clickable Nevermind (shown s) = true ->
  nth_error (pool s2) i
  = Some (OnIo pending (DisableChildren (Await EditMessage (Ret tt)))) ->
  holder p g k ->
  undisturbed st st' ->
  (step answer self s (Press Nevermind (user self))
   = Some (mkSys (emit (Io (Respond true PurchaseCancelled)) (view s))
             (pool s ++ [OnIo (Io (Respond true PurchaseCancelled))
                           (DisableChildren (Await EditMessage (Ret tt)))])
             (shown s) (stopped s))
   /\ undisturbed (view s) (emit (Io (Respond true PurchaseCancelled)) (view s)))
  /\ (exists s3,
        step answer self s2 (Done i) = Some s3
        /\ view s3 = emit (Edited (disable_all (children (view s2)))) (disable (view s2))
        /\ undisturbed (view s2) (view s3)
        /\ (forall j, j <> i -> nth_error (pool s3) j = nth_error (pool s2) j))
  /\ (exists new,
        trace (fst (advance answer k st)) = (trace st ++ new)%list
        /\ trace (fst (advance answer k st')) = (trace st' ++ new)%list
        /\ snd (advance answer k st') = snd (advance answer k st)
        /\ undisturbed (fst (advance answer k st)) (fst (advance answer k st'))).
Proof.
  intros Hlive Hclick Hi Hk HU. split; [|split].
  - split.
    + cbn [step callback]. rewrite Hlive, Hclick. cbn [negb andb].
      rewrite press_cancel. reflexivity.
    + repeat split; auto.
  - cbn [step]. rewrite Hi. eexists. split; [reflexivity|].
    unfold resume. cbn [advance observe view pool].
    split; [reflexivity|]. split.
    + repeat split; auto.
    + intros j Hj. apply nth_error_set_nth_other. exact Hj.
  - eapply holder_undisturbed; eauto.
Qed.

Lemma nevermind_leaves_the_run_alone_witness :
  step owned_on_third session init (Press IBoughtIt (user session)) = Some just_pressed
  /\ is_processing (view just_pressed) = true
  /\ step owned_on_third session just_pressed (Press Nevermind (user session))
     = Some then_nevermind
  /\ exists s3,
       step owned_on_third session then_nevermind (Done 1) = Some s3
       /\ undisturbed (view then_nevermind) (view s3)
       /\ nth_error (pool s3) 0 = nth_error (pool then_nevermind) 0.
Proof.
  assert (HU : undisturbed (view just_pressed) (view then_nevermind))
    by (repeat split; auto).
  destruct (@nevermind_leaves_the_run_alone owned_on_third session just_pressed
              then_nevermind 1 (Io (Respond true PurchaseCancelled)) 1 5 _
              (view just_pressed) (view then_nevermind)
              eq_refl eq_refl eq_refl (holder_bought session) HU)
    as ((H1 & _) & (s3 & H2 & _ & H3 & H4) & _).
  split; [exact (@press_idle_step owned_on_third session init eq_refl eq_refl eq_refl)|].
  split; [reflexivity|]. split; [exact H1|].
  exists s3. split; [exact H2|]. split; [exact H3|]. apply H4. discriminate.
Defined.

Lemma exec_cancel (w : world) (self : PurchaseConfirmView) (st : state) :
  exec w (cancel_button self (user self)) st
  = (Ok tt,
     emit (Edited (disable_all (children st)))
       (disable (emit (Io (Respond true PurchaseCancelled)) st))).
Proof. unfold cancel_button. rewrite Z.eqb_refl. reflexivity. Qed.

(** C8 as stated fails: after a run whose five checks all failed, the run is
    over and the failure notice is out, yet the buttons are enabled in the
    view and on the client, and a further press of "I Bought It" opens a
    second run. *)
Lemma failed_run_keeps_its_buttons :
  after never_owned session (until_waiting ++ five_failed_checks)
    (fun s => (existsb is_failure_notice (trace (view s)),
               match nth_error (pool s) 0 with Some Finished => true | _ => false end,
               is_processing (view s),
               all_disabled (children (view s)),
               clickable IBoughtIt (shown s),
               runs_started s))
  = Some (true, true, false, false, true, 1%nat)
  /\ after never_owned session (until_waiting ++ five_failed_checks ++ [Press IBoughtIt 7])
       (fun s => (runs_started s, is_processing (view s)))
     = Some (2%nat, true).
Proof. split; vm_compute; reflexivity. Qed.

(** C8, as the code has it.  A run that delivers and a press of "Nevermind"
    by the buyer disable the buttons and end with the edit that shows them
    disabled; once the client shows them disabled no press reaches the view
    any more, whatever happens next.  A run that ends without a delivery
    (failed verification, unresolved name, timed out wait, error) leaves the
    buttons as they were. *)
Theorem buttons_disabled_on_delivery_and_cancel
    (w : world) (answer : nat -> request -> http_result) (self : PurchaseConfirmView)
    (cs : list Button) (n : nat) (st : state) (evs evs' : list event) (s s' : sys) :
  let out := exec w (bought_button self (user self)) (mkState false cs [] n) in
  let owned := existsb (owned_check (gamepass_id (item self))) (trace (snd out)) in
  (owned = true ->
     all_disabled (children (snd out)) = true
     /\ exists t', trace (snd out) = (t' ++ [Edited (children (snd out))])%list)
  /\ (owned = false -> children (snd out) = cs)
  /\ (let out' := exec w (cancel_button self (user self)) st in
      all_disabled (children (snd out')) = true
      /\ trace (snd out')
         = (trace st ++ [Io (Respond true PurchaseCancelled);
                         Edited (children (snd out'))])%list)
  /\ (run answer self evs init = Some s ->
      (forall i shown' k,
          nth_error (pool s) i = Some (OnIo (Edited shown') k) ->
          all_disabled shown' = true
          /\ exists s1, step answer self s (Done i) = Some s1 /\ shown s1 = shown')
      /\ (all_disabled (shown s) = true ->
          (forall b who, step answer self s (Press b who) = None)
          /\ (run answer self evs' s = Some s' -> all_disabled (shown s') = true))).
Proof.
  intros out owned.
  destruct (bought_run_outcome w self cs n) as [Hyes Hno].
  split; [|split; [|split]].
  - intro H. destruct (Hyes H) as (_ & _ & Hd & He & _). auto.
  - intro H. exact (proj2 (Hno H)).
  - cbv zeta. rewrite exec_cancel. cbn [snd children emit disable trace].
    split; [apply all_disabled_disable_all|].
    rewrite <- app_assoc. reflexivity.
  - intro Hrun.
    assert (HI : Inv s) by (eapply Inv_run; [apply Inv_init|exact Hrun]).
    split.
    + intros i shown' k Hi. split.
      * destruct (@Inv_task s i _ HI Hi) as [[He _]|(_ & p & g & [He _] & _)]; exact He.
      * cbn [step]. rewrite Hi. eexists. split; [reflexivity|].
        unfold resume. destruct (advance answer k (view s)). reflexivity.
    + intro Hdis. split.
      * intros b who. cbn [step].
        rewrite (clickable_all_disabled b _ Hdis), andb_false_r. reflexivity.
      * intro Hrun'. eapply shown_disabled_run; eauto.
Qed.

Lemma buttons_disabled_on_delivery_and_cancel_witness :
  all_disabled
    (children (snd (exec (mkWorld [bob] owned_on_third)
                      (bought_button session (user session))
                      (mkState false (children new_view) [] 0)))) = true
  /\ children (snd (exec (mkWorld [] owned_on_third)
                      (bought_button session (user session))
                      (mkState false (children new_view) [] 0)))
     = children new_view
  /\ match run owned_on_third session (until_waiting ++ delivery) init with
     | Some s => forall b who, step owned_on_third session s (Press b who) = None
     | None => False
     end.
Proof.
  split; [|split].
  - destruct (buttons_disabled_on_delivery_and_cancel (mkWorld [bob] owned_on_third)
                owned_on_third session (children new_view) 0 new_view [] [] init init)
      as (H & _).
    destruct (H ltac:(vm_compute; reflexivity)) as [H1 _]. exact H1.
  - destruct (buttons_disabled_on_delivery_and_cancel (mkWorld [] owned_on_third)
                owned_on_third session (children new_view) 0 new_view [] [] init init)
      as (_ & H & _).
    exact (H ltac:(vm_compute; reflexivity)).
  - destruct (run owned_on_third session (until_waiting ++ delivery) init) as [s|] eqn:E.
    + destruct (buttons_disabled_on_delivery_and_cancel (mkWorld [] owned_on_third)
                  owned_on_third session (children new_view) 0 new_view
                  (until_waiting ++ delivery) [] s s) as (_ & _ & _ & H).
      destruct (H E) as [_ H2].
      assert (Hdis : all_disabled (shown s) = true).
      { vm_compute in E. injection E as <-. reflexivity. }
      exact (proj1 (H2 Hdis)).
    + vm_compute in E. discriminate E.
Defined.

(** ** The flag is given back, unless an opening message fails *)

Section FaultyRuns.

Variable raises : io -> option exc.
Variable w : world.

Lemma exec_call (c : io) (st : state) :
  exec w (Faulty.call raises c) st
  = match raises c with
    | Some e => (Err e, st)
    | None => (Ok tt, emit (observe c st) st)
    end.
Proof. unfold Faulty.call. destruct (raises c); reflexivity. Qed.

(** Whatever the body and the handlers do, the [finally] clears the flag. *)
Lemma flag_after_finally (p : prog unit) (handler : exc -> prog unit) (st : state) :
  is_processing
    (snd (exec w (try_finally (try_except p handler) (set_processing false)) st)) = false.
Proof.
  rewrite exec_try_finally. destruct (exec w (try_except p handler) st) as [r st1].
  reflexivity.
Qed.

Lemma exec_bought_busy (self : PurchaseConfirmView) (st : state) :
  is_processing st = true ->
  exec w (bought_button self (user self)) st
  = (Ok tt, emit (Io (Respond true AlreadyInProgress)) st).
Proof.
  intro Hbusy. unfold bought_button. rewrite Z.eqb_refl. cbn [negb].
  rewrite exec_bind. unfold get_processing. cbn [exec]. rewrite Hbusy. reflexivity.
Qed.

End FaultyRuns.

(** With no call that raises, the callback is [bought_button] as [exec] and
    [step] run it. *)
Lemma faultless_bought_button (self : PurchaseConfirmView) (who : Z) :
  Faulty.bought_button (fun _ => None) self who = bought_button self who.
Proof. reflexivity. Qed.

(** C3.  A run that reaches its [try] gives the flag back on every exit,
    also when calls to the chat platform raise: in the body, in a handler,
    anywhere.  But the flag is set (line 168) before the two opening messages
    are sent (lines 170-171), and these are outside the [try] (line 176):
    when one of them raises, the callback ends with that exception and the
    flag stays set.  Nothing clears it again: every later press of the buyer
    is answered "Verification already in progress". *)
Theorem opening_send_failure_leaves_flag_set
    (raises : io -> option exc) (w : world) (self : PurchaseConfirmView) (st : state) :
  is_processing st = false ->
  let out := exec w (Faulty.bought_button raises self (user self)) st in
  match raises (Respond true Verifying), raises (Followup AskUsername) with
  | Some e, _ => out = (Err e, set_flag true st)
  | None, Some e => out = (Err e, emit (Io (Respond true Verifying)) (set_flag true st))
  | None, None => is_processing (snd out) = false
  end
  /\ (is_processing (snd out) = true ->
      forall w',
        exec w' (bought_button self (user self)) (snd out)
        = (Ok tt, emit (Io (Respond true AlreadyInProgress)) (snd out))).
Proof.
  intros Hidle out. split; [|intros Hbusy w'; apply exec_bought_busy, Hbusy].
  subst out. unfold Faulty.bought_button. rewrite Z.eqb_refl. cbn [negb].
  rewrite exec_bind. unfold get_processing. cbn [exec]. rewrite Hidle.
  rewrite exec_bind.
  change (exec w (set_processing true) st) with (Ok tt, set_flag true st).
  cbv beta iota. rewrite exec_bind, exec_call.
  destruct (raises (Respond true Verifying)) as [e|]; [reflexivity|].
  cbv beta iota. rewrite exec_bind, exec_call.
  destruct (raises (Followup AskUsername)) as [e|]; [reflexivity|].
  cbv beta iota. apply flag_after_finally.
Qed.

Lemma opening_send_failure_leaves_flag_set_witness :
  let out := exec (mkWorld [bob] owned_on_third)
               (Faulty.bought_button Faulty.refuses_the_question session (user session))
               new_view in
  out = (Err HTTPException,
         mkState true (children new_view) [Io (Respond true Verifying)] 0)
  /\ exec (mkWorld [bob] owned_on_third) (bought_button session (user session)) (snd out)
     = (Ok tt,
        mkState true (children new_view)
          [Io (Respond true Verifying); Io (Respond true AlreadyInProgress)] 0).
Proof.
  intro out.
  destruct (@opening_send_failure_leaves_flag_set Faulty.refuses_the_question
              (mkWorld [bob] owned_on_third) session new_view eq_refl) as [H1 H2].
  cbn [Faulty.refuses_the_question] in H1. fold out in H1, H2.
  split; [exact H1|].
  rewrite (H2 ltac:(rewrite H1; reflexivity) (mkWorld [bob] owned_on_third)), H1.
  reflexivity.
Defined.

(** ** The catalogue under the owner's commands *)

Section Catalogue.

Import Store.

Lemma named_absent (item_name : string) (items : list Item) :
  existsb (named item_name) items = false -> ~ In item_name (names items).
Proof.
  induction items as [|it rest IH]; simpl; [tauto|].
  intro H. apply orb_false_iff in H as [Hn Hr]. intros [E|E].
  - unfold named in Hn. rewrite E, String.eqb_refl in Hn. discriminate.
  - exact (IH Hr E).
Qed.

Lemma find_absent (item_name : string) (items : list Item) :
  existsb (named item_name) items = false -> find (named item_name) items = None.
Proof.
  induction items as [|it rest IH]; simpl; [reflexivity|].
  intro H. apply orb_false_iff in H as [Hn Hr]. rewrite Hn. exact (IH Hr).
Qed.

Lemma find_present (item_name : string) (items : list Item) :
  existsb (named item_name) items = true ->
  exists it, find (named item_name) items = Some it /\ name it = item_name.
Proof.
  induction items as [|it rest IH]; simpl; [discriminate|].
  destruct (named item_name it) eqn:Hn; simpl.
  - intros _. exists it. split; [reflexivity|]. apply String.eqb_eq. exact Hn.
  - exact IH.
Qed.

Lemma filter_keeps_all (item_name : string) (items : list Item) :
  existsb (named item_name) items = false ->
  filter (fun i => negb (named item_name i)) items = items.
Proof.
  induction items as [|it rest IH]; simpl; [reflexivity|].
  intro H. apply orb_false_iff in H as [Hn Hr]. rewrite Hn. simpl. f_equal. exact (IH Hr).
Qed.

Lemma filter_shorter (item_name : string) (items : list Item) :
  existsb (named item_name) items = true ->
  (List.length (filter (fun i => negb (named item_name i)) items) < List.length items)%nat.
Proof.
  induction items as [|it rest IH]; simpl; [discriminate|].
  destruct (named item_name it) eqn:Hn; simpl.
  - intros _. pose proof (filter_length_le (fun i => negb (named item_name i)) rest). lia.
  - intro H. specialize (IH H). lia.
Qed.

Lemma filter_drops_name (item_name : string) (items : list Item) :
  existsb (named item_name) (filter (fun i => negb (named item_name i)) items) = false.
Proof.
  induction items as [|it rest IH]; simpl; [reflexivity|].
  destruct (named item_name it) eqn:Hn; simpl; [exact IH|].
  rewrite Hn. exact IH.
Qed.

Lemma names_filter_NoDup (keep : Item -> bool) (items : list Item) :
  NoDup (names items) -> NoDup (names (filter keep items)).
Proof.
  induction items as [|it rest IH]; simpl; intro H; [constructor|].
  inversion H as [|x l Hx Hl]; subst.
  destruct (keep it); simpl; [|auto].
  constructor; [|auto].
  intro Hin. apply Hx. unfold names in *. apply in_map_iff in Hin as (i & Hi & Hf).
  apply filter_In in Hf as [Hf _]. apply in_map_iff. eauto.
Qed.

Lemma edited_name (nf : option attachment) (ng : option string) (it : Item) :
  name (edited nf ng it) = name it.
Proof. unfold edited. destruct nf, ng as [[|c r]|]; reflexivity. Qed.

Lemma names_update_first (item_name : string) (change : Item -> Item) (items : list Item) :
  (forall it, name (change it) = name it) ->
  names (update_first item_name change items) = names items.
Proof.
  intro Hc. induction items as [|it rest IH]; simpl; [reflexivity|].
  destruct (named item_name it); simpl; [rewrite Hc; reflexivity|].
  f_equal. exact IH.
Qed.

Lemma find_update_first_same (item_name : string) (change : Item -> Item)
    (items : list Item) (it : Item) :
  (forall i, name (change i) = name i) ->
  find (named item_name) items = Some it ->
  find (named item_name) (update_first item_name change items) = Some (change it).
Proof.
  intros Hc. induction items as [|i rest IH]; simpl; [discriminate|].
  destruct (named item_name i) eqn:Hn; simpl.
  - intro E. injection E as <-. unfold named in *. rewrite Hc, Hn. reflexivity.
  - rewrite Hn. exact IH.
Qed.

Lemma find_update_first_other (item_name other : string) (change : Item -> Item)
    (items : list Item) :
  (forall i, name (change i) = name i) ->
  other <> item_name ->
  find (named other) (update_first item_name change items) = find (named other) items.
Proof.
  intros Hc Hne. induction items as [|i rest IH]; simpl; [reflexivity|].
  destruct (named item_name i) eqn:Hn; simpl.
  - unfold named in *. rewrite Hc. apply String.eqb_eq in Hn. rewrite Hn.
    destruct (String.eqb item_name other) eqn:E; [|reflexivity].
    apply String.eqb_eq in E. congruence.
  - destruct (named other i); [reflexivity|exact IH].
Qed.

Lemma find_snoc (keep : Item -> bool) (items : list Item) (it : Item) :
  find keep (items ++ [it])
  = match find keep items with
    | Some x => Some x
    | None => if keep it then Some it else None
    end.
Proof.
  induction items as [|i rest IH]; simpl; [reflexivity|].
  destruct (keep i); [reflexivity|exact IH].
Qed.

Lemma load_saved (d : fault) (items : list Item) (f : file) :
  load_data (save_data d items f) = items
  \/ load_data (save_data d items f) = load_data f
  \/ load_data (save_data d items f) = [].
Proof. destruct d; simpl; auto. Qed.

(** X1.  The names of the catalogue stay pairwise different: if they are
    before [/upload], [/edit] or [/delete], they are after it, whoever uses
    the command and whether or not the write succeeds. *)
Theorem commands_keep_names_unique
    (d : fault) (f : file) (owner who : Z) (item_name : string)
    (att : attachment) (gamepass_id : string)
    (new_file : option attachment) (new_gamepass_id : option string) :
  NoDup (names (load_data f)) ->
  NoDup (names (load_data (fst (upload d f owner who item_name att gamepass_id))))
  /\ NoDup (names (load_data (fst (edit d f owner who item_name new_file new_gamepass_id))))
  /\ NoDup (names (load_data (fst (delete d f owner who item_name)))).
Proof.
  intro Hu.
  assert (Hsave : forall items, NoDup (names items) ->
                                NoDup (names (load_data (save_data d items f)))).
  { intros items Hi. destruct (load_saved d items f) as [E|[E|E]]; rewrite E; auto.
    constructor. }
  split; [|split].
  - unfold upload. destruct (negb (who =? owner)); [exact Hu|]. cbv zeta.
    destruct (existsb (named item_name) (load_data f)) eqn:He; [exact Hu|].
    cbn [fst]. apply Hsave. unfold names. rewrite map_app. cbn [map name].
    apply NoDup_app; [exact Hu|repeat constructor; simpl; tauto|].
    intros a Ha [Hb|[]]. subst a. exact (named_absent _ _ He Ha).
  - unfold edit. destruct (negb (who =? owner)); [exact Hu|]. cbv zeta.
    destruct (find (named item_name) (load_data f)); [|exact Hu].
    cbn [fst]. apply Hsave. rewrite names_update_first; [exact Hu|].
    apply edited_name.
  - unfold delete. destruct (negb (who =? owner)); [exact Hu|]. cbv zeta.
    destruct (_ =? _)%nat; [exact Hu|].
    cbn [fst]. apply Hsave. apply names_filter_NoDup. exact Hu.
Qed.

Lemma commands_keep_names_unique_witness :
  NoDup (names (load_data (fst (upload NoFault (Holds [skin_a]) 1 1 "Skin B"
                                  (mkAttachment "https://files/skinB" "b.zip") "1000")))).
Proof.
  apply (commands_keep_names_unique NoFault (Holds [skin_a]) 1 1 "Skin B"
           (mkAttachment "https://files/skinB" "b.zip") "1000" None None).
  repeat constructor. simpl. tauto.
Defined.

(** X2.  An upload by the owner under a name not yet in the catalogue, when
    the write succeeds, adds the entry at the end; a buyer who then selects
    that name is shown the prompt of this entry, with the link of its pass,
    and every other name is looked up as before. *)
Theorem upload_then_select
    (f : file) (owner : Z) (item_name : string) (att : attachment) (gamepass_id : string) :
  existsb (named item_name) (load_data f) = false ->
  let new_item := mkItem item_name (att_url att) (JStr gamepass_id) in
  let out := upload NoFault f owner owner item_name att gamepass_id in
  let url := "https://www.roblox.com/game-pass/" ++ gamepass_id in
  out = (Holds (load_data f ++ [new_item]),
         ItemUploaded item_name gamepass_id (filename att))
  /\ (forall w buyer st,
        exec w (select_callback buyer (load_data (fst out)) buyer item_name) st
        = (Ok (Some (mkView new_item buyer url)),
           emit (Io (Respond false (PurchasePrompt new_item url))) st))
  /\ (forall other, other <> item_name ->
        find (named other) (load_data (fst out)) = find (named other) (load_data f)).
Proof.
  intros Hnew new_item out url.
  assert (E : out = (Holds (load_data f ++ [new_item]),
                     ItemUploaded item_name gamepass_id (filename att))).
  { subst out. unfold upload. rewrite Z.eqb_refl. cbn [negb]. cbv zeta.
    rewrite Hnew. reflexivity. }
  split; [exact E|]. rewrite E. cbn [fst load_data]. split.
  - intros w buyer st. unfold select_callback. rewrite Z.eqb_refl. cbn [negb].
    change (fun i : Item => String.eqb (name i) item_name) with (named item_name).
    rewrite find_snoc, (find_absent _ _ Hnew).
    unfold named at 1. cbn [name new_item]. rewrite String.eqb_refl. reflexivity.
  - intros other Hne. rewrite find_snoc.
    destruct (find (named other) (load_data f)); [reflexivity|].
    unfold named. cbn [name new_item].
    destruct (String.eqb item_name other) eqn:Eo; [|reflexivity].
    apply String.eqb_eq in Eo. congruence.
Qed.

Lemma upload_then_select_witness :
  fst (exec (mkWorld [] owned_on_third)
         (select_callback 7
            (load_data (fst (upload NoFault Absent 1 1 "Skin A"
                               (mkAttachment "https://files/skinA" "a.zip") "999")))
            7 "Skin A") new_view)
  = Ok (Some session).
Proof.
  destruct (@upload_then_select Absent 1 "Skin A"
              (mkAttachment "https://files/skinA" "a.zip") "999" eq_refl)
    as (_ & H & _).
  rewrite H. reflexivity.
Defined.

(** X3.  A delete by the owner of a name in the catalogue, when the write
    succeeds, removes every entry of that name and keeps the others in their
    order; a buyer who then selects the name is told that the item is not
    found.  A delete of a name not in the catalogue leaves the file as it is,
    not even rewritten. *)
Theorem delete_then_select
    (f : file) (owner : Z) (item_name : string) :
  let out := delete NoFault f owner owner item_name in
  (existsb (named item_name) (load_data f) = true ->
     out = (Holds (filter (fun i => negb (named item_name i)) (load_data f)),
            ItemDeleted item_name)
     /\ ~ In item_name (names (load_data (fst out)))
     /\ forall w buyer st,
          exec w (select_callback buyer (load_data (fst out)) buyer item_name) st
          = (Ok None, emit (Io (Respond true ItemNotFound)) st))
  /\ (existsb (named item_name) (load_data f) = false ->
        out = (f, NoSuchItem item_name)).
Proof.
  intro out. subst out. unfold delete. rewrite Z.eqb_refl. cbn [negb]. cbv zeta.
  split.
  - intro Hin. pose proof (filter_shorter _ _ Hin) as Hlt.
    destruct (_ =? _)%nat eqn:E; [apply Nat.eqb_eq in E; lia|].
    cbn [fst save_data load_data]. split; [reflexivity|]. split.
    + apply named_absent, filter_drops_name.
    + intros w buyer st. unfold select_callback. rewrite Z.eqb_refl. cbn [negb].
      change (fun i : Item => String.eqb (name i) item_name) with (named item_name).
      rewrite (find_absent _ _ (filter_drops_name item_name (load_data f))).
      reflexivity.
  - intro Hout. rewrite (filter_keeps_all _ _ Hout), Nat.eqb_refl. reflexivity.
Qed.

Lemma delete_then_select_witness :
  delete NoFault (Holds [skin_a]) 1 1 "Skin A" = (Holds [], ItemDeleted "Skin A")
  /\ delete NoFault (Holds [skin_a]) 1 1 "skin a"
     = (Holds [skin_a], NoSuchItem "skin a").
Proof.
  destruct (delete_then_select (Holds [skin_a]) 1 "Skin A") as [H _].
  destruct (delete_then_select (Holds [skin_a]) 1 "skin a") as [_ H'].
  split; [exact (proj1 (H eq_refl))|exact (H' eq_refl)].
Defined.

(** X4.  Uploading an entry under a new name and deleting that name gives
    back the catalogue as it was read before. *)
Theorem upload_then_delete
    (f : file) (owner : Z) (item_name : string) (att : attachment) (gamepass_id : string) :
  existsb (named item_name) (load_data f) = false ->
  let uploaded := fst (upload NoFault f owner owner item_name att gamepass_id) in
  delete NoFault uploaded owner owner item_name
  = (Holds (load_data f), ItemDeleted item_name).
Proof.
  intros Hnew uploaded. subst uploaded.
  unfold upload. rewrite Z.eqb_refl. cbn [negb]. cbv zeta. rewrite Hnew.
  cbn [fst save_data]. unfold delete. rewrite Z.eqb_refl. cbn [negb load_data]. cbv zeta.
  set (new_item := mkItem item_name (att_url att) (JStr gamepass_id)).
  assert (K : filter (fun i => negb (named item_name i)) (load_data f ++ [new_item])
              = load_data f).
  { rewrite filter_app, (filter_keeps_all _ _ Hnew). cbn [filter].
    unfold named at 1. cbn [name new_item]. rewrite String.eqb_refl. cbn [negb].
    apply app_nil_r. }
  rewrite K, length_app. cbn [List.length].
  destruct (_ =? _)%nat eqn:E; [apply Nat.eqb_eq in E; lia|]. reflexivity.
Qed.

Lemma upload_then_delete_witness :
  delete NoFault
    (fst (upload NoFault (Holds [skin_a]) 1 1 "Skin B"
            (mkAttachment "https://files/skinB" "b.zip") "1000")) 1 1 "Skin B"
  = (Holds [skin_a], ItemDeleted "Skin B").
Proof.
  apply (@upload_then_delete (Holds [skin_a]) 1 "Skin B"
           (mkAttachment "https://files/skinB" "b.zip") "1000" eq_refl).
Defined.

Lemma update_first_same (item_name : string) (change : Item -> Item) (items : list Item) :
  (forall i, change i = i) -> update_first item_name change items = items.
Proof.
  intro Hc. induction items as [|i rest IH]; simpl; [reflexivity|].
  destruct (named item_name i); [rewrite Hc; reflexivity|f_equal; exact IH].
Qed.

(** X5.  An edit by the owner of a name in the catalogue, when the write
    succeeds, changes the first entry of that name and nothing else: its file
    if one is given, its pass id if one is given and is not the empty
    string.  Names, order and every other entry are as before; with neither
    a file nor an id the catalogue is unchanged, though the command still
    answers that the item was updated.  A buyer who then selects the name is
    shown the prompt of the changed entry. *)
Theorem edit_changes_the_first_entry
    (f : file) (owner : Z) (item_name : string)
    (new_file : option attachment) (new_gamepass_id : option string) (it : Item) :
  find (named item_name) (load_data f) = Some it ->
  let out := edit NoFault f owner owner item_name new_file new_gamepass_id in
  let it' := edited new_file new_gamepass_id it in
  snd out = ItemUpdated item_name (option_map filename new_file) (given new_gamepass_id)
  /\ names (load_data (fst out)) = names (load_data f)
  /\ find (named item_name) (load_data (fst out)) = Some it'
  /\ file_url it' = match new_file with Some a => att_url a | None => file_url it end
  /\ gamepass_id it' = match given new_gamepass_id with
                       | Some g => JStr g
                       | None => gamepass_id it
                       end
  /\ (forall other, other <> item_name ->
        find (named other) (load_data (fst out)) = find (named other) (load_data f))
  /\ (new_file = None -> given new_gamepass_id = None ->
      load_data (fst out) = load_data f)
  /\ (forall w buyer st,
        exec w (select_callback buyer (load_data (fst out)) buyer item_name) st
        = (Ok (Some (mkView it' buyer (prompt_url it'))),
           emit (Io (Respond false (PurchasePrompt it' (prompt_url it')))) st)).
Proof.
  intros Hfind out it'. subst out. unfold edit. rewrite Z.eqb_refl. cbn [negb]. cbv zeta.
  rewrite Hfind. cbn [fst snd save_data load_data].
  assert (Hf : find (named item_name)
                 (update_first item_name (edited new_file new_gamepass_id) (load_data f))
               = Some it').
  { apply find_update_first_same; [apply edited_name|exact Hfind]. }
  split; [reflexivity|]. split; [apply names_update_first, edited_name|].
  split; [exact Hf|].
  split; [subst it'; unfold edited; destruct new_file, new_gamepass_id as [[|c r]|];
          reflexivity|].
  split; [subst it'; unfold edited, given; destruct new_file, new_gamepass_id as [[|c r]|];
          reflexivity|].
  split; [intros other Hne; apply find_update_first_other; [apply edited_name|exact Hne]|].
  split.
  - intros -> Hg. apply update_first_same. intro i. unfold edited.
    destruct new_gamepass_id as [[|c r]|]; try reflexivity. discriminate Hg.
  - intros w buyer st. unfold select_callback. rewrite Z.eqb_refl. cbn [negb].
    change (fun i : Item => String.eqb (name i) item_name) with (named item_name).
    rewrite Hf. reflexivity.
Qed.

Lemma edit_changes_the_first_entry_witness :
  load_data (fst (edit NoFault (Holds [skin_a]) 1 1 "Skin A" None (Some "1234")))
  = [mkItem "Skin A" "https://files/skinA" (JStr "1234")]
  /\ load_data (fst (edit NoFault (Holds [skin_a]) 1 1 "Skin A" None (Some EmptyString)))
     = [skin_a].
Proof.
  split.
  - reflexivity.
  - destruct (@edit_changes_the_first_entry (Holds [skin_a]) 1 "Skin A" None
                (Some EmptyString) skin_a eq_refl) as (_ & _ & _ & _ & _ & _ & H & _).
    exact (H eq_refl eq_refl).
Defined.

(** X6.  The commands do not notice a write that fails.  Whatever happens to
    the write they give the answer of a successful one; when the write of an
    upload stops midway the catalogue then reads as empty, and when the file
    cannot be opened it reads as before, without the uploaded entry. *)
Theorem failed_write_is_reported_as_success
    (d : fault) (f : file) (owner who : Z) (item_name : string)
    (att : attachment) (gamepass_id : string)
    (new_file : option attachment) (new_gamepass_id : option string) :
  snd (upload d f owner who item_name att gamepass_id)
  = snd (upload NoFault f owner who item_name att gamepass_id)
  /\ snd (edit d f owner who item_name new_file new_gamepass_id)
     = snd (edit NoFault f owner who item_name new_file new_gamepass_id)
  /\ snd (delete d f owner who item_name) = snd (delete NoFault f owner who item_name)
  /\ (snd (upload NoFault f owner who item_name att gamepass_id)
      = ItemUploaded item_name gamepass_id (filename att) ->
      load_data (fst (upload FailsMidway f owner who item_name att gamepass_id)) = []
      /\ fst (upload CannotOpen f owner who item_name att gamepass_id) = f).
Proof.
  split; [|split; [|split]].
  - unfold upload. destruct (negb (who =? owner)); [reflexivity|]. cbv zeta.
    destruct (existsb _ _); reflexivity.
  - unfold edit. destruct (negb (who =? owner)); [reflexivity|]. cbv zeta.
    destruct (find _ _); reflexivity.
  - unfold delete. destruct (negb (who =? owner)); [reflexivity|]. cbv zeta.
    destruct (_ =? _)%nat; reflexivity.
  - unfold upload. destruct (negb (who =? owner)); [discriminate|]. cbv zeta.
    destruct (existsb _ _); [discriminate|]. intros _. split; reflexivity.
Qed.

Lemma failed_write_is_reported_as_success_witness :
  upload FailsMidway (Holds [skin_a]) 1 1 "Skin B"
    (mkAttachment "https://files/skinB" "b.zip") "1000"
  = (Undecodable, ItemUploaded "Skin B" "1000" "b.zip")
  /\ load_data (fst (upload FailsMidway (Holds [skin_a]) 1 1 "Skin B"
                       (mkAttachment "https://files/skinB" "b.zip") "1000")) = [].
Proof.
  split; [reflexivity|].
  destruct (failed_write_is_reported_as_success FailsMidway (Holds [skin_a]) 1 1 "Skin B"
              (mkAttachment "https://files/skinB" "b.zip") "1000" None None)
    as (_ & _ & _ & H).
  exact (proj1 (H eq_refl)).
Defined.

(** X7.  The store is offered exactly to a private message, not from a bot,
    whose text is "buyitem" in any mix of upper and lower case, when the
    catalogue is not empty: the menu then belongs to the author and lists
    the names of the catalogue in order.  Commands are processed for every
    message not from a bot, except the "buyitem" that meets an empty
    catalogue. *)
Theorem store_is_offered_in_private (f : file) (author_is_bot : bool) (m : message) :
  let wanted := is_dm m = true /\ lower (content m) = "buyitem" in
  (on_message f author_is_bot m
   = [OfferStore (author m) (names (load_data f)); ProcessCommands]
   <-> author_is_bot = false /\ wanted /\ load_data f <> [])
  /\ (forall u options, In (OfferStore u options) (on_message f author_is_bot m) ->
        author_is_bot = false /\ wanted /\ load_data f <> []
        /\ u = author m /\ options = names (load_data f))
  /\ (In ProcessCommands (on_message f author_is_bot m)
      <-> author_is_bot = false /\ ~ (wanted /\ load_data f = [])).
Proof.
  intro wanted. subst wanted. unfold on_message.
  destruct author_is_bot.
  { split; [|split].
    - split; [discriminate|]. intros [H _]; discriminate.
    - intros u o [].
    - split; [intros []|]. intros [H _]; discriminate. }
  destruct (is_dm m); cbn [andb].
  2:{ split; [|split].
      - split; [discriminate|]. intros (_ & [H _] & _); discriminate.
      - intros u o [H|[]]; discriminate.
      - split; [|simpl; auto]. intros _. split; [reflexivity|].
        intros [[H _] _]; discriminate. }
  destruct (String.eqb (lower (content m)) "buyitem") eqn:E.
  - apply String.eqb_eq in E. destruct (load_data f) as [|it rest] eqn:L.
    + split; [|split].
      * split; [discriminate|]. intros (_ & _ & H). congruence.
      * intros u o [H|[]]; discriminate.
      * split; [intros [H|[]]; discriminate|]. intros [_ H]. exfalso. apply H. auto.
    + split; [|split].
      * split; [|reflexivity]. intros _. repeat split; auto. discriminate.
      * intros u o [H|[H|[]]]; [|discriminate]. injection H as <- <-.
        repeat split; auto. discriminate.
      * split; [|simpl; auto]. intros _. split; [reflexivity|].
        intros [_ H]; discriminate.
  - apply String.eqb_neq in E. split; [|split].
    + split; [discriminate|]. intros (_ & [_ H] & _). contradiction.
    + intros u o [H|[]]; discriminate.
    + split; [|simpl; auto]. intros _. split; [reflexivity|].
      intros [[_ H] _]. contradiction.
Qed.

Lemma store_is_offered_in_private_witness :
  on_message (Holds [skin_a]) false (mkMessage 7 true "BuyItem")
  = [OfferStore 7 ["Skin A"]; ProcessCommands].
Proof.
  destruct (store_is_offered_in_private (Holds [skin_a]) false (mkMessage 7 true "BuyItem"))
    as [[_ H] _].
  apply H. repeat split; discriminate.
Defined.

(** X8.  A catalogue file that is missing or cannot be decoded reads as an
    empty catalogue: the owner is told that nothing is uploaded, a buyer that
    nothing is for sale, and the next successful upload replaces the file by
    a catalogue of that one entry. *)
Theorem unreadable_file_is_an_empty_catalogue
    (f : file) (owner : Z) (m : message)
    (item_name : string) (att : attachment) (gamepass_id : string) :
  f = Absent \/ f = Undecodable ->
  showall f owner owner = NothingUploaded
  /\ (is_dm m = true -> lower (content m) = "buyitem" ->
      on_message f false m = [SayNothingForSale])
  /\ upload NoFault f owner owner item_name att gamepass_id
     = (Holds [mkItem item_name (att_url att) (JStr gamepass_id)],
        ItemUploaded item_name gamepass_id (filename att)).
Proof.
  intros [-> | ->]; (split; [|split]).
  - unfold showall. rewrite Z.eqb_refl. reflexivity.
  - intros Hdm Htext. unfold on_message. rewrite Hdm, Htext. reflexivity.
  - unfold upload. rewrite Z.eqb_refl. reflexivity.
  - unfold showall. rewrite Z.eqb_refl. reflexivity.
  - intros Hdm Htext. unfold on_message. rewrite Hdm, Htext. reflexivity.
  - unfold upload. rewrite Z.eqb_refl. reflexivity.
Qed.

Lemma unreadable_file_is_an_empty_catalogue_witness :
  on_message Undecodable false (mkMessage 7 true "buyitem") = [SayNothingForSale]
  /\ load_data (fst (upload NoFault Undecodable 1 1 "Skin A"
                       (mkAttachment "https://files/skinA" "a.zip") "999"))
     = [skin_a].
Proof.
  destruct (@unreadable_file_is_an_empty_catalogue Undecodable 1 (mkMessage 7 true "buyitem")
              "Skin A" (mkAttachment "https://files/skinA" "a.zip") "999"
              (or_intror eq_refl)) as (_ & H2 & H3).
  split; [exact (H2 eq_refl eq_refl)|]. rewrite H3. reflexivity.
Defined.

End Catalogue.

(** ** More about one run *)

Section RunFacts.

Import Run.

(** X9.  A resolution makes one POST, with the one name, and reads the
    account id off that answer alone: a transport failure, an object without
    [data] and an object whose [data] is empty or null give no id; an object
    whose [data] starts with an object gives the [id] of that first entry,
    whatever follows it; a body that is not an object raises
    [AttributeError] instead of giving no id. *)
Theorem get_user_id_from_username_answers (w : world) (username : string) (st : state) :
  let asked := Post users_url [username] in
  let x := net w (calls st) asked in
  let out := exec w (get_user_id_from_username username) st in
  snd out = answered asked x st
  /\ (x = Failed -> fst out = Ok JNull)
  /\ (forall d, x = Body (JDict d) ->
        dict_get d "data" = None \/ dict_get d "data" = Some JNull
        \/ dict_get d "data" = Some (JList []) ->
        fst out = Ok JNull)
  /\ (forall d e rest v, x = Body (JDict d) ->
        dict_get d "data" = Some (JList (JDict e :: rest)) ->
        dict_get e "id" = Some v ->
        fst out = Ok v)
  /\ (forall data, x = Body data -> is_dict data = false -> fst out = Err AttributeError).
Proof.
  intros asked x out. subst out. rewrite exec_get_user_id. fold asked x. cbn [fst snd].
  split; [reflexivity|]. split; [intros ->; reflexivity|]. split; [|split].
  - intros d -> [H|[H|H]]; cbn [resolution]; unfold user_id_of_body; cbn [method_get];
      rewrite H; reflexivity.
  - intros d e rest v -> Hd He. cbn [resolution]. unfold user_id_of_body.
    cbn [method_get]. rewrite Hd. cbn. rewrite He. reflexivity.
  - intros data -> Hnot. destruct data; try discriminate; reflexivity.
Qed.

Lemma get_user_id_from_username_answers_witness :
  fst (exec (mkWorld [] owned_on_third) (get_user_id_from_username "Bob") new_view)
  = Ok (JInt 123)
  /\ fst (exec (mkWorld [] (fun _ _ => Body (JList [])))
            (get_user_id_from_username "Bob") new_view)
     = Err AttributeError.
Proof.
  split.
  - destruct (get_user_id_from_username_answers (mkWorld [] owned_on_third) "Bob" new_view)
      as (_ & _ & _ & H & _).
    exact (H _ _ _ _ eq_refl eq_refl eq_refl).
  - destruct (get_user_id_from_username_answers (mkWorld [] (fun _ _ => Body (JList [])))
                "Bob" new_view) as (_ & _ & _ & _ & H).
    exact (H _ eq_refl eq_refl).
Defined.

Lemma find_none (keep : message -> bool) (l : list message) :
  (forall m, In m l -> keep m = false) -> find keep l = None.
Proof.
  induction l as [|m rest IH]; simpl; intro H; [reflexivity|].
  rewrite (H m (or_introl eq_refl)). apply IH. intros m' Hm. apply H. auto.
Qed.

(** X10.  The wait for the account name is answered by a private message of
    the buyer only.  When every message that arrives is from someone else or
    not private, the run times out: it makes no request, tells the buyer so,
    gives the flag back and leaves the buttons as they were. *)
Theorem only_the_buyers_private_message_answers
    (w : world) (self : PurchaseConfirmView) (st : state) :
  is_processing st = false ->
  (forall m, In m (inbox w) -> author m <> user self \/ is_dm m = false) ->
  exec w (bought_button self (user self)) st
  = (Ok tt,
     mkState false (children st)
       (trace st ++ [Io (Respond true Verifying); Io (Followup AskUsername);
                     Io (Followup VerificationTimedOut)])%list
       (calls st)).
Proof.
  intros Hidle Hforeign.
  rewrite exec_bought_accepted by exact Hidle. cbv zeta.
  rewrite exec_verification, find_none.
  - f_equal. apply state_eq; cbn [is_processing children trace calls emit set_flag
                                    error_notice]; try reflexivity.
    rewrite <- !app_assoc. reflexivity.
  - intros m Hm. unfold check. destruct (Hforeign m Hm) as [Ha|Hd].
    + apply Z.eqb_neq in Ha. rewrite Ha. reflexivity.
    + rewrite Hd. apply andb_false_r.
Qed.

Lemma only_the_buyers_private_message_answers_witness :
  calls (snd (exec (mkWorld [mkMessage 8 true "Bob"; mkMessage 7 false "Bob"] owned_on_third)
                (bought_button session (user session)) new_view)) = 0%nat.
Proof.
  rewrite (@only_the_buyers_private_message_answers
             (mkWorld [mkMessage 8 true "Bob"; mkMessage 7 false "Bob"] owned_on_third)
             session new_view eq_refl).
  - reflexivity.
  - intros m [<-|[<-|[]]]; [left; discriminate|right; reflexivity].
Defined.

Lemma slept_app (a b : list obs) : slept (a ++ b) = (slept a + slept b)%nat.
Proof.
  induction a as [|o a IH]; [reflexivity|].
  destruct o as [c| |]; try exact IH.
  destruct c; try exact IH. simpl. rewrite IH. lia.
Qed.

Lemma attempts_pauses (w : world) (uid gid : json) (n a : nat) (st : state) :
  (a + n = 5)%nat -> (1 <= n)%nat ->
  let out := exec w (verification_attempts uid gid (seq a n)) st in
  exists g, (1 <= g <= n)%nat
    /\ calls (snd out) = (calls st + g)%nat
    /\ slept (trace (snd out)) = (slept (trace st) + 5 * (g - 1))%nat
    /\ count is_attempt_notice (trace (snd out))
       = (count is_attempt_notice (trace st) + (g - 1))%nat
    /\ (fst out = Ok false -> g = n).
Proof.
  revert a st. induction n as [|n IH]; intros a st Ha Hn; [lia|].
  cbv zeta. cbn [seq]. rewrite exec_attempt. cbv zeta.
  set (x := net w (calls st) (Get (game_passes_url uid))).
  set (st1 := answered (Get (game_passes_url uid)) x st).
  assert (H1 : calls st1 = S (calls st)) by reflexivity.
  assert (H2 : slept (trace st1) = slept (trace st)).
  { unfold st1, answered. cbn [trace]. rewrite slept_app. simpl. lia. }
  assert (H3 : count is_attempt_notice (trace st1) = count is_attempt_notice (trace st)).
  { unfold st1. rewrite count_answered. simpl. lia. }
  destruct (ownership x gid) as [[|]|e].
  - exists 1%nat. cbn [fst snd]. rewrite H1, H2, H3.
    repeat split; try lia. discriminate.
  - destruct n as [|n].
    + assert (a = 4)%nat by lia. subst a. exists 1%nat.
      change (pause 4 st1) with st1. cbn [seq verification_attempts exec fst snd].
      rewrite H1, H2, H3. repeat split; lia.
    + destruct (IH (S a) (pause a st1) ltac:(lia) ltac:(lia))
        as (g & Hg & Hc & Hs & Hk & Hf).
      rewrite calls_pause, H1 in Hc.
      assert (Hlt : (a <? 4)%nat = true) by (apply Nat.ltb_lt; lia).
      assert (P1 : slept (trace (pause a st1)) = (slept (trace st1) + 5)%nat).
      { unfold pause. rewrite Hlt. unfold emit. cbn [trace].
        rewrite !slept_app. simpl. lia. }
      assert (P2 : count is_attempt_notice (trace (pause a st1))
                   = (count is_attempt_notice (trace st1) + 1)%nat).
      { unfold pause. rewrite Hlt, !count_emit. simpl. lia. }
      rewrite P1 in Hs. rewrite P2 in Hk.
      exists (S g). split; [lia|]. split; [lia|]. split; [lia|]. split; [lia|].
      intro F. rewrite (Hf F). reflexivity.
  - exists 1%nat. cbn [fst snd]. rewrite H1, H2, H3.
    repeat split; try lia. discriminate.
Qed.

(** X11.  The loop sleeps only between two checks: after [g] checks it has
    sent [g - 1] attempt notices and slept [5 * (g - 1)] seconds, so never
    more than 20 seconds, and it does not sleep after the check that ends it.
    It gives up (returns not verified) only after all five checks. *)
Theorem loop_sleeps_between_checks_only (w : world) (uid gid : json) (st : state) :
  let out := exec w (verification_attempts uid gid (seq 0 5)) st in
  let g := (calls (snd out) - calls st)%nat in
  (1 <= g <= 5)%nat
  /\ count is_get (trace (snd out)) = (count is_get (trace st) + g)%nat
  /\ count is_attempt_notice (trace (snd out))
     = (count is_attempt_notice (trace st) + (g - 1))%nat
  /\ slept (trace (snd out)) = (slept (trace st) + 5 * (g - 1))%nat
  /\ (fst out = Ok false -> g = 5%nat).
Proof.
  intros out g.
  destruct (@attempts_pauses w uid gid 5 0 st eq_refl ltac:(lia))
    as (g' & Hg & Hc & Hs & Hk & Hf).
  fold out in Hc, Hs, Hk, Hf.
  pose proof (attempts_frame w uid gid (seq 0 5) st) as F. cbv zeta in F.
  fold out in F. destruct F as (_ & _ & _ & Hget & _).
  assert (g = g') by (unfold g; lia). subst g'.
  repeat split; try lia; auto.
Qed.

(** X12.  When the name resolves and all five checks answer not owned, the
    run ends with the failure notice, which shows the name as typed (without
    the surrounding blanks) and the pass id; it has made the five checks with
    four pauses between them, sent no file, left the buttons as they were and
    given the flag back. *)
Theorem five_unowned_checks_fail_the_run
    (w : world) (self : PurchaseConfirmView) (st0 : state) (msg : message) (acct : json) :
  is_processing st0 = false ->
  find (check (user self)) (inbox w) = Some msg ->
  let asked := Post users_url [strip (content msg)] in
  let listed := Get (game_passes_url acct) in
  let x0 := net w (calls st0) asked in
  let x := fun j => net w (calls st0 + j) listed in
  resolution x0 = Ok acct ->
  truthy acct = true ->
  (forall j, (1 <= j <= 5)%nat -> ownership (x j) (gamepass_id (item self)) = Ok false) ->
  exec w (bought_button self (user self)) st0 =
  (Ok tt,
   mkState false (children st0)
     (trace st0 ++
        [Io (Respond true Verifying); Io (Followup AskUsername);
         Http asked x0;
         Http listed (x 1%nat); Io (Followup (AttemptNotice 1)); Io (Sleep 5);
         Http listed (x 2%nat); Io (Followup (AttemptNotice 2)); Io (Sleep 5);
         Http listed (x 3%nat); Io (Followup (AttemptNotice 3)); Io (Sleep 5);
         Http listed (x 4%nat); Io (Followup (AttemptNotice 4)); Io (Sleep 5);
         Http listed (x 5%nat);
         Io (Followup (VerificationFailed (strip (content msg)) (gamepass_id (item self))))])%list
     (calls st0 + 6)).
Proof.
  intros Hidle Hmsg asked listed x0 x Hres Htruthy Hno.
  pose proof (Hno 1%nat ltac:(lia)) as H1. pose proof (Hno 2%nat ltac:(lia)) as H2.
  pose proof (Hno 3%nat ltac:(lia)) as H3. pose proof (Hno 4%nat ltac:(lia)) as H4.
  pose proof (Hno 5%nat ltac:(lia)) as H5. clear Hno.
  subst x. cbv beta in *.
  replace (calls st0 + 1)%nat with (S (calls st0)) in * by lia.
  replace (calls st0 + 2)%nat with (S (S (calls st0))) in * by lia.
  replace (calls st0 + 3)%nat with (S (S (S (calls st0)))) in * by lia.
  replace (calls st0 + 4)%nat with (S (S (S (S (calls st0))))) in * by lia.
  replace (calls st0 + 5)%nat with (S (S (S (S (S (calls st0)))))) in * by lia.
  replace (calls st0 + 6)%nat with (S (S (S (S (S (S (calls st0))))))) by lia.
  rewrite exec_bought_accepted by exact Hidle. cbv zeta.
  rewrite exec_verification, Hmsg. cbv zeta.
  cbn [calls emit set_flag]. fold asked x0. rewrite Hres, Htruthy.
  cbn [seq]. rewrite exec_attempt. cbv zeta. cbn [calls answered emit set_flag].
  fold listed. rewrite H1.
  rewrite exec_attempt. cbv zeta. rewrite calls_pause. cbn [calls answered emit set_flag].
  fold listed. rewrite H2.
  rewrite exec_attempt. cbv zeta.
  repeat first [rewrite calls_pause | progress cbn [calls answered emit set_flag]].
  fold listed. rewrite H3.
  rewrite exec_attempt. cbv zeta.
  repeat first [rewrite calls_pause | progress cbn [calls answered emit set_flag]].
  fold listed. rewrite H4.
  rewrite exec_attempt. cbv zeta.
  repeat first [rewrite calls_pause | progress cbn [calls answered emit set_flag]].
  fold listed. rewrite H5.
  cbn [verification_attempts exec].
  f_equal. apply state_eq;
    cbn [is_processing children trace calls delivered pause answered emit disable
           set_flag Nat.ltb Nat.leb Nat.add];
    try reflexivity.
  rewrite <- !app_assoc. reflexivity.
Qed.

Lemma five_unowned_checks_fail_the_run_witness :
  let out := exec (mkWorld [bob] never_owned) (bought_button session 7) new_view in
  count is_get (trace (snd out)) = 5%nat
  /\ slept (trace (snd out)) = 20%nat
  /\ count is_file_link (trace (snd out)) = 0%nat
  /\ children (snd out) = children new_view
  /\ is_processing (snd out) = false.
Proof.
  intro out. subst out.
  pose proof (@five_unowned_checks_fail_the_run (mkWorld [bob] never_owned) session
                new_view bob (JInt 123) eq_refl eq_refl eq_refl eq_refl) as E.
  change (user session) with 7 in E. rewrite E.
  - repeat split; reflexivity.
  - intros j Hj. destruct j as [|[|[|[|[|[|j]]]]]]; try lia; reflexivity.
Defined.

End RunFacts.

(** ** More about interleaved callbacks *)

Section Budget.

Import Run.

Variable answer : nat -> request -> http_result.
Variable self : PurchaseConfirmView.

Lemma runs_started_press (s s' : sys) (e : event) :
  Inv s -> step answer self s e = Some s' ->
  (runs_started s' <= runs_started s + (if is_press_of (user self) e then 1 else 0))%nat.
Proof.
  intros HI Hstep. destruct (is_bought_press e) eqn:B.
  - destruct e as [[|] who| | | |]; try discriminate.
    cbn [step] in Hstep.
    destruct (negb (stopped s) && clickable IBoughtIt (shown s)); [|discriminate].
    cbn [is_press_of]. unfold runs_started.
    destruct (who =? user self) eqn:E.
    + apply Z.eqb_eq in E. subst who. cbn [callback] in Hstep.
      destruct (is_processing (view s)) eqn:F.
      * rewrite (@press_bought_busy answer self (view s) F) in Hstep.
        injection Hstep as <-. cbn [view]. rewrite count_emit. simpl. lia.
      * rewrite (@press_bought_idle answer self (view s) F) in Hstep.
        injection Hstep as <-. cbn [view]. rewrite count_emit. simpl. lia.
    + rewrite (@press_refused answer self IBoughtIt who (view s) E) in Hstep.
      injection Hstep as <-. cbn [view]. rewrite count_emit. simpl. lia.
  - rewrite (@runs_started_step answer self s s' e HI Hstep B). lia.
Qed.

Lemma runs_started_presses (evs : list event) (s s' : sys) :
  Inv s -> run answer self evs s = Some s' ->
  (runs_started s'
   <= runs_started s + List.length (filter (is_press_of (user self)) evs))%nat.
Proof.
  revert s. induction evs as [|e evs IH]; intros s HI Hrun; simpl in Hrun.
  - injection Hrun as <-. simpl. lia.
  - destruct (step answer self s e) as [s1|] eqn:Hs; [|discriminate].
    pose proof (@runs_started_press s s1 e HI Hs) as P.
    pose proof (IH s1 (@Inv_step answer self s s1 e HI Hs) Hrun) as Q.
    cbn [filter]. destruct (is_press_of (user self) e); cbn [List.length]; lia.
Qed.

(** X13.  The view calls the platform only for presses of "I Bought It" by
    its buyer: over any schedule of presses, completions, messages and
    timeouts, with [n] such presses among the events, it has opened at most
    [n] runs and made at most [n] resolutions and [5 * n] ownership checks.
    Presses by others, presses of "Nevermind", messages and timeouts let no
    request out. *)
Theorem requests_need_the_buyers_press (evs : list event) (s : sys) :
  run answer self evs init = Some s ->
  let n := List.length (filter (is_press_of (user self)) evs) in
  (runs_started s <= n)%nat /\ (posts s <= n)%nat /\ (gets s <= 5 * n)%nat.
Proof.
  intros Hrun n.
  pose proof (@runs_started_presses evs init s (Inv_init) Hrun) as R.
  change (runs_started init) with 0%nat in R. fold n in R.
  pose proof (@Inv_budget s (@Inv_run answer self evs init s Inv_init Hrun)) as [P G].
  lia.
Qed.

End Budget.

Lemma requests_need_the_buyers_press_witness :
  match run owned_on_third session
          ([Press IBoughtIt 8; Press Nevermind 8]
             ++ [Press IBoughtIt 7; Done 2; Done 2; Message 2 bob]
             ++ repeat (Done 2) 7) init with
  | Some s => (posts s <= 1)%nat /\ (gets s <= 5)%nat
  | None => False
  end.
Proof.
  destruct (run owned_on_third session
              ([Press IBoughtIt 8; Press Nevermind 8]
                 ++ [Press IBoughtIt 7; Done 2; Done 2; Message 2 bob]
                 ++ repeat (Done 2) 7) init) as [s|] eqn:E.
  - destruct (@requests_need_the_buyers_press owned_on_third session _ s E) as (_ & P & G).
    split; [exact P|exact G].
  - assert (H : after owned_on_third session
                  ([Press IBoughtIt 8; Press Nevermind 8]
                     ++ [Press IBoughtIt 7; Done 2; Done 2; Message 2 bob]
                     ++ repeat (Done 2) 7) (fun _ => tt) = Some tt)
      by (vm_compute; reflexivity).
    unfold after in H. rewrite E in H. discriminate.
Defined.

(** ** Deliveries in the event loop *)

Section Deliveries.

Import Run.

Variable answer : nat -> request -> http_result.
Variable self : PurchaseConfirmView.

Lemma linkless_bind (A B : Type) (p : prog A) (f : A -> prog B) :
  linkless p -> (forall a, linkless (f a)) -> linkless (bind p f).
Proof. induction 1; intro Hf; cbn [bind]; try constructor; auto. Qed.

Lemma linkless_try_except (A : Type) (p : prog A) (handler : exc -> prog A) :
  linkless p -> (forall e, linkless (handler e)) -> linkless (try_except p handler).
Proof. induction 1; intro Hh; cbn [try_except]; try constructor; auto. Qed.

Lemma linkless_lift (A : Type) (r : res A) : linkless (lift r).
Proof. destruct r; constructor. Qed.

Lemma linkless_check (uid gid : json) : linkless (check_gamepass_ownership uid gid).
Proof.
  unfold check_gamepass_ownership. apply linkless_try_except.
  - apply linkless_bind.
    + constructor. intros [|data]; constructor.
    + intro data. apply linkless_lift.
  - intro e; destruct e; constructor.
Qed.

Lemma linkless_get_user_id (username : string) :
  linkless (get_user_id_from_username username).
Proof.
  unfold get_user_id_from_username. apply linkless_try_except.
  - apply linkless_bind.
    + constructor. intros [|data]; constructor.
    + intro data. apply linkless_lift.
  - intro e; destruct e; constructor.
Qed.

Lemma linkless_attempts (uid gid : json) (l : list nat) :
  linkless (verification_attempts uid gid l).
Proof.
  induction l as [|attempt rest IH]; cbn [verification_attempts]; [constructor|].
  apply linkless_bind; [apply linkless_check|].
  intros [|]; [constructor|].
  apply linkless_bind; [|intros _; exact IH].
  destruct (attempt <? 4)%nat; simpl; repeat constructor.
Qed.

Lemma delivering_bind (A : Type) (p : prog A) (f : A -> prog unit) :
  linkless p -> (forall a, delivering (f a)) -> delivering (bind p f).
Proof.
  induction 1; intro Hf; cbn [bind]; try (constructor; auto; fail); auto.
Qed.

Lemma delivering_verification (who : Z) : delivering (verification self who).
Proof.
  unfold verification. apply delivering_bind.
  { constructor. intros [m|]; constructor. }
  intro msg. apply delivering_bind; [apply linkless_get_user_id|].
  intro uid. destruct (negb (truthy uid)).
  - simpl. repeat constructor.
  - apply delivering_bind; [apply linkless_attempts|].
    intros [|]; unfold await, disable_children; cbn [bind].
    + apply delivering_await; [reflexivity|]. apply delivering_link.
    + repeat constructor.
Qed.

Lemma once_of_delivering (q : prog unit) :
  delivering q ->
  once (try_finally (try_except q on_exception) (set_processing false)).
Proof.
  induction 1; simpl; try (constructor; auto; fail).
  - repeat constructor.
  - destruct e; simpl; repeat constructor.
  - apply once_link. repeat constructor.
Qed.

Lemma once_bought :
  once (await (Followup AskUsername) ;;
        try_finally (try_except (verification self (user self)) on_exception)
          (set_processing false)).
Proof.
  unfold await. cbn [bind]. constructor; [reflexivity|].
  apply once_of_delivering, delivering_verification.
Qed.

Lemma is_file_link_observe (c : io) (st : state) :
  is_file_link (observe c st) = is_link c.
Proof. destruct c as [e n|n| |n]; try reflexivity. Qed.

Lemma advance_linkless (k : prog unit) :
  linkless k -> forall st,
  count is_file_link (trace (fst (advance answer k st))) = count is_file_link (trace st)
  /\ linkless_task (snd (advance answer k st)).
Proof.
  induction 1 as [a|e|c k Hc Hk IH|chk t k Hk IH|r k Hk IH|k Hk IH|b k Hk IH|k Hk IH];
    intro st; cbn [advance fst snd].
  - split; [reflexivity|exact I].
  - split; [reflexivity|exact I].
  - rewrite count_emit, is_file_link_observe, Hc. split; [lia|exact Hk].
  - split; [reflexivity|exact Hk].
  - destruct (IH (answer (calls st) r) (answered r (answer (calls st) r) st)) as [I1 I2].
    rewrite count_answered in I1. cbn [is_file_link] in I1.
    split; [lia|exact I2].
  - apply IH.
  - apply (IH (set_flag b st)).
  - apply (IH (disable st)).
Qed.

(** A stretch of a run that has not sent the link sends it at most once, and
    then waits with nothing left but to close. *)
Lemma advance_once (k : prog unit) :
  once k -> forall st,
  let st' := fst (advance answer k st) in
  let t := snd (advance answer k st) in
  (count is_file_link (trace st') = count is_file_link (trace st) /\ once_task t)
  \/ (count is_file_link (trace st') = S (count is_file_link (trace st))
      /\ closing_task t /\ exists u k', t = OnIo (Io (Followup (FileLink u))) k').
Proof.
  induction 1 as [a|e|c k Hc Hk IH|u k Hk|chk t k Hk IH|r k Hk IH|k Hk IH|b k Hk IH|k Hk IH];
    intro st; cbv zeta; cbn [advance fst snd].
  - left. split; [reflexivity|exact I].
  - left. split; [reflexivity|exact I].
  - left. rewrite count_emit, is_file_link_observe, Hc. split; [lia|exact Hk].
  - right. cbn [observe]. rewrite count_emit. cbn [is_file_link closing_task].
    split; [lia|]. split; [exact Hk|]. eauto.
  - left. split; [reflexivity|exact Hk].
  - specialize (IH (answer (calls st) r) (answered r (answer (calls st) r) st)).
    cbv zeta in IH. rewrite count_answered in IH. cbn [is_file_link] in IH.
    rewrite Nat.add_0_r in IH. exact IH.
  - apply IH.
  - apply (IH (set_flag b st)).
  - apply (IH (disable st)).
Qed.

Lemma released_finishes (k : prog unit) :
  released k -> forall st,
  snd (advance answer k st) = Finished
  /\ trace (fst (advance answer k st)) = trace st.
Proof.
  induction 1 as [a|k Hk IH]; intro st; cbn [advance].
  - auto.
  - apply (IH (set_flag false st)).
Qed.

(** A press that opens no run adds a callback that sends no file. *)
Lemma press_calm (b : button_id) (who : Z) (st : state) :
  b = Nevermind \/ (who =? user self) = false \/ is_processing st = true ->
  exists c k,
    advance answer (callback self b who) st = (emit (Io c) st, OnIo (Io c) k)
    /\ quiet c = true /\ is_link c = false /\ inert k /\ linkless k.
Proof.
  intro H. destruct (who =? user self) eqn:E.
  - apply Z.eqb_eq in E. subst who. destruct b.
    + destruct H as [H|[H|H]]; try discriminate.
      eexists _, _. split; [apply press_bought_busy, H|].
      repeat split; constructor.
    + eexists _, _. split; [apply press_cancel|].
      repeat split; repeat constructor.
  - eexists _, _. split; [apply press_refused, E|]. repeat split; constructor.
Qed.

Lemma released_linkless (k : prog unit) : released k -> linkless k.
Proof. induction 1; constructor; auto. Qed.

Lemma Delivery_spawn (s : sys) (c : io) (k : prog unit) :
  Delivery s -> quiet c = true -> is_link c = false -> inert k -> linkless k ->
  Delivery (mkSys (emit (Io c) (view s)) (pool s ++ [OnIo (Io c) k]) (shown s) (stopped s)).
Proof.
  intros [HA HB] Hq Hc Hk Hl.
  assert (Hnew : inert_task (OnIo (Io c) k)) by (simpl; auto).
  unfold Delivery, links in *. cbn [view pool shown].
  rewrite count_emit. change (is_file_link (Io c)) with (is_link c). rewrite Hc, Nat.add_0_r.
  change (is_processing (emit (Io c) (view s))) with (is_processing (view s)).
  split.
  - intros j t Hn Hin. apply nth_error_snoc in Hn as [[_ Hn]|[_ ->]]; [eauto|exact Hl].
  - destruct (count is_file_link (trace (view s))) as [|[|n]]; auto.
    + intros j t p g Hn Hh. apply nth_error_snoc in Hn as [[_ Hn]|[_ ->]]; [eauto|].
      destruct (@inert_task_not_holder _ Hnew _ _ Hh).
    + destruct (is_processing (view s)); [|exact HB].
      intros j t p g Hn Hh. apply nth_error_snoc in Hn as [[_ Hn]|[_ ->]]; [eauto|].
      destruct (@inert_task_not_holder _ Hnew _ _ Hh).
Qed.

Lemma Delivery_resume_inert (s : sys) (i : nat) (t0 : task) (k : prog unit)
    (shown' : list Button) :
  Delivery s ->
  nth_error (pool s) i = Some t0 ->
  inert k -> linkless k ->
  (all_disabled (shown s) = true -> all_disabled shown' = true) ->
  Delivery (resume answer s i k shown').
Proof.
  intros [HA HB] Hi Hk Hl Hshown.
  destruct (advance_inert answer (view s) Hk) as (A1 & A2 & _).
  destruct (advance_linkless Hl (view s)) as [L1 L2].
  unfold resume. destruct (advance answer k (view s)) as [st t]. cbn [fst snd] in *.
  unfold Delivery, links in *. cbn [view pool shown]. rewrite L1, A2.
  split.
  - intros j t1 Hn Hin. destruct (Nat.eq_dec j i) as [->|Hji].
    + rewrite (nth_error_set_nth_same _ _ _ Hi) in Hn. injection Hn as <-. exact L2.
    + rewrite nth_error_set_nth_other in Hn by exact Hji. eauto.
  - destruct (count is_file_link (trace (view s))) as [|[|n]]; auto.
    + intros j t1 p g Hn Hh. destruct (Nat.eq_dec j i) as [->|Hji].
      * rewrite (nth_error_set_nth_same _ _ _ Hi) in Hn. injection Hn as <-.
        destruct (@inert_task_not_holder _ A1 _ _ Hh).
      * rewrite nth_error_set_nth_other in Hn by exact Hji. eauto.
    + destruct (is_processing (view s)); [|auto].
      intros j t1 p g Hn Hh. destruct (Nat.eq_dec j i) as [->|Hji].
      * rewrite (nth_error_set_nth_same _ _ _ Hi) in Hn. injection Hn as <-.
        destruct (@inert_task_not_holder _ A1 _ _ Hh).
      * rewrite nth_error_set_nth_other in Hn by exact Hji. eauto.
Qed.

Lemma Delivery_resume_once (s : sys) (i p g : nat) (t0 : task) (k : prog unit)
    (shown' : list Button) :
  Delivery s ->
  is_processing (view s) = true ->
  links s = 0%nat ->
  nth_error (pool s) i = Some t0 ->
  holder p g k -> once k ->
  (forall j t', j <> i -> nth_error (pool s) j = Some t' -> inert_task t') ->
  Delivery (resume answer s i k shown').
Proof.
  intros [HA _] Hflag Hzero Hi Hh Ho Hothers.
  pose proof (advance_holder answer Hh (view s) Hflag) as [_ H]. cbv zeta in H.
  pose proof (advance_once Ho (view s)) as O. cbv zeta in O.
  unfold resume. destruct (advance answer k (view s)) as [st t]. cbn [fst snd] in *.
  unfold links in Hzero. rewrite Hzero in O.
  unfold Delivery, links. cbn [view pool shown].
  assert (Hold : forall j t1 q r, j <> i -> nth_error (set_nth (pool s) i t) j = Some t1 ->
                   ~ holder_task q r t1).
  { intros j t1 q r Hji Hn. rewrite nth_error_set_nth_other in Hn by exact Hji.
    apply inert_task_not_holder. eapply Hothers; eauto. }
  split.
  - intros j t1 Hn Hin. destruct (Nat.eq_dec j i) as [->|Hji].
    + rewrite (nth_error_set_nth_same _ _ _ Hi) in Hn. injection Hn as <-.
      destruct H as [(p' & g' & H1 & _)|(-> & _)]; [|exact I].
      destruct (@inert_task_not_holder _ Hin _ _ H1).
    + rewrite nth_error_set_nth_other in Hn by exact Hji. eauto.
  - destruct O as [[O1 O2]|(O1 & O2 & u & k' & O3)]; rewrite O1.
    + intros j t1 q r Hn Hh1. destruct (Nat.eq_dec j i) as [->|Hji].
      * rewrite (nth_error_set_nth_same _ _ _ Hi) in Hn. injection Hn as <-. exact O2.
      * destruct (Hold _ _ _ _ Hji Hn Hh1).
    + destruct H as [(p' & g' & _ & H2 & _)|(H1 & _)]; [|congruence].
      rewrite H2. intros j t1 q r Hn Hh1. destruct (Nat.eq_dec j i) as [->|Hji].
      * rewrite (nth_error_set_nth_same _ _ _ Hi) in Hn. injection Hn as <-. exact O2.
      * destruct (Hold _ _ _ _ Hji Hn Hh1).
Qed.

Lemma Delivery_resume_closing (s : sys) (i p g : nat) (pending : obs) (k : prog unit) :
  Delivery s ->
  is_processing (view s) = true ->
  links s = 1%nat ->
  nth_error (pool s) i = Some (OnIo pending k) ->
  holder_task p g (OnIo pending k) ->
  (forall j t', j <> i -> nth_error (pool s) j = Some t' -> inert_task t') ->
  Delivery (resume answer s i k (match pending with Edited cs => cs | _ => shown s end)).
Proof.
  intros [HA HB] Hflag Hone Hi Hh Hothers.
  rewrite Hone, Hflag in HB. pose proof (HB _ _ _ _ Hi Hh) as Hc.
  assert (Hold : forall t j t1 q r, j <> i -> nth_error (set_nth (pool s) i t) j = Some t1 ->
                   ~ holder_task q r t1).
  { intros t j t1 q r Hji Hn. rewrite nth_error_set_nth_other in Hn by exact Hji.
    apply inert_task_not_holder. eapply Hothers; eauto. }
  assert (Hkeep : forall t j t1, j <> i -> nth_error (set_nth (pool s) i t) j = Some t1 ->
                    inert_task t1 -> linkless_task t1).
  { intros t j t1 Hji Hn. rewrite nth_error_set_nth_other in Hn by exact Hji. eauto. }
  unfold links in Hone.
  destruct pending as [c|cs|r x]; cbn [closing_task] in Hc; try contradiction.
  - destruct c as [e n|n| |n]; try contradiction. destruct n; try contradiction.
    destruct Hc as [r Hr]. unfold resume. cbn [advance observe].
    unfold Delivery, links. cbn [view pool shown].
    rewrite count_emit. cbn [is_file_link trace disable is_processing emit].
    rewrite Nat.add_0_r, Hone, Hflag. split.
    + intros j t1 Hn Hin. destruct (Nat.eq_dec j i) as [->|Hji].
      * rewrite (nth_error_set_nth_same _ _ _ Hi) in Hn. injection Hn as <-.
        apply released_linkless, Hr.
      * eapply Hkeep; eauto.
    + intros j t1 q r0 Hn Hh1. destruct (Nat.eq_dec j i) as [->|Hji].
      * rewrite (nth_error_set_nth_same _ _ _ Hi) in Hn. injection Hn as <-. exact Hr.
      * destruct (Hold _ _ _ _ _ Hji Hn Hh1).
  - destruct Hh as [He Hh].
    assert (Hfin : snd (advance answer k (view s)) = Finished
                   /\ is_processing (fst (advance answer k (view s))) = false
                   /\ trace (fst (advance answer k (view s))) = trace (view s)).
    { inversion Hh; subst; try (inversion Hc; fail). cbn [advance].
      match goal with R : released _ |- _ =>
        destruct (advance_released answer (set_flag false (view s)) R eq_refl)
          as (R1 & R2 & R3)
      end.
      auto. }
    destruct Hfin as (F1 & F2 & F3).
    unfold resume. destruct (advance answer k (view s)) as [st t]. cbn [fst snd] in *.
    subst t. unfold Delivery, links. cbn [view pool shown]. rewrite F3, Hone, F2.
    split; [|exact He].
    intros j t1 Hn Hin. destruct (Nat.eq_dec j i) as [->|Hji].
    + rewrite (nth_error_set_nth_same _ _ _ Hi) in Hn. injection Hn as <-. exact I.
    + eapply Hkeep; eauto.
Qed.

Lemma Delivery_step (s s' : sys) (e : event) :
  Inv s -> Delivery s -> step answer self s e = Some s' -> Delivery s'.
Proof.
  intros HI HD Hstep. destruct e as [b who|i|i m|i|]; cbn [step] in Hstep.
  - destruct (negb (stopped s) && clickable b (shown s)) eqn:C; [|discriminate].
    apply andb_true_iff in C as [_ C].
    assert (Hcalm : b = Nevermind \/ (who =? user self) = false
                    \/ is_processing (view s) = true -> Delivery s').
    { intro H. destruct (@press_calm b who (view s) H) as (c & k & Hadv & Hq & Hc & Hk & Hl).
      rewrite Hadv in Hstep. injection Hstep as <-.
      apply Delivery_spawn; assumption. }
    destruct b; [|auto].
    destruct (who =? user self) eqn:E; [|auto].
    destruct (is_processing (view s)) eqn:F; [auto|].
    clear Hcalm. apply Z.eqb_eq in E. subst who.
    cbn [callback] in Hstep. rewrite (@press_bought_idle answer self (view s) F) in Hstep.
    injection Hstep as <-.
    unfold Inv in HI. rewrite F in HI. destruct HI as (Hall & _).
    destruct HD as [HA HB]. unfold Delivery, links in *. cbn [view pool shown].
    rewrite count_emit. cbn [is_file_link trace set_flag is_processing emit].
    rewrite Nat.add_0_r. rewrite F in HB. split.
    + intros j t Hn Hin. apply nth_error_snoc in Hn as [[_ Hn]|[_ ->]]; [eauto|].
      destruct Hin as [_ Hin].
      destruct (@inert_not_holder _ Hin _ _ (holder_bought self)).
    + destruct (count is_file_link (trace (view s))) as [|[|n]]; auto.
      * intros j t p g Hn Hh. apply nth_error_snoc in Hn as [[_ Hn]|[_ ->]].
        -- destruct (@inert_task_not_holder _ (Hall _ _ Hn) _ _ Hh).
        -- exact once_bought.
      * rewrite (clickable_all_disabled IBoughtIt _ HB) in C. discriminate.
  - destruct (nth_error (pool s) i) as [[|pending k|chk k]|] eqn:Hi; try discriminate.
    injection Hstep as <-.
    destruct (@Inv_task s i _ HI Hi) as [[He Hin]|(F & p & g & Hh & Hothers & _)].
    + apply Delivery_resume_inert with (t0 := OnIo pending k); auto.
      * destruct HD as [HA _]. apply (HA _ _ Hi). split; assumption.
      * intro Hdis. destruct pending; auto.
    + destruct (links s) as [|[|n]] eqn:L.
      * apply (@Delivery_resume_once s i p g _ k _ HD F L Hi (proj2 Hh)); [|exact Hothers].
        destruct HD as [_ HB]. rewrite L in HB. apply (HB _ _ _ _ Hi Hh).
      * eapply Delivery_resume_closing; eauto.
      * destruct HD as [_ HB]. rewrite L in HB. contradiction.
  - destruct (nth_error (pool s) i) as [[|pending k|chk k]|] eqn:Hi; try discriminate.
    destruct (chk m); [|discriminate]. injection Hstep as <-.
    destruct (@Inv_task s i _ HI Hi) as [[]|(F & p & g & Hh & Hothers & _)].
    destruct (links s) as [|[|n]] eqn:L.
    + apply (@Delivery_resume_once s i p g _ (k (Some m)) _ HD F L Hi (Hh (Some m)));
        [|exact Hothers].
      destruct HD as [_ HB]. rewrite L in HB. apply (HB _ _ _ _ Hi Hh).
    + destruct HD as [_ HB]. rewrite L, F in HB. destruct (HB _ _ _ _ Hi Hh).
    + destruct HD as [_ HB]. rewrite L in HB. contradiction.
  - destruct (nth_error (pool s) i) as [[|pending k|chk k]|] eqn:Hi; try discriminate.
    injection Hstep as <-.
    destruct (@Inv_task s i _ HI Hi) as [[]|(F & p & g & Hh & Hothers & _)].
    destruct (links s) as [|[|n]] eqn:L.
    + apply (@Delivery_resume_once s i p g _ (k None) _ HD F L Hi (Hh None));
        [|exact Hothers].
      destruct HD as [_ HB]. rewrite L in HB. apply (HB _ _ _ _ Hi Hh).
    + destruct HD as [_ HB]. rewrite L, F in HB. destruct (HB _ _ _ _ Hi Hh).
    + destruct HD as [_ HB]. rewrite L in HB. contradiction.
  - injection Hstep as <-. exact HD.
Qed.

Lemma Delivery_init : Delivery init.
Proof.
  unfold Delivery, init, links. cbn. split.
  - intros [|j] t H; discriminate.
  - intros [|j] t p g H; discriminate.
Qed.

Lemma Delivery_run (evs : list event) (s s' : sys) :
  Inv s -> Delivery s -> run answer self evs s = Some s' -> Delivery s'.
Proof.
  revert s. induction evs as [|e evs IH]; intros s HI HD Hrun; simpl in Hrun.
  - injection Hrun as <-. exact HD.
  - destruct (step answer self s e) as [s1|] eqn:Hs; [|discriminate].
    apply (IH s1); auto.
    + eapply Inv_step; eauto.
    + eapply Delivery_step; eauto.
Qed.

(** X14.  A confirmation view sends its file at most once, whatever the
    schedule of presses, completions, messages and timeouts.  Once the file
    is out and the run has ended, the client shows the buttons disabled, so
    no press reaches the view again. *)
Theorem view_sends_its_file_at_most_once (evs : list event) (s : sys) :
  run answer self evs init = Some s ->
  (links s <= 1)%nat
  /\ (links s = 1%nat -> is_processing (view s) = false ->
      all_disabled (shown s) = true
      /\ forall b who, step answer self s (Press b who) = None).
Proof.
  intro Hrun.
  pose proof (@Delivery_run evs init s Inv_init Delivery_init Hrun) as [_ HB].
  destruct (links s) as [|[|n]]; [split; [lia|discriminate]| |contradiction].
  split; [lia|]. intros _ F. rewrite F in HB. split; [exact HB|].
  intros b who. cbn [step]. rewrite (clickable_all_disabled b _ HB), andb_false_r.
  reflexivity.
Qed.

End Deliveries.

Lemma view_sends_its_file_at_most_once_witness :
  match run owned_on_third session (until_waiting ++ delivery) init with
  | Some s =>
      Run.links s = 1%nat
      /\ step owned_on_third session s (Press IBoughtIt 7) = None
  | None => False
  end.
Proof.
  assert (H : option_map (fun s => (Run.links s, is_processing (view s)))
                (run owned_on_third session (until_waiting ++ delivery) init)
              = Some (1%nat, false))
    by (vm_compute; reflexivity).
  destruct (run owned_on_third session (until_waiting ++ delivery) init) as [s|] eqn:E;
    [|discriminate H].
  cbn [option_map] in H.
  assert (H1 : Run.links s = 1%nat) by congruence.
  assert (H2 : is_processing (view s) = false) by congruence.
  destruct (@view_sends_its_file_at_most_once owned_on_third session _ s E) as [_ K].
  split; [exact H1|]. exact (proj2 (K H1 H2) IBoughtIt 7).
Defined.

(** ** From the menu to the confirmation view *)

Section Menu.

Import Store.

Lemma named_present (item_name : string) (items : list Item) :
  In item_name (names items) -> existsb (named item_name) items = true.
Proof.
  induction items as [|it rest IH]; simpl; [tauto|].
  intros [E|E].
  - unfold named. rewrite E, String.eqb_refl. reflexivity.
  - rewrite (IH E). apply orb_true_r.
Qed.

(** X15.  Every option of the menu [on_message] offers can be taken: while
    the catalogue is the one the menu was built from, the buyer who selects
    an option gets the confirmation view of the first entry of that name,
    with the link of its pass, and the view belongs to the author of the
    message that opened the menu.  Anyone else who selects gets the
    "not for you" notice and no view. *)
Theorem offered_option_opens_its_view
    (f : file) (m : message) (menu_user : Z) (options : list string)
    (selected : string) (w : world) (st : state) :
  In (OfferStore menu_user options) (on_message f false m) ->
  In selected options ->
  menu_user = author m
  /\ (exists it,
        find (named selected) (load_data f) = Some it
        /\ name it = selected
        /\ exec w (select_callback menu_user (load_data f) menu_user selected) st
           = (Ok (Some (mkView it menu_user (prompt_url it))),
              emit (Io (Respond false (PurchasePrompt it (prompt_url it)))) st))
  /\ (forall who, who <> menu_user ->
        exec w (select_callback menu_user (load_data f) who selected) st
        = (Ok None, emit (Io (Respond true MenuNotForYou)) st)).
Proof.
  intros Hoffer Hsel.
  assert (H : menu_user = author m /\ options = names (load_data f)).
  { unfold on_message in Hoffer.
    destruct (is_dm m && String.eqb (lower (content m)) "buyitem");
      [|destruct Hoffer as [H|[]]; discriminate].
    destruct (load_data f) as [|it rest]; [destruct Hoffer as [H|[]]; discriminate|].
    destruct Hoffer as [H|[H|[]]]; [|discriminate].
    injection H as <- <-. split; reflexivity. }
  destruct H as [Hu Ho]. split; [exact Hu|]. split.
  - rewrite Ho in Hsel.
    destruct (find_present _ _ (named_present _ _ Hsel)) as (it & Hfind & Hname).
    exists it. split; [exact Hfind|]. split; [exact Hname|].
    unfold select_callback. rewrite Z.eqb_refl. cbn [negb].
    change (fun i : Item => String.eqb (name i) selected) with (named selected).
    rewrite Hfind. reflexivity.
  - intros who Hwho. unfold select_callback.
    apply Z.eqb_neq in Hwho. rewrite Hwho. reflexivity.
Qed.

Lemma offered_option_opens_its_view_witness :
  exec (mkWorld [] owned_on_third)
    (select_callback 7 [skin_a] 7 "Skin A") new_view
  = (Ok (Some session),
     emit (Io (Respond false (PurchasePrompt skin_a (gamepass_url session)))) new_view).
Proof.
  destruct (@offered_option_opens_its_view (Holds [skin_a]) (mkMessage 7 true "BuyItem")
              7 ["Skin A"] "Skin A" (mkWorld [] owned_on_third) new_view
              (or_introl eq_refl) (or_introl eq_refl))
    as (_ & (it & Hfind & _ & Hexec) & _).
  injection Hfind as <-. exact Hexec.
Defined.

End Menu.
